(** * ResearchMate: retrieval-augmented query pipeline

    Shallow embedding of the Python back end:
    - [app/utils/text_splitter.py]   : the chunker ([TextSplitter]);
    - [app/core/config.py]           : the [CHUNK_OVERLAP] validator;
    - [app/services/vector_store.py] : the embedding index and its search;
    - [app/services/document_service.py] : ingestion and deletion;
    - [app/services/llm_service.py], [app/services/rag_service.py] :
      the generation call and the query orchestrator.

    Python [int] is [Z]; Python [str] is a list of characters (code
    points 0..255); a [dict] is a [gmap]; a loop that may fail to
    terminate takes fuel. *)

From Stdlib Require Import ZArith List Ascii String QArith Lia Lqa DecimalString.
From stdpp Require Import gmap strings list.
Import ListNotations.

Abbreviation str := (list ascii).

(** A Python string literal. *)
Definition py (s : string) : str := list_ascii_of_string s.

(** ** Outcomes of a call

    A Python call returns a value, raises an exception, or (for a
    [while] loop run on fuel) has not finished yet. Exceptions are
    kept by class. *)

Inductive exn : Type :=
| ValueError
| ConnectionError
| FileNotFoundError
| Exception.

Inductive outcome (A : Type) : Type :=
| Return (a : A)
| Raise (e : exn)
| OutOfFuel.
Arguments Return {A} a.
Arguments Raise {A} e.
Arguments OutOfFuel {A}.

(** ** Python string primitives *)

Module PyStr.
Local Open Scope Z_scope.

Definition len (s : str) : Z := Z.of_nat (length s).

(** [str.isspace] on one character, for code points below 256:
    TAB..CR, FS..US, SPACE, NEL and NBSP. *)
Definition isspace (c : ascii) : bool :=
  let n := Z.of_nat (nat_of_ascii c) in
  ((9 <=? n) && (n <=? 13)) || ((28 <=? n) && (n <=? 32))
  || (n =? 133) || (n =? 160).

Fixpoint lstrip (s : str) : str :=
  match s with
  | [] => []
  | c :: r => if isspace c then lstrip r else s
  end.

Fixpoint rstrip (s : str) : str :=
  match s with
  | [] => []
  | c :: r =>
      match rstrip r with
      | [] => if isspace c then [] else [c]
      | r' => c :: r'
      end
  end.

(** [s.strip()] *)
Definition strip (s : str) : str := rstrip (lstrip s).

(** Clamping of one slice index against a string of length [n]:
    a negative index counts from the end. *)
Definition slice_bound (n i : Z) : Z :=
  if i <? 0 then Z.max (n + i) 0 else Z.min i n.

(** [s[i:j]] *)
Definition slice (s : str) (i j : Z) : str :=
  let lo := slice_bound (len s) i in
  let hi := slice_bound (len s) j in
  firstn (Z.to_nat (hi - lo)) (skipn (Z.to_nat lo) s).

(** [s[:j]] and [s[i:]] *)
Definition slice_to (s : str) (j : Z) : str := slice s 0 j.
Definition slice_from {A} (l : list A) (i : Z) : list A :=
  let n := Z.of_nat (length l) in
  skipn (Z.to_nat (slice_bound n i)) l.

Fixpoint startswith (s p : str) : bool :=
  match p, s with
  | [], _ => true
  | _ :: _, [] => false
  | a :: p', b :: s' => if ascii_dec a b then startswith s' p' else false
  end.

(** [s.rfind(sub)]: the highest index where [sub] occurs, [-1] if none. *)
Fixpoint rfind (s sub : str) : Z :=
  match s with
  | [] => if startswith [] sub then 0 else -1
  | _ :: r =>
      let k := rfind r sub in
      if 0 <=? k then k + 1
      else if startswith s sub then 0 else -1
  end.

(** [sep.join(parts)] *)
Fixpoint join (sep : str) (parts : list str) : str :=
  match parts with
  | [] => []
  | [p] => p
  | p :: rest => p ++ sep ++ join sep rest
  end.

Definition nl : str := ["010"%char].

End PyStr.

(** ** [app/utils/text_splitter.py] *)

Module TextSplitter.
Import PyStr.
Local Open Scope Z_scope.

Record t := { chunk_size : Z; chunk_overlap : Z }.

(** [__init__]: stores both parameters, checks nothing. *)
Definition __init__ (chunk_size chunk_overlap : Z) : outcome t :=
  Return {| chunk_size := chunk_size; chunk_overlap := chunk_overlap |}.

Definition sentence_endings : list str :=
  [py ". "; py "! "; py "? "; py "." ++ nl; py "!" ++ nl; py "?" ++ nl].

Definition _find_sentence_boundary (text : str) (start end_ : Z) : Z :=
  let search_start := Z.max start (end_ - 100) in
  let substring := slice text search_start end_ in
  let best_pos :=
    fold_left
      (fun best_pos ending =>
         let pos := rfind substring ending in
         if pos >? best_pos then pos + len ending else best_pos)
      sentence_endings (-1) in
  if best_pos >? 0 then search_start + best_pos else -1.

Definition _find_word_boundary (text : str) (start end_ : Z) : Z :=
  let search_start := Z.max start (end_ - 50) in
  let substring := slice text search_start end_ in
  let pos := rfind substring (py " ") in
  if pos >? 0 then search_start + pos + 1 else end_.

(** The variables of the [while] loop of [split_text]. *)
Record loop_state := { start : Z; chunks : list str }.

(** The window end chosen by one iteration. *)
Definition window_end (self : t) (text : str) (start : Z) : Z :=
  let end_ := start + chunk_size self in
  if end_ <? len text then
    let sentence_end := _find_sentence_boundary text start end_ in
    if sentence_end >? start then sentence_end
    else
      let word_end := _find_word_boundary text start end_ in
      if word_end >? start then word_end else end_
  else end_.

(** One iteration of the loop body. *)
Definition split_step (self : t) (text : str) (st : loop_state) : loop_state :=
  let end_ := window_end self text (start st) in
  let chunk := strip (slice text (start st) end_) in
  let chunks' :=
    match chunk with
    | [] => chunks st
    | _ :: _ => chunks st ++ [chunk]
    end in
  {| start := if end_ <? len text then end_ - chunk_overlap self else len text;
     chunks := chunks' |}.

Fixpoint split_loop (fuel : nat) (self : t) (text : str) (st : loop_state)
  : outcome (list str) :=
  match fuel with
  | O => OutOfFuel
  | S fuel' =>
      if start st <? len text
      then split_loop fuel' self text (split_step self text st)
      else Return (chunks st)
  end.

(** The state on entry to the loop. *)
Definition init : loop_state := {| start := 0; chunks := [] |}.

Definition split_text (fuel : nat) (self : t) (text : str) : outcome (list str) :=
  match text with
  | [] => Return []
  | _ :: _ => split_loop fuel self text init
  end.

(** The loop state after [n] iterations (the loop may have stopped
    earlier; [split_loop] checks the guard). *)
Fixpoint iterate (n : nat) (self : t) (text : str) (st : loop_state) : loop_state :=
  match n with
  | O => st
  | S n' =>
      if start st <? len text
      then iterate n' self text (split_step self text st)
      else st
  end.

(** Construction followed by [split_text], as a caller does it. *)
Definition chunk (fuel : nat) (text : str) (size overlap : Z) : outcome (list str) :=
  match __init__ size overlap with
  | Return self => split_text fuel self text
  | Raise e => Raise e
  | OutOfFuel => OutOfFuel
  end.

(** A chunk as [split_text] means to emit it: not empty, equal to
    its own trim, first and last character not whitespace. *)
Definition stripped (c : str) : Prop :=
  c <> [] /\ strip c = c /\
  forall d, isspace (hd d c) = false /\ isspace (List.last c d) = false.

(** All chunks within the configured size. *)
Definition within_size (self : t) (cs : list str) : Prop :=
  Forall (fun c => len c <= chunk_size self) cs.

(** The invariant of the loop behind [within_size]: [start] never
    falls below [- chunk_size], and is negative only in a text longer
    than one window. *)
Definition size_inv (self : t) (text : str) (st : loop_state) : Prop :=
  - chunk_size self <= start st /\
  (chunk_size self < len text \/ 0 <= start st) /\
  within_size self (chunks st).

(** A text of whitespace only; the empty text is one. *)
Definition whitespace_only (text : str) : Prop :=
  Forall (fun c => isspace c = true) text.

(** A text and parameters on which the loop stops advancing: the
    sentence end found at position 3 lies inside the overlap. *)
Definition stalling_splitter : t := {| chunk_size := 10; chunk_overlap := 5 |}.
Definition stalling_text : str := py "a. bbbbbbbbbbbbbbbbbbbb".

End TextSplitter.


(** ** [app/core/config.py] *)

Module Settings.
Local Open Scope Z_scope.

(** The fields of [Settings] the pipeline reads. *)
Record t := {
  CHUNK_SIZE : Z;
  CHUNK_OVERLAP : Z;
  TOP_K_RETRIEVAL : Z;
  UPLOAD_DIR : str
}.

(** [validate_chunk_overlap(cls, v, info)]; [data] is [info.data], the
    integer fields validated so far. *)
Definition validate_chunk_overlap (v : Z) (data : gmap str Z) : outcome Z :=
  let chunk_size := default 1000 (data !! py "CHUNK_SIZE") in
  if v >=? chunk_size then Raise ValueError else Return v.

End Settings.

(** ** Values, metadata and the world the services run in *)

(** A metadata value: this code base stores strings and integers. *)
Inductive pyval : Type :=
| VStr (s : str)
| VInt (z : Z).

#[global] Instance pyval_eq_dec : EqDecision pyval.
Proof. solve_decision. Defined.

(** [str(v)] *)
Definition str_of_Z (z : Z) : str := py (NilZero.string_of_int (Z.to_int z)).
Definition str_of_pyval (v : pyval) : str :=
  match v with VStr s => s | VInt z => str_of_Z z end.

(** A LangChain [Document]. *)
Record Document := { page_content : str; metadata : gmap str pyval }.

(** One row of the Chroma collection. *)
Record entry := { entry_id : str; entry_text : str; entry_metadata : gmap str pyval }.

(** One record of [documents_metadata]. *)
Record DocMeta := {
  dm_id : str;
  dm_filename : str;
  dm_upload_date : str;
  dm_file_path : str;
  dm_chunk_count : Z;
  dm_chunk_ids : list pyval;
  dm_size : Z;
  dm_text_length : Z;
  dm_processed : bool
}.

(** ** [app/models/schemas.py] *)

Module Schemas.
Local Open Scope Z_scope.

Inductive role := user | assistant | system.

Record ConversationMessage := { msg_role : role; msg_content : str; msg_timestamp : str }.

Record ConversationHistory := {
  conversation_id : str;
  messages : list ConversationMessage;
  created_at : str;
  updated_at : str
}.

Record SourceDocument := {
  filename : str;
  page : option Z;
  chunk_id : str;
  relevance_score : Q;
  content_preview : str
}.

(** The validation of the [SourceDocument] model: [filename] and
    [chunk_id] are strings, [page] is absent or an integer [>= 1],
    [relevance_score] lies in [0, 1], [content_preview] has at most
    500 characters. An integer given for a string field is rejected.
    A string given for [page] is read as an integer by the validation
    library where it can be ([str_as_int], [None] where it refuses),
    and the integer read is then held to the same bound. *)
Definition make_SourceDocument (str_as_int : str -> option Z)
    (filename : pyval) (page : option pyval)
    (chunk_id : pyval) (relevance_score : Q) (content_preview : str)
  : outcome SourceDocument :=
  match filename, chunk_id with
  | VStr f, VStr c =>
      let page_ok :=
        match page with
        | None => Some None
        | Some (VInt p) => if 1 <=? p then Some (Some p) else None
        | Some (VStr s) =>
            match str_as_int s with
            | Some p => if 1 <=? p then Some (Some p) else None
            | None => None
            end
        end in
      match page_ok with
      | Some p =>
          if Qle_bool 0 relevance_score && Qle_bool relevance_score 1
             && (Z.of_nat (length content_preview) <=? 500)
          then Return {| filename := f; page := p; chunk_id := c;
                         relevance_score := relevance_score;
                         content_preview := content_preview |}
          else Raise ValueError
      | None => Raise ValueError
      end
  | _, _ => Raise ValueError
  end.

End Schemas.

(** The external collaborators: the uuid generator, the clock, pypdf,
    LangChain's recursive splitter, the Chroma nearest-neighbour query
    (hits with their distances), whether the store validates the ids
    it is asked to delete, the Ollama model, the validation library's
    reading of a string as an integer, and the settings. *)
Record Env := {
  uuid4 : nat -> str;
  isoformat : nat -> str;
  pdf_pages : str -> outcome (list (option str));
  recursive_split : Z -> Z -> str -> outcome (list str);
  similarity_search_with_score : list entry -> str -> Z -> list (Document * Q);
  strict_ids : bool;
  ollama : str -> str;
  str_as_int : str -> option Z;
  settings : Settings.t
}.

(** The mutable state: uuid draws and clock reads so far, the file
    system, the Chroma collection, the service dictionaries, whether
    Ollama answers, and the prompts sent to it. *)
Record World := {
  draws : nat;
  ticks : nat;
  files : gmap str str;
  collection : list entry;
  documents_metadata : gmap str DocMeta;
  metadata_file : gmap str DocMeta;
  conversations : gmap str Schemas.ConversationHistory;
  ollama_up : bool;
  llm_calls : list str
}.

Definition set_draws (n : nat) (w : World) : World :=
  {| draws := n; ticks := ticks w; files := files w; collection := collection w;
     documents_metadata := documents_metadata w; metadata_file := metadata_file w;
     conversations := conversations w; ollama_up := ollama_up w;
     llm_calls := llm_calls w |}.
Definition set_ticks (n : nat) (w : World) : World :=
  {| draws := draws w; ticks := n; files := files w; collection := collection w;
     documents_metadata := documents_metadata w; metadata_file := metadata_file w;
     conversations := conversations w; ollama_up := ollama_up w;
     llm_calls := llm_calls w |}.
Definition set_files (f : gmap str str) (w : World) : World :=
  {| draws := draws w; ticks := ticks w; files := f; collection := collection w;
     documents_metadata := documents_metadata w; metadata_file := metadata_file w;
     conversations := conversations w; ollama_up := ollama_up w;
     llm_calls := llm_calls w |}.
Definition set_collection (c : list entry) (w : World) : World :=
  {| draws := draws w; ticks := ticks w; files := files w; collection := c;
     documents_metadata := documents_metadata w; metadata_file := metadata_file w;
     conversations := conversations w; ollama_up := ollama_up w;
     llm_calls := llm_calls w |}.
Definition set_documents_metadata (m : gmap str DocMeta) (w : World) : World :=
  {| draws := draws w; ticks := ticks w; files := files w; collection := collection w;
     documents_metadata := m; metadata_file := metadata_file w;
     conversations := conversations w; ollama_up := ollama_up w;
     llm_calls := llm_calls w |}.
Definition set_metadata_file (m : gmap str DocMeta) (w : World) : World :=
  {| draws := draws w; ticks := ticks w; files := files w; collection := collection w;
     documents_metadata := documents_metadata w; metadata_file := m;
     conversations := conversations w; ollama_up := ollama_up w;
     llm_calls := llm_calls w |}.
Definition set_conversations (c : gmap str Schemas.ConversationHistory) (w : World) : World :=
  {| draws := draws w; ticks := ticks w; files := files w; collection := collection w;
     documents_metadata := documents_metadata w; metadata_file := metadata_file w;
     conversations := c; ollama_up := ollama_up w;
     llm_calls := llm_calls w |}.
Definition set_llm_calls (l : list str) (w : World) : World :=
  {| draws := draws w; ticks := ticks w; files := files w; collection := collection w;
     documents_metadata := documents_metadata w; metadata_file := metadata_file w;
     conversations := conversations w; ollama_up := ollama_up w;
     llm_calls := l |}.

(** ** The state-and-exception monad of a service call

    A call runs in a world and leaves a world, also when it raises. *)

Definition M (A : Type) : Type := World -> outcome A * World.

Definition ret {A} (a : A) : M A := fun w => (Return a, w).
Definition raise {A} (e : exn) : M A := fun w => (Raise e, w).
Definition bind {A B} (m : M A) (k : A -> M B) : M B :=
  fun w =>
    match m w with
    | (Return a, w') => k a w'
    | (Raise e, w') => (Raise e, w')
    | (OutOfFuel, w') => (OutOfFuel, w')
    end.
Definition get : M World := fun w => (Return w, w).
Definition modify (f : World -> World) : M unit := fun w => (Return tt, f w).
Definition lift {A} (o : outcome A) : M A := fun w => (o, w).

(** [try: m except Exception as e: raise h(e)] *)
Definition rethrow {A} (h : exn -> exn) (m : M A) : M A :=
  fun w =>
    match m w with
    | (Raise e, w') => (Raise (h e), w')
    | r => r
    end.

Notation "'let!' x ':=' m 'in' k" := (bind m (fun x => k))
  (at level 10, x name, m at level 100, k at level 200).

(** [for x in xs: ...] accumulating results *)
Fixpoint mapM {A B} (f : A -> M B) (xs : list A) : M (list B) :=
  match xs with
  | [] => ret []
  | x :: r => let! y := f x in let! ys := mapM f r in ret (y :: ys)
  end.

(** Two worlds with the same index, conversations and model calls. *)
Definition same_store (w w' : World) : Prop :=
  collection w' = collection w /\ conversations w' = conversations w /\
  llm_calls w' = llm_calls w.

(** [str(uuid.uuid4())] and [datetime.utcnow().isoformat()] *)
Definition new_uuid (env : Env) : M str :=
  fun w => (Return (uuid4 env (draws w)), set_draws (S (draws w)) w).
Definition utcnow (env : Env) : M str :=
  fun w => (Return (isoformat env (ticks w)), set_ticks (S (ticks w)) w).

(** [d.get(key, default)] *)
Definition dict_get {V} (d : gmap str V) (key : str) (dflt : V) : V :=
  default dflt (d !! key).

(** ** The Chroma collection (external store, as the services use it) *)

Module Chroma.

(** [collection.upsert]: a row with a known id is replaced in place,
    a new one is appended. *)
Fixpoint upsert (e : entry) (rows : list entry) : list entry :=
  match rows with
  | [] => [e]
  | r :: rest =>
      if decide (entry_id r = entry_id e) then e :: rest
      else r :: upsert e rest
  end.

Definition is_str (v : pyval) : bool :=
  match v with VStr _ => true | VInt _ => false end.

(** [collection.delete(ids=ids)]: the rows whose id is listed go. An
    id that is not a string names no row; a store that validates ids
    ([strict_ids]) rejects the call instead and deletes nothing. *)
Definition delete_ids (env : Env) (ids : list pyval) : M unit :=
  if strict_ids env && negb (forallb is_str ids) then raise ValueError
  else
    modify (fun w =>
      set_collection
        (filter (fun r => VStr (entry_id r) ∉ ids) (collection w)) w).

(** [collection.delete(where={key: value})] *)
Definition delete_where (key : str) (value : pyval) : M unit :=
  modify (fun w =>
    set_collection
      (filter (fun r => entry_metadata r !! key ≠ Some value) (collection w)) w).

(** [collection.count()] *)
Definition count (w : World) : Z := Z.of_nat (length (collection w)).

(** [vectorstore.add_texts(texts, metadatas, ids)] *)
Fixpoint add_texts (texts : list str) (metadatas : list (gmap str pyval))
    (ids : list str) (rows : list entry) : list entry :=
  match texts, metadatas, ids with
  | t :: ts, m :: ms, i :: is_ =>
      add_texts ts ms is_
        (upsert {| entry_id := i; entry_text := t; entry_metadata := m |} rows)
  | _, _, _ => rows
  end.

End Chroma.

(** ** [app/services/vector_store.py] *)

Module VectorStoreService.
Local Open Scope Z_scope.

Record AddResult := { status : str; documents_added : Z }.

(** One element of the list [similarity_search] returns. *)
Record Hit := {
  content : str;
  hit_metadata : gmap str pyval;
  score : Q;
  id : pyval
}.

(** The metadata of chunk [i] of [n]. *)
Definition chunk_metadata (md : gmap str pyval) (chunk_id : str) (i n : Z)
    (timestamp : str) : gmap str pyval :=
  <[py "timestamp" := VStr timestamp]>
    (<[py "total_chunks" := VInt n]>
       (<[py "chunk_index" := VInt i]>
          (<[py "chunk_id" := VStr chunk_id]> md))).

(** The [for i, chunk in enumerate(chunks)] loop of [add_documents]:
    the metadata and the id of every chunk. *)
Fixpoint prepare (env : Env) (md : gmap str pyval) (n : Z) (i : Z)
    (chunks : list str) : M (list (gmap str pyval) * list str) :=
  match chunks with
  | [] => ret ([], [])
  | _ :: rest =>
      let! chunk_id := new_uuid env in
      let! timestamp := utcnow env in
      let! r := prepare env md n (i + 1) rest in
      ret (chunk_metadata md chunk_id i n timestamp :: fst r, chunk_id :: snd r)
  end.

Definition add_documents (env : Env) (chunks : list str) (md : gmap str pyval)
  : M AddResult :=
  rethrow (fun _ => Exception)
    (match chunks with
     | [] => ret {| status := py "skipped"; documents_added := 0 |}
     | _ :: _ =>
         let n := Z.of_nat (length chunks) in
         let! r := prepare env md n 0 chunks in
         let! _ := modify (fun w =>
                     set_collection
                       (Chroma.add_texts chunks (fst r) (snd r) (collection w)) w) in
         ret {| status := py "success"; documents_added := n |}
     end).

(** Adjacent elements in ascending, respectively descending, order. *)
Fixpoint nondecreasing (l : list Q) : bool :=
  match l with
  | a :: (b :: _) as r => Qle_bool a b && nondecreasing r
  | _ => true
  end.

Fixpoint nonincreasing (l : list Q) : bool :=
  match l with
  | a :: (b :: _) as r => Qle_bool b a && nonincreasing r
  | _ => true
  end.

(** The conversion of a distance into a similarity score. *)
Definition similarity_score (score : Q) : Q :=
  if Qlt_le_dec score 1 then 1 - score else 0.

Definition format_hit (r : Document * Q) : Hit :=
  let (doc, score) := r in
  {| content := page_content doc;
     hit_metadata := metadata doc;
     score := similarity_score score;
     id := dict_get (metadata doc) (py "chunk_id") (VStr (py "unknown")) |}.

Definition similarity_search (env : Env) (query : str) (k : option Z)
  : M (list Hit) :=
  rethrow (fun _ => Exception)
    (let k := default (Settings.TOP_K_RETRIEVAL (settings env)) k in
     let! w := get in
     let results := similarity_search_with_score env (collection w) query k in
     ret (map format_hit results)).

Definition delete_documents (env : Env) (ids : list pyval) : M Z :=
  let! _ := Chroma.delete_ids env ids in
  ret (Z.of_nat (length ids)).

Definition delete_by_source (source : str) : M unit :=
  Chroma.delete_where (py "filename") (VStr source).

End VectorStoreService.

(** ** [app/services/document_service.py] *)

Module DocumentProcessor.
Import PyStr.
Local Open Scope Z_scope.

Record t := { chunk_size : Z; chunk_overlap : Z }.

(** [x or y] on integers *)
Definition or_ (x : option Z) (y : Z) : Z :=
  match x with
  | Some v => if v =? 0 then y else v
  | None => y
  end.

Definition __init__ (env : Env) (chunk_size chunk_overlap : option Z) : t :=
  {| chunk_size := or_ chunk_size (Settings.CHUNK_SIZE (settings env));
     chunk_overlap := or_ chunk_overlap (Settings.CHUNK_OVERLAP (settings env)) |}.

Definition blank (s : str) : bool :=
  match strip s with [] => true | _ :: _ => false end.

(** The pages with text, joined by blank lines. *)
Definition extract_text_from_pdf (env : Env) (file_path : str) : M str :=
  rethrow (fun e => match e with FileNotFoundError => e | _ => Exception end)
    (let! w := get in
     match files w !! file_path with
     | None => raise FileNotFoundError
     | Some bytes =>
         let! pages := lift (pdf_pages env bytes) in
         let text_parts :=
           omap (fun p => match p with
                          | Some page_text =>
                              if blank page_text then None else Some page_text
                          | None => None
                          end) pages in
         let full_text := join (nl ++ nl) text_parts in
         if blank full_text then ret [] else ret full_text
     end).

Definition chunk_text (env : Env) (self : t) (text : str)
    (chunk_size chunk_overlap : option Z) : M (list str) :=
  rethrow (fun e => match e with ValueError => e | _ => Exception end)
    (if blank text then raise ValueError
     else
       match chunk_size, chunk_overlap with
       | None, None =>
           lift (recursive_split env (DocumentProcessor.chunk_size self)
                   (DocumentProcessor.chunk_overlap self) text)
       | _, _ =>
           lift (recursive_split env
                   (or_ chunk_size (DocumentProcessor.chunk_size self))
                   (or_ chunk_overlap (DocumentProcessor.chunk_overlap self)) text)
       end).

Record Processed := {
  total_chunks : Z;
  chunks : list str;
  text_length : Z;
  error : option str
}.

Definition process_document (env : Env) (self : t) (file_path filename : str)
  : M Processed :=
  rethrow (fun _ => Exception)
    (let! _ := utcnow env in
     let! extracted_text := extract_text_from_pdf env file_path in
     if blank extracted_text then
       ret {| total_chunks := 0; chunks := []; text_length := 0;
              error := Some (py "No text could be extracted from the document") |}
     else
       let! chunks := chunk_text env self extracted_text None None in
       let! _ := utcnow env in
       ret {| total_chunks := Z.of_nat (length chunks); chunks := chunks;
              text_length := len extracted_text; error := None |}).

End DocumentProcessor.

Module DocumentService.
Import PyStr.
Local Open Scope Z_scope.

Record ProcessResult := {
  document_id : str;
  chunks_created : Z;
  error : option str
}.

Definition _save_metadata : M unit :=
  modify (fun w => set_metadata_file (documents_metadata w) w).

(** [os.path.join(upload_dir, name)] for a relative [name]. *)
Definition path_join (dir name : str) : str :=
  match List.last dir "/"%char with
  | "/"%char => dir ++ name
  | _ => match dir with [] => name | _ => dir ++ py "/" ++ name end
  end.

Definition process_document (env : Env) (filename : str) (content : str)
  : M ProcessResult :=
  let! document_id := new_uuid env in
  let file_path :=
    path_join (Settings.UPLOAD_DIR (settings env))
      (document_id ++ py "_" ++ filename) in
  let! _ := modify (fun w => set_files (<[file_path := content]> (files w)) w) in
  let processor :=
    DocumentProcessor.__init__ env
      (Some (Settings.CHUNK_SIZE (settings env)))
      (Some (Settings.CHUNK_OVERLAP (settings env))) in
  let! processing_result :=
    DocumentProcessor.process_document env processor file_path filename in
  let chunks := DocumentProcessor.chunks processing_result in
  match chunks with
  | [] =>
      ret {| document_id := document_id; chunks_created := 0;
             error := Some (default (py "No text extracted")
                              (DocumentProcessor.error processing_result)) |}
  | _ :: _ =>
      let base_metadata : gmap str pyval :=
        <[py "document_id" := VStr document_id]>
          (<[py "filename" := VStr filename]> ∅) in
      let! result := VectorStoreService.add_documents env chunks base_metadata in
      let chunk_ids := [VInt (VectorStoreService.documents_added result)] in
      let! upload_date := utcnow env in
      let! _ := modify (fun w =>
        set_documents_metadata
          (<[document_id :=
               {| dm_id := document_id;
                  dm_filename := filename;
                  dm_upload_date := upload_date;
                  dm_file_path := file_path;
                  dm_chunk_count := Z.of_nat (length chunks);
                  dm_chunk_ids := chunk_ids;
                  dm_size := len content;
                  dm_text_length := DocumentProcessor.text_length processing_result;
                  dm_processed := true |}]> (documents_metadata w)) w) in
      let! _ := _save_metadata in
      ret {| document_id := document_id;
             chunks_created := Z.of_nat (length chunks);
             error := None |}
  end.

Definition delete_document (env : Env) (document_id : str) : M unit :=
  let! w := get in
  match documents_metadata w !! document_id with
  | None => raise ValueError
  | Some metadata =>
      let chunk_ids := dm_chunk_ids metadata in
      let! _ := match chunk_ids with
                | [] => ret 0
                | _ :: _ => VectorStoreService.delete_documents env chunk_ids
                end in
      let file_path := dm_file_path metadata in
      let! _ := modify (fun w =>
                  match file_path with
                  | [] => w
                  | _ :: _ => set_files (delete file_path (files w)) w
                  end) in
      let! _ := modify (fun w =>
                  set_documents_metadata (delete document_id (documents_metadata w)) w) in
      _save_metadata
  end.

End DocumentService.

(** ** [app/services/llm_service.py] *)

Module LLMService.
Import PyStr.
Local Open Scope Z_scope.

(** [self.prompt_template.format(context=..., question=...)] *)
Definition prompt_template (context question : str) : str :=
  py "You are a helpful AI assistant specialized in explaining research papers and ML/DS concepts."
  ++ nl ++
  py "Use the following context to answer the question. If you don't know the answer, say so."
  ++ nl ++ nl ++ py "Context: " ++ context
  ++ nl ++ nl ++ py "Question: " ++ question
  ++ nl ++ nl ++ py "Answer:".

Definition _validate_ollama_connection : M unit :=
  let! w := get in
  if ollama_up w then ret tt else raise ConnectionError.

Record SourceDoc := {
  sd_content : str;
  sd_metadata : gmap str pyval;
  sd_source : pyval
}.

Record Response := {
  answer : str;
  source_documents : list SourceDoc;
  query : str
}.

(** The [RetrievalQA] chain of type "stuff": the retriever fetches
    [TOP_K_RETRIEVAL] documents for the query, their texts joined by
    blank lines become the context of the prompt, and the model is
    called once with that prompt. *)
Definition qa_chain_invoke (env : Env) (query : str) : M (str * list Document) :=
  let! w := get in
  let docs :=
    map fst (similarity_search_with_score env (collection w) query
               (Settings.TOP_K_RETRIEVAL (settings env))) in
  let context := join (nl ++ nl) (map page_content docs) in
  let prompt := prompt_template context query in
  let! _ := modify (fun w => set_llm_calls (llm_calls w ++ [prompt]) w) in
  ret (ollama env prompt, docs).

Definition generate_response (env : Env) (query : str) : M Response :=
  rethrow (fun e => match e with ConnectionError => e | _ => Exception end)
    (let! _ := _validate_ollama_connection in
     let! result := qa_chain_invoke env query in
     let source_documents :=
       map (fun doc =>
              {| sd_content := page_content doc;
                 sd_metadata := metadata doc;
                 sd_source := dict_get (metadata doc) (py "filename")
                                (VStr (py "Unknown")) |})
           (snd result) in
     ret {| answer := strip (fst result);
            source_documents := source_documents;
            query := query |}).

End LLMService.

(** ** [app/services/rag_service.py] *)

Module RAGService.
Import PyStr Schemas.
Local Open Scope Z_scope.

Record QueryResult := {
  answer : str;
  sources : list SourceDocument;
  conversation_id : str
}.

Definition no_information : str :=
  py "I couldn't find any relevant information in the documents to answer your question.".

Fixpoint _build_context_from (i : Z) (documents : list VectorStoreService.Hit)
  : list str :=
  match documents with
  | [] => []
  | doc :: rest =>
      let source :=
        dict_get (VectorStoreService.hit_metadata doc) (py "source")
          (VStr (py "Unknown")) in
      (py "[Document " ++ str_of_Z i ++ py " - " ++ str_of_pyval source ++ py "]"
       ++ nl ++ VectorStoreService.content doc ++ nl)
      :: _build_context_from (i + 1) rest
  end.

Definition _build_context (documents : list VectorStoreService.Hit) : str :=
  join nl (_build_context_from 1 documents).

Definition _format_source (env : Env) (doc : VectorStoreService.Hit)
  : M SourceDocument :=
  let md := VectorStoreService.hit_metadata doc in
  let content := VectorStoreService.content doc in
  let! fresh := new_uuid env in
  lift (make_SourceDocument (str_as_int env)
          (dict_get md (py "source") (VStr (py "Unknown")))
          (md !! py "page")
          (dict_get md (py "chunk_id") (VStr fresh))
          (VectorStoreService.score doc)
          (if 200 <? len content then slice_to content 200 ++ py "..."
           else content)).

Definition _format_sources (env : Env) (documents : list VectorStoreService.Hit)
  : M (list SourceDocument) :=
  mapM (_format_source env) documents.

Definition _format_conversation_history (conversation : ConversationHistory) : str :=
  join nl
    (map (fun msg =>
            (match msg_role msg with user => py "User" | _ => py "Assistant" end)
            ++ py ": " ++ msg_content msg)
         (slice_from (messages conversation) (-5))).

Definition _update_conversation (env : Env) (conversation_id question answer : str)
  : M unit :=
  let! w := get in
  let! _ :=
    match conversations w !! conversation_id with
    | Some _ => ret tt
    | None =>
        let! created := utcnow env in
        let! updated := utcnow env in
        modify (fun w =>
          set_conversations
            (<[conversation_id :=
                 {| Schemas.conversation_id := conversation_id;
                    messages := [];
                    created_at := created;
                    updated_at := updated |}]> (conversations w)) w)
    end in
  let! t1 := utcnow env in
  let! t2 := utcnow env in
  let! t3 := utcnow env in
  modify (fun w =>
    set_conversations
      (alter (fun c =>
                {| Schemas.conversation_id := Schemas.conversation_id c;
                   messages :=
                     messages c
                     ++ [{| msg_role := user; msg_content := question;
                            msg_timestamp := t1 |}]
                     ++ [{| msg_role := assistant; msg_content := answer;
                            msg_timestamp := t2 |}];
                   created_at := created_at c;
                   updated_at := t3 |})
         conversation_id (conversations w)) w).

Definition query (env : Env) (question : str) (conversation_id : option str)
    (max_results : Z) : M QueryResult :=
  let! conversation_id :=
    match conversation_id with
    | Some (c :: r) => ret (c :: r)
    | _ => new_uuid env
    end in
  let! retrieved_docs :=
    VectorStoreService.similarity_search env question (Some max_results) in
  match retrieved_docs with
  | [] =>
      ret {| answer := no_information; sources := [];
             conversation_id := conversation_id |}
  | _ :: _ =>
      let context := _build_context retrieved_docs in
      let! w := get in
      let conversation_context :=
        match conversations w !! conversation_id with
        | Some h => _format_conversation_history h
        | None => []
        end in
      let! result := LLMService.generate_response env question in
      let answer := LLMService.answer result in
      let! sources := _format_sources env retrieved_docs in
      let! _ := _update_conversation env conversation_id question answer in
      ret {| answer := answer; sources := sources;
             conversation_id := conversation_id |}
  end.

Definition get_conversation_history (conversation_id : str)
  : M (option ConversationHistory) :=
  let! w := get in
  ret (conversations w !! conversation_id).

End RAGService.

(** ** A reference environment

    An exact nearest-neighbour store and simple stand-ins for the
    other collaborators, used to run the services on concrete inputs. *)

Module Reference.
Import PyStr.
Local Open Scope Z_scope.

Definition doc_of_entry (r : entry) : Document :=
  {| page_content := entry_text r; metadata := entry_metadata r |}.

(** Stable insertion by ascending distance. *)
Fixpoint insert_hit (h : Document * Q) (l : list (Document * Q)) : list (Document * Q) :=
  match l with
  | [] => [h]
  | x :: r => if Qle_bool (snd x) (snd h) then x :: insert_hit h r else h :: x :: r
  end.

Definition sort_hits (l : list (Document * Q)) : list (Document * Q) :=
  fold_left (fun acc h => insert_hit h acc) l [].

(** The [k] nearest rows under [distance], nearest first. *)
Definition exact_knn (distance : str -> str -> Q) (rows : list entry)
    (query : str) (k : Z) : list (Document * Q) :=
  firstn (Z.to_nat k)
    (sort_hits (map (fun r => (doc_of_entry r, distance query (entry_text r))) rows)).

(** A distance for the examples: the difference of the lengths, in
    hundredths. *)
Definition length_distance (query text : str) : Q :=
  Z.abs (len query - len text) # 100.

Definition default_settings : Settings.t :=
  {| Settings.CHUNK_SIZE := 1000; Settings.CHUNK_OVERLAP := 200;
     Settings.TOP_K_RETRIEVAL := 5; Settings.UPLOAD_DIR := py "./data/raw" |}.

(** A string of decimal digits read as a number. *)
Definition digit_of (c : ascii) : option Z :=
  let n := Z.of_nat (nat_of_ascii c) in
  if (48 <=? n) && (n <=? 57) then Some (n - 48) else None.

Fixpoint digits_from (acc : Z) (s : str) : option Z :=
  match s with
  | [] => Some acc
  | c :: r =>
      match digit_of c with
      | Some d => digits_from (10 * acc + d) r
      | None => None
      end
  end.

Definition digits (s : str) : option Z :=
  match s with
  | [] => None
  | _ :: _ => digits_from 0 s
  end.

Definition env_of (distance : str -> str -> Q) (strict : bool) : Env :=
  {| uuid4 := fun n => py "uuid-" ++ str_of_Z (Z.of_nat n);
     isoformat := fun n => py "t" ++ str_of_Z (Z.of_nat n);
     pdf_pages := fun bytes => Return [Some bytes];
     recursive_split := fun size overlap text =>
       TextSplitter.chunk (S (length text)) text size overlap;
     similarity_search_with_score := exact_knn distance;
     strict_ids := strict;
     ollama := fun prompt => py "(answer)";
     str_as_int := digits;
     settings := default_settings |}.

(** The reference environment: the store validates ids, as Chroma
    does. *)
Definition env0 : Env := env_of length_distance true.

Definition empty_world : World :=
  {| draws := 0; ticks := 0; files := ∅; collection := [];
     documents_metadata := ∅; metadata_file := ∅; conversations := ∅;
     ollama_up := true; llm_calls := [] |}.

(** A distance as a store reports it for a query equal to a stored
    text when rounding pushes the cosine distance just below zero. *)
Definition rounding_distance (query text : str) : Q :=
  if decide (query = text) then (-1 # 8388608) else length_distance query text.

(** The result of a call and the world it leaves. *)
Definition result_of {A} (r : outcome A * World) : outcome A := fst r.
Definition world_of {A} (r : outcome A * World) : World := snd r.

(** A view of what a call returned. *)
Definition on_return {A B} (f : A -> B) (o : outcome A) : outcome B :=
  match o with
  | Return a => Return (f a)
  | Raise e => Raise e
  | OutOfFuel => OutOfFuel
  end.

(** Sample inputs. *)
Definition sample_splitter : TextSplitter.t :=
  {| TextSplitter.chunk_size := 120; TextSplitter.chunk_overlap := 20 |}.

Definition sample_text : str :=
  py "Retrieval augmented generation answers a question in two steps. First the question is embedded and the nearest chunks are fetched! Then a language model writes the answer from those chunks. Does it always work? No: the chunks must contain the facts that the question asks about, and the model must use them.".

Definition ml_basics : list str :=
  [py "Machine learning is a field of study.";
   py "It learns from data.";
   py "Models generalise from examples to new inputs.";
   py "Supervised learning uses labels.";
   py "Unsupervised learning finds structure without labels, such as clusters."].

Definition ml_metadata : gmap str pyval :=
  {[py "filename" := VStr (py "ml_basics.txt")]}.

(** The index after adding the five chunks of ml_basics.txt. *)
Definition ml_world : World :=
  world_of (VectorStoreService.add_documents env0 ml_basics ml_metadata empty_world).

Definition ml_question : str := py "What is machine learning?".

(** The same index after one answered question in conversation "c1". *)
Definition chat_world : World :=
  world_of (RAGService.query env0 ml_question (Some (py "c1")) 3 ml_world).

Definition follow_up : str := py "And deep learning?".

(** An upload: the file name and the bytes, which [pdf_pages] of the
    reference environment reads as one page of text. *)
Definition paper_name : str := py "paper.pdf".
Definition paper_bytes : str := py "Alpha beta gamma. Delta epsilon.".

(** The world after the upload. *)
Definition paper_world : World :=
  world_of (DocumentService.process_document env0 paper_name paper_bytes empty_world).

End Reference.


(** ** Further notions for the chunker *)

Module TextSplitterMore.
Import PyStr TextSplitter.
Local Open Scope Z_scope.

(** [c] is a contiguous piece of [text]. *)
Definition infix (c text : str) : Prop := exists pre post, text = pre ++ c ++ post.

(** [sub] occurs in [s] at index [k]. *)
Definition occurs_at (s sub : str) (k : Z) : Prop :=
  exists pre rest, s = pre ++ sub ++ rest /\ len pre = k.

(** While the loop advances, the chunks appended plus the characters
    still ahead never exceed the length of the text. *)
Definition count_inv_holds (text : str) (st : loop_state) : Prop :=
  0 <= start st /\
  Z.of_nat (length (chunks st)) + Z.max 0 (len text - start st) <= len text.

End TextSplitterMore.

(** ** [app/services/vector_store.py], the remaining operations *)

Module VectorStoreAdmin.
Local Open Scope Z_scope.

Record Status := { healthy : bool; document_count : Z }.

Record CollectionInfo := {
  info_document_count : Z;
  embedding_dimension : Z;
  distance_metric : str
}.

(** [delete_collection]: the collection is dropped and created anew,
    empty. *)
Definition delete_collection : M str :=
  rethrow (fun _ => Exception)
    (let! _ := modify (set_collection []) in
     ret (py "success")).

(** [get_status]: counting the rows does not fail on this store. *)
Definition get_status : M Status :=
  let! w := get in
  ret {| healthy := true; document_count := Chroma.count w |}.

Definition get_collection_info : M CollectionInfo :=
  let! w := get in
  ret {| info_document_count := Chroma.count w;
         embedding_dimension := 384;
         distance_metric := py "cosine" |}.

(** The rows [add_documents] builds for [chunks], from uuid draw [d]
    and clock read [t] on, numbering the chunks from [i]; [n] is the
    number of chunks of the call. *)
Fixpoint new_rows (env : Env) (md : gmap str pyval) (n : Z) (d t : nat) (i : Z)
    (chunks : list str) : list entry :=
  match chunks with
  | [] => []
  | c :: r =>
      {| entry_id := uuid4 env d;
         entry_text := c;
         entry_metadata :=
           VectorStoreService.chunk_metadata md (uuid4 env d) i n (isoformat env t) |}
      :: new_rows env md n (S d) (S t) (i + 1) r
  end.

(** The next [n] uuids are distinct and name no row of the index. *)
Definition fresh_ids (env : Env) (w : World) (n : nat) : Prop :=
  NoDup (map (uuid4 env) (seq (draws w) n)) /\
  forall i, In i (map (uuid4 env) (seq (draws w) n)) ->
            ~ In i (map entry_id (collection w)).

(** The world after [k] uuid draws and [k] clock reads. *)
Definition advance (k : nat) (w : World) : World :=
  set_ticks (ticks w + k) (set_draws (draws w + k) w).

End VectorStoreAdmin.

(** ** Further notions for ingestion *)

Module DocumentProcessorMore.
Import PyStr.

(** The [text_parts] of [extract_text_from_pdf]: the page texts that
    are not blank, in page order. *)
Definition text_parts (pages : list (option str)) : list str :=
  omap (fun p : option str =>
          match p with
          | Some page_text =>
              if DocumentProcessor.blank page_text then None else Some page_text
          | None => None
          end) pages.

(** The world after the sample upload with the record put right: the
    ids of the rows of the document stand where [process_document]
    wrote their number. *)
Definition recorded_paper_world : World :=
  set_documents_metadata
    (alter (fun m =>
              {| dm_id := dm_id m; dm_filename := dm_filename m;
                 dm_upload_date := dm_upload_date m; dm_file_path := dm_file_path m;
                 dm_chunk_count := dm_chunk_count m;
                 dm_chunk_ids :=
                   map (fun r => VStr (entry_id r))
                     (collection Reference.paper_world);
                 dm_size := dm_size m; dm_text_length := dm_text_length m;
                 dm_processed := dm_processed m |})
       (py "uuid-0") (documents_metadata Reference.paper_world))
    Reference.paper_world.

End DocumentProcessorMore.

(** ** Further notions for the query orchestrator *)

Module RagMore.
Import PyStr Schemas VectorStoreService.
Local Open Scope Z_scope.

(** The preview [_format_sources] cuts from the content of a hit. *)
Definition preview (content : str) : str :=
  if 200 <? len content then slice_to content 200 ++ py "..." else content.

Definition str_or_absent (v : option pyval) : bool :=
  match v with Some (VInt _) => false | _ => true end.

Definition page_or_absent (env : Env) (v : option pyval) : bool :=
  match v with
  | None => true
  | Some (VInt p) => 1 <=? p
  | Some (VStr s) =>
      match str_as_int env s with
      | Some p => 1 <=? p
      | None => false
      end
  end.

(** A hit the [SourceDocument] model accepts: "source" and "chunk_id"
    are strings where present, "page" where present is an integer
    from 1, or a string the validation library reads as one, and the
    score lies in [0, 1]. *)
Definition presentable (env : Env) (doc : Hit) : bool :=
  str_or_absent (hit_metadata doc !! py "source")
  && str_or_absent (hit_metadata doc !! py "chunk_id")
  && page_or_absent env (hit_metadata doc !! py "page")
  && Qle_bool 0 (score doc) && Qle_bool (score doc) 1.

(** The page a source reports for the metadata value [v]. *)
Definition page_of (env : Env) (v : option pyval) : option Z :=
  match v with
  | Some (VInt p) => Some p
  | Some (VStr s) => str_as_int env s
  | None => None
  end.

(** The source entry [s] reports the hit [doc]. *)
Definition mirrors (env : Env) (doc : Hit) (s : SourceDocument) : Prop :=
  VStr (filename s) = dict_get (hit_metadata doc) (py "source") (VStr (py "Unknown")) /\
  (forall c, hit_metadata doc !! py "chunk_id" = Some c -> VStr (chunk_id s) = c) /\
  page s = page_of env (hit_metadata doc !! py "page") /\
  relevance_score s = score doc /\
  content_preview s = preview (content doc) /\
  len (content_preview s) <= 203.

(** Role and content of a message, without its timestamp. *)
Definition turn (m : ConversationMessage) : role * str := (msg_role m, msg_content m).

(** The conversation id [query] works under. *)
Definition effective_id (env : Env) (conversation_id : option str) (w : World) : str :=
  match conversation_id with
  | Some (c :: r) => c :: r
  | _ => uuid4 env (draws w)
  end.

(** The prompt of the retrieval chain for [question] in world [w]. *)
Definition chain_prompt (env : Env) (question : str) (w : World) : str :=
  LLMService.prompt_template
    (join (nl ++ nl)
       (map page_content
          (map fst (similarity_search_with_score env (collection w) question
                      (Settings.TOP_K_RETRIEVAL (settings env))))))
    question.

(** A hit whose page is stored as a string. *)
Definition paged_hit : Hit :=
  {| content := py "Gradient descent follows the slope.";
     hit_metadata :=
       <[py "source" := VStr (py "paper.pdf")]>
         (<[py "page" := VStr (py "3")]> ∅);
     score := 1 # 2;
     id := VStr (py "unknown") |}.

(** The world [w] with Ollama stopped. *)
Definition offline (w : World) : World :=
  {| draws := draws w; ticks := ticks w; files := files w; collection := collection w;
     documents_metadata := documents_metadata w; metadata_file := metadata_file w;
     conversations := conversations w; ollama_up := false;
     llm_calls := llm_calls w |}.

End RagMore.

(** ** More of Python's [str] *)

Module PyStrMore.
Import PyStr.

(** [str.lower] on one character, for code points below 256: the
    letters A..Z and the capitals from 192 to 222, without the
    multiplication sign 215, move up by 32. *)
Definition lower_char (c : ascii) : ascii :=
  let n := nat_of_ascii c in
  if (((65 <=? n) && (n <=? 90))
      || ((192 <=? n) && (n <=? 222) && negb (n =? 215)))%nat
  then ascii_of_nat (n + 32) else c.

Definition lower (s : str) : str := map lower_char s.

(** [s.rstrip(chars)] *)
Fixpoint rstrip_chars (s chars : str) : str :=
  match s with
  | [] => []
  | c :: r =>
      match rstrip_chars r chars with
      | [] => if bool_decide (c ∈ chars) then [] else [c]
      | r' => c :: r'
      end
  end.

End PyStrMore.

(** ** [app/core/config.py], the field validators *)

Module SettingsMore.
Import PyStr PyStrMore.

Definition validate_ollama_url (v : str) : outcome str :=
  if negb (startswith v (py "http://") || startswith v (py "https://"))
  then Raise ValueError
  else Return (rstrip_chars v (py "/")).

Definition validate_extensions (v : list str) : list str :=
  map (fun ext =>
         let ext := if negb (startswith ext (py ".")) then py "." ++ ext else ext in
         lower ext) v.

End SettingsMore.

(** ** [app/models/schemas.py], the field validators *)

Module SchemasMore.
Import PyStr PyStrMore.

(** [UploadResponse.validate_status] *)
Definition validate_upload_status (v : str) : outcome str :=
  let allowed_statuses := [py "success"; py "error"; py "processing"] in
  if negb (bool_decide (lower v ∈ allowed_statuses)) then Raise ValueError
  else Return (lower v).

(** [HealthResponse.validate_status] *)
Definition validate_health_status (v : str) : outcome str :=
  let allowed_statuses := [py "healthy"; py "unhealthy"; py "degraded"] in
  if negb (bool_decide (lower v ∈ allowed_statuses)) then Raise ValueError
  else Return (lower v).

(** [ConversationMessage.validate_role] *)
Definition validate_role (v : str) : outcome str :=
  let allowed_roles := [py "user"; py "assistant"; py "system"] in
  if negb (bool_decide (lower v ∈ allowed_roles)) then Raise ValueError
  else Return (lower v).

(** [QueryRequest.validate_question] *)
Definition validate_question (v : str) : outcome str :=
  match v with
  | [] => Raise ValueError
  | _ :: _ =>
      match strip v with
      | [] => Raise ValueError
      | _ :: _ => Return (strip v)
      end
  end.

End SchemasMore.
(** * Properties of the string primitives *)

Module PyStrFacts.
Import PyStr.
Local Open Scope Z_scope.

Lemma len_nonneg (s : str) : 0 <= len s.
Proof. unfold len. lia. Qed.

Lemma len_nil_inv (s : str) : len s = 0 -> s = [].
Proof. destruct s; [reflexivity | unfold len; simpl; lia]. Qed.

Lemma slice_bound_range n i : 0 <= n -> 0 <= slice_bound n i <= n.
Proof. intros Hn. unfold slice_bound. destruct (Z.ltb_spec i 0); lia. Qed.

(** The length of a slice is the distance between its clamped bounds. *)
Lemma len_slice (s : str) i j :
  len (slice s i j) = Z.max 0 (slice_bound (len s) j - slice_bound (len s) i).
Proof.
  unfold slice, len. rewrite length_take, length_drop.
  pose proof (slice_bound_range (Z.of_nat (length s)) i ltac:(lia)).
  pose proof (slice_bound_range (Z.of_nat (length s)) j ltac:(lia)).
  lia.
Qed.

Lemma startswith_len (p s : str) : startswith s p = true -> len p <= len s.
Proof.
  revert s. induction p as [|a p IH]; intros s H.
  - unfold len; simpl; lia.
  - destruct s as [|b s]; simpl in H; [discriminate|].
    destruct (ascii_dec a b); [|discriminate].
    apply IH in H. unfold len in *. simpl. lia.
Qed.

(** [rfind] answers [-1] or a position at which [sub] fits. *)
Lemma rfind_bound (s sub : str) :
  rfind s sub = -1 \/ (0 <= rfind s sub /\ rfind s sub + len sub <= len s).
Proof.
  induction s as [|c r IH].
  - destruct sub; [right | left; reflexivity].
    unfold len; simpl; lia.
  - cbn [rfind]. destruct (Z.leb_spec 0 (rfind r sub)) as [Hk|Hk].
    + right. destruct IH as [IH|IH]; [lia|].
      unfold len in *. simpl. lia.
    + destruct (startswith (c :: r) sub) eqn:E; [right | left; reflexivity].
      apply startswith_len in E. pose proof (len_nonneg sub). lia.
Qed.

Lemma lstrip_length (s : str) : (length (lstrip s) <= length s)%nat.
Proof.
  induction s as [|c r IH]; simpl; [lia|].
  destruct (isspace c); simpl; lia.
Qed.

Lemma rstrip_length (s : str) : (length (rstrip s) <= length s)%nat.
Proof.
  induction s as [|c r IH]; simpl; [lia|].
  destruct (rstrip r); [destruct (isspace c)|]; simpl in *; lia.
Qed.

Lemma len_strip (s : str) : len (strip s) <= len s.
Proof.
  unfold strip, len.
  pose proof (rstrip_length (lstrip s)). pose proof (lstrip_length s). lia.
Qed.

Lemma lstrip_head (s : str) c r : lstrip s = c :: r -> isspace c = false.
Proof.
  induction s as [|a s IH]; simpl; [discriminate|].
  destruct (isspace a) eqn:E; [exact IH|].
  intros H. injection H as -> _. exact E.
Qed.

(** [rstrip] keeps the first character whenever anything is left. *)
Lemma rstrip_head (c : ascii) (r : str) :
  rstrip (c :: r) = [] \/ exists r', rstrip (c :: r) = c :: r'.
Proof.
  simpl. destruct (rstrip r); [destruct (isspace c)|]; eauto.
Qed.

Lemma rstrip_idem (s : str) : rstrip (rstrip s) = rstrip s.
Proof.
  induction s as [|c r IH]; [reflexivity|].
  simpl. destruct (rstrip r) as [|d r'] eqn:E.
  - destruct (isspace c) eqn:Ec; simpl; [reflexivity | now rewrite Ec].
  - cbn [rstrip] in *. rewrite IH. reflexivity.
Qed.

Lemma strip_idem (s : str) : strip (strip s) = strip s.
Proof.
  unfold strip. destruct (lstrip s) as [|c r] eqn:E; [reflexivity|].
  destruct (rstrip_head c r) as [H|[r' H]]; rewrite H; [reflexivity|].
  assert (Hc : isspace c = false) by (eapply lstrip_head; eauto).
  cbn [lstrip]. rewrite Hc, <- H. apply rstrip_idem.
Qed.

Lemma rstrip_last (s : str) (d : ascii) :
  rstrip s <> [] -> isspace (List.last (rstrip s) d) = false.
Proof.
  induction s as [|c r IH]; [intros H; now elim H|].
  cbn [rstrip]. destruct (rstrip r) as [|a r'] eqn:E.
  - destruct (isspace c) eqn:Ec; [intros H; now elim H | intros _; exact Ec].
  - intros _. change (List.last (c :: a :: r') d) with (List.last (a :: r') d).
    apply IH. discriminate.
Qed.

(** What [strip] leaves, when it leaves anything, starts and ends
    with a character that is not whitespace. *)
Lemma strip_edges (s : str) (d : ascii) :
  strip s <> [] ->
  isspace (hd d (strip s)) = false /\ isspace (List.last (strip s) d) = false.
Proof.
  intros Hne. split; [|now apply rstrip_last].
  unfold strip in *. destruct (lstrip s) as [|c r] eqn:E; [now elim Hne|].
  destruct (rstrip_head c r) as [H|[r' H]]; [congruence|].
  rewrite H. simpl. eapply lstrip_head; eauto.
Qed.

(** A string made of whitespace only strips to the empty string, and
    so does each of its slices. *)
Lemma lstrip_spaces (s : str) : Forall (fun c => isspace c = true) s -> lstrip s = [].
Proof.
  induction 1 as [|c r Hc _ IH]; [reflexivity|]. simpl. now rewrite Hc.
Qed.

Lemma strip_spaces (s : str) : Forall (fun c => isspace c = true) s -> strip s = [].
Proof. intros H. unfold strip. now rewrite lstrip_spaces. Qed.

Lemma slice_spaces (s : str) i j :
  Forall (fun c => isspace c = true) s ->
  Forall (fun c => isspace c = true) (slice s i j).
Proof.
  intros H. unfold slice. apply Forall_take, Forall_drop, H.
Qed.

(** A window that covers a whole string from its first character. *)
Lemma slice_all (s : str) j : len s <= j -> slice s 0 j = s.
Proof.
  intros H. unfold slice, slice_bound. pose proof (len_nonneg s).
  destruct (Z.ltb_spec j 0); [lia|].
  replace (Z.min j (len s)) with (len s) by lia.
  change (0 <? 0) with false. cbn iota.
  replace (Z.min 0 (len s)) with 0 by lia.
  simpl. rewrite Z.sub_0_r. unfold len. rewrite Nat2Z.id.
  apply firstn_all.
Qed.

End PyStrFacts.

(** * Properties of the chunker *)

Module TextSplitterFacts.
Import PyStr PyStrFacts TextSplitter.
Local Open Scope Z_scope.

Ltac split_ltb :=
  repeat match goal with
    | |- context [Z.ltb ?a ?b] => destruct (Z.ltb_spec a b)
    | |- context [Z.gtb ?a ?b] => rewrite (Z.gtb_ltb a b)
    | H : context [Z.ltb ?a ?b] |- _ => destruct (Z.ltb_spec a b)
    end.

Ltac slice_lia := unfold slice_bound in *; split_ltb; lia.

Lemma sentence_endings_len : Forall (fun e => len e = 2) sentence_endings.
Proof. repeat constructor. Qed.

(** The scan over the sentence endings keeps [best_pos] at [-1] or at
    a position just after an ending inside the substring. *)
Lemma best_pos_bound (substring : str) (endings : list str) (acc : Z) :
  Forall (fun e => len e = 2) endings ->
  acc = -1 \/ 2 <= acc <= len substring ->
  let r := fold_left
             (fun best_pos ending =>
                let pos := rfind substring ending in
                if pos >? best_pos then pos + len ending else best_pos)
             endings acc in
  r = -1 \/ 2 <= r <= len substring.
Proof.
  intros Hl. revert acc. induction Hl as [|e es He _ IH]; intros acc Hacc.
  - exact Hacc.
  - cbn [fold_left]. apply IH. cbv zeta.
    rewrite Z.gtb_ltb. destruct (Z.ltb_spec acc (rfind substring e)); [|exact Hacc].
    right. destruct (rfind_bound substring e); lia.
Qed.

Lemma sentence_boundary_bound (text : str) (start end_ : Z) :
  let ss := Z.max start (end_ - 100) in
  let r := _find_sentence_boundary text start end_ in
  r = -1 \/ ss + 2 <= r <= ss + len (slice text ss end_).
Proof.
  intros ss r. subst r. unfold _find_sentence_boundary. fold ss.
  pose proof (best_pos_bound (slice text ss end_) sentence_endings (-1)
                sentence_endings_len (or_introl eq_refl)) as H.
  cbv zeta in H.
  match goal with |- context [if ?b >? 0 then _ else _] => set (bp := b) in * end.
  rewrite Z.gtb_ltb. destruct (Z.ltb_spec 0 bp); [right | left; reflexivity].
  lia.
Qed.

Lemma word_boundary_bound (text : str) (start end_ : Z) :
  let ss := Z.max start (end_ - 50) in
  let r := _find_word_boundary text start end_ in
  r = end_ \/ ss + 2 <= r <= ss + len (slice text ss end_).
Proof.
  intros ss r. subst r. unfold _find_word_boundary. fold ss.
  set (pos := rfind (slice text ss end_) (py " ")).
  rewrite Z.gtb_ltb. destruct (Z.ltb_spec 0 pos); [right | left; reflexivity].
  destruct (rfind_bound (slice text ss end_) (py " ")) as [E|[_ E]];
    fold pos in E; [lia|].
  change (len (py " ")) with 1 in E. lia.
Qed.

(** How an iteration picks the end of its window. *)
Lemma window_end_cases (self : t) (text : str) (start : Z) :
  let e0 := start + chunk_size self in
  let e := window_end self text start in
  (len text <= e0 /\ e = e0) \/
  (e0 < len text /\
   (e = e0 \/
    (e = -1 /\ start < -1) \/
    (start < e /\
     exists ss, (ss = Z.max start (e0 - 100) \/ ss = Z.max start (e0 - 50)) /\
                ss + 2 <= e <= ss + len (slice text ss e0)))).
Proof.
  intros e0 e. subst e. unfold window_end. fold e0.
  destruct (Z.ltb_spec e0 (len text)) as [Hlt|Hge]; [right | left; lia].
  split; [exact Hlt|].
  pose proof (sentence_boundary_bound text start e0) as Hs.
  pose proof (word_boundary_bound text start e0) as Hw.
  cbv zeta in Hs, Hw.
  rewrite !Z.gtb_ltb.
  destruct (Z.ltb_spec start (_find_sentence_boundary text start e0)) as [H1|H1].
  - destruct Hs as [Hs|Hs].
    + right; left. lia.
    + right; right. split; [exact H1|]. eexists; split; [left; reflexivity | exact Hs].
  - destruct (Z.ltb_spec start (_find_word_boundary text start e0)) as [H2|H2].
    + destruct Hw as [Hw|Hw].
      * left. exact Hw.
      * right; right. split; [exact H2|]. eexists; split; [right; reflexivity | exact Hw].
    + left. reflexivity.
Qed.

(** ** No chunk exceeds [chunk_size] *)

Lemma split_step_size_inv (self : t) (text : str) (st : loop_state) :
  1 <= chunk_size self ->
  chunk_overlap self < chunk_size self ->
  start st < len text ->
  size_inv self text st ->
  size_inv self text (split_step self text st).
Proof.
  intros Hsz Hov Hlt (Hlo & Hneg & Hall).
  pose proof (window_end_cases self text (start st)) as Hc. cbv zeta in Hc.
  unfold split_step. set (e := window_end self text (start st)) in *.
  pose proof (len_nonneg text) as Hn.
  assert (Hlen : len (slice text (start st) e) <= chunk_size self).
  { rewrite len_slice.
    destruct Hc as [[? He]|[H0 [He|[[He ?]|[? (ss & Hss & Hb)]]]]].
    1-3: rewrite He; slice_lia.
    rewrite len_slice in Hb. destruct Hss; subst ss; slice_lia. }
  assert (Hend : -1 <= e).
  { destruct Hc as [[? He]|[H0 [He|[[He ?]|[? (ss & Hss & Hb)]]]]].
    1-3: lia.
    rewrite len_slice in Hb. destruct Hss; subst ss; slice_lia. }
  unfold size_inv. cbn [start chunks].
  repeat split.
  - destruct (Z.ltb_spec e (len text)); lia.
  - destruct (Z.ltb_spec e (len text)); [|right; exact Hn].
    destruct Hc as [[? ->]|[H0 _]]; lia.
  - pose proof (len_strip (slice text (start st) e)) as Hs.
    unfold within_size in *.
    destruct (strip (slice text (start st) e)) eqn:E; [exact Hall|].
    apply Forall_app; split; [exact Hall|].
    constructor; [lia | constructor].
Qed.

(** ** Every chunk is trimmed and non-empty *)

Lemma strip_stripped (s : str) : strip s <> [] -> stripped (strip s).
Proof.
  intros H. repeat split; try assumption.
  - apply strip_idem.
  - now apply strip_edges.
  - now apply strip_edges.
Qed.

Lemma split_step_stripped (self : t) (text : str) (st : loop_state) :
  Forall stripped (chunks st) ->
  Forall stripped (chunks (split_step self text st)).
Proof.
  intros Hall. unfold split_step. cbn [chunks].
  set (w := slice text (start st) (window_end self text (start st))).
  destruct (strip w) eqn:E; [exact Hall|].
  apply Forall_app; split; [exact Hall|].
  constructor; [|constructor]. rewrite <- E. apply strip_stripped.
  rewrite E. discriminate.
Qed.

(** ** Loop invariants, generically *)

Section Loop.
Variables (self : t) (text : str) (P : loop_state -> Prop).
Hypothesis step_ok :
  forall st, start st < len text -> P st -> P (split_step self text st).

Lemma iterate_inv (n : nat) (st : loop_state) :
  P st -> P (iterate n self text st).
Proof.
  revert st. induction n as [|n IH]; intros st H; [exact H|].
  cbn [iterate]. destruct (Z.ltb_spec (start st) (len text)); auto.
Qed.

Lemma split_loop_inv (fuel : nat) (st : loop_state) (res : list str) :
  P st -> split_loop fuel self text st = Return res ->
  exists st', P st' /\ res = chunks st'.
Proof.
  revert st. induction fuel as [|n IH]; intros st H E; [discriminate|].
  cbn [split_loop] in E. destruct (Z.ltb_spec (start st) (len text)).
  - eapply IH; [|exact E]. auto.
  - injection E as <-. eauto.
Qed.
End Loop.

(** The chunker never raises. *)
Lemma split_loop_no_raise (fuel : nat) (self : t) (text : str) (st : loop_state) e :
  split_loop fuel self text st <> Raise e.
Proof.
  revert st. induction fuel as [|n IH]; intros st; [discriminate|].
  cbn [split_loop]. destruct (start st <? len text); [apply IH | discriminate].
Qed.

Lemma split_text_no_raise (fuel : nat) (self : t) (text : str) e :
  split_text fuel self text <> Raise e.
Proof.
  destruct text; [discriminate|]. apply split_loop_no_raise.
Qed.

(** ** Termination when the window outruns the look-back

    With [chunk_size - chunk_overlap >= 100] (the defaults are 1000
    and 200) every iteration moves [start] forward, so the loop ends
    within [len text] iterations. *)

Lemma split_step_progress (self : t) (text : str) (st : loop_state) :
  1 <= chunk_size self ->
  chunk_overlap self + 100 <= chunk_size self ->
  0 <= start st < len text ->
  start st + 1 <= start (split_step self text st).
Proof.
  intros Hsz Hov Hst.
  pose proof (window_end_cases self text (start st)) as Hc. cbv zeta in Hc.
  unfold split_step. cbn [start].
  set (e := window_end self text (start st)) in *.
  destruct (Z.ltb_spec e (len text)); [|lia].
  destruct Hc as [[? He]|[H0 [He|[[He ?]|[? (ss & Hss & Hb)]]]]]; lia.
Qed.

Lemma split_loop_terminates (self : t) (text : str) :
  1 <= chunk_size self ->
  chunk_overlap self + 100 <= chunk_size self ->
  forall (fuel : nat) (st : loop_state),
    0 <= start st ->
    Z.max 0 (len text - start st) < Z.of_nat fuel ->
    exists res, split_loop fuel self text st = Return res.
Proof.
  intros Hsz Hov. induction fuel as [|n IH]; intros st H0 Hf; [lia|].
  cbn [split_loop]. destruct (Z.ltb_spec (start st) (len text)); [|eauto].
  pose proof (split_step_progress self text st Hsz Hov ltac:(lia)).
  apply IH; lia.
Qed.

Lemma split_text_terminates (self : t) (text : str) :
  1 <= chunk_size self ->
  chunk_overlap self + 100 <= chunk_size self ->
  exists res, split_text (S (length text)) self text = Return res.
Proof.
  intros Hsz Hov. destruct text as [|c r]; [simpl; eauto|].
  unfold split_text.
  apply split_loop_terminates; unfold init; cbn [start]; unfold len; lia.
Qed.

Lemma size_inv_init (self : t) (text : str) :
  1 <= chunk_size self -> size_inv self text init.
Proof.
  intros H. unfold size_inv, within_size, init. cbn [start chunks].
  repeat split; [lia | right; lia | constructor].
Qed.

Lemma split_text_nonempty (fuel : nat) (self : t) (text : str) :
  text <> [] -> split_text fuel self text = split_loop fuel self text init.
Proof. destruct text; [intros H; now elim H | reflexivity]. Qed.

(** ** The loop need not end

    With [chunk_overlap < chunk_size] alone the loop can stall: on
    [stalling_text] the second window starts at [-2], the third at
    [-6], and every later one at [-6] again. *)

Lemma stalling_step (cs : list str) :
  split_step stalling_splitter stalling_text {| start := -6; chunks := cs |}
  = {| start := -6; chunks := cs ++ [py "bbbbb"] |}.
Proof.
  unfold split_step. cbn [start chunks].
  replace (window_end stalling_splitter stalling_text (-6)) with (-1)
    by (vm_compute; reflexivity).
  replace (strip (slice stalling_text (-6) (-1))) with (py "bbbbb")
    by (vm_compute; reflexivity).
  replace (-1 <? len stalling_text) with true by (vm_compute; reflexivity).
  reflexivity.
Qed.

Lemma stalling_loop (fuel : nat) :
  forall cs,
    split_loop fuel stalling_splitter stalling_text {| start := -6; chunks := cs |}
    = OutOfFuel.
Proof.
  induction fuel as [|n IH]; intros cs; [reflexivity|].
  cbn [split_loop start].
  replace (-6 <? len stalling_text) with true by (vm_compute; reflexivity).
  rewrite stalling_step. apply IH.
Qed.

Lemma split_text_can_stall (fuel : nat) :
  chunk_overlap stalling_splitter < chunk_size stalling_splitter /\
  split_text fuel stalling_splitter stalling_text = OutOfFuel.
Proof.
  split; [vm_compute; reflexivity|].
  rewrite split_text_nonempty by discriminate.
  assert (T0 : (start init <? len stalling_text) = true) by (vm_compute; reflexivity).
  assert (S1 : split_step stalling_splitter stalling_text init
               = {| start := -2; chunks := [py "a."] |}) by (vm_compute; reflexivity).
  assert (T1 : (-2 <? len stalling_text) = true) by (vm_compute; reflexivity).
  assert (S2 : split_step stalling_splitter stalling_text
                 {| start := -2; chunks := [py "a."] |}
               = {| start := -6; chunks := [py "a."; py "b"] |})
    by (vm_compute; reflexivity).
  destruct fuel as [|[|n]]; [reflexivity | |].
  - cbn [split_loop]. rewrite T0. reflexivity.
  - cbn [split_loop]. rewrite T0, S1. cbn [start]. rewrite T1, S2.
    apply stalling_loop.
Qed.

(** A text that fits one window is returned as its trim, if any. *)
Lemma split_step_single_window (self : t) (text : str) :
  len text <= chunk_size self ->
  split_step self text init =
    {| start := len text;
       chunks := match strip text with [] => [] | c :: r => [c :: r] end |}.
Proof.
  intros H. unfold split_step, window_end, init. cbn [start chunks].
  assert (E : (0 + chunk_size self <? len text) = false) by (apply Z.ltb_ge; lia).
  rewrite !E. rewrite slice_all by lia. destruct (strip text); reflexivity.
Qed.

Lemma split_text_single_window (self : t) (text : str) (fuel : nat) :
  len text <= chunk_size self ->
  split_text (S (S fuel)) self text =
    Return (match strip text with [] => [] | c :: r => [c :: r] end).
Proof.
  intros H. destruct (decide (text = [])) as [->|Hne]; [reflexivity|].
  assert (Hpos : 0 < len text).
  { pose proof (len_nonneg text).
    destruct (Z.eq_dec (len text) 0) as [E|E]; [|lia].
    apply len_nil_inv in E. contradiction. }
  rewrite split_text_nonempty by exact Hne.
  change (split_loop (S (S fuel)) self text init)
    with (if start init <? len text
          then split_loop (S fuel) self text (split_step self text init)
          else Return (chunks init)).
  assert (E0 : (start init <? len text) = true) by (apply Z.ltb_lt; exact Hpos).
  rewrite E0, split_step_single_window by exact H.
  cbn [split_loop start chunks].
  rewrite Z.ltb_irrefl. reflexivity.
Qed.

(** On a whitespace-only text the loop never emits a chunk. *)
Lemma split_step_whitespace (self : t) (text : str) (st : loop_state) :
  whitespace_only text -> chunks st = [] ->
  chunks (split_step self text st) = [].
Proof.
  intros Hw Hc. unfold split_step. cbn [chunks].
  rewrite strip_spaces; [exact Hc|]. now apply slice_spaces.
Qed.

End TextSplitterFacts.

(** * Properties of the vector store *)

Module VectorStoreFacts.
Import VectorStoreService.

(** ** The score conversion *)

Lemma similarity_score_below_one (d : Q) :
  (d < 1)%Q -> similarity_score d = (1 - d)%Q.
Proof.
  intros H. unfold similarity_score. destruct (Qlt_le_dec d 1); [reflexivity|lra].
Qed.

Lemma similarity_score_from_one (d : Q) :
  (1 <= d)%Q -> similarity_score d = 0%Q.
Proof.
  intros H. unfold similarity_score. destruct (Qlt_le_dec d 1); [lra|reflexivity].
Qed.

(** For a distance that is not negative the score lies in [0, 1]. *)
Lemma similarity_score_unit_range (d : Q) :
  (0 <= d)%Q -> (0 <= similarity_score d <= 1)%Q.
Proof.
  intros H. unfold similarity_score. destruct (Qlt_le_dec d 1); lra.
Qed.

(** A negative distance is converted too, and lands above 1. *)
Lemma similarity_score_negative (d : Q) :
  (d < 0)%Q -> similarity_score d = (1 - d)%Q /\ (1 < similarity_score d)%Q.
Proof.
  intros H. unfold similarity_score. destruct (Qlt_le_dec d 1); [split; [reflexivity|lra] | lra].
Qed.

(** A larger distance never gives a larger score. *)
Lemma similarity_score_antitone (d1 d2 : Q) :
  (d1 <= d2)%Q -> (similarity_score d2 <= similarity_score d1)%Q.
Proof.
  intros H. unfold similarity_score.
  destruct (Qlt_le_dec d1 1), (Qlt_le_dec d2 1); lra.
Qed.

Lemma nonincreasing_scores (l : list Q) :
  nondecreasing l = true -> nonincreasing (map similarity_score l) = true.
Proof.
  induction l as [|a l IH]; [reflexivity|].
  destruct l as [|b l]; [reflexivity|].
  cbn [nondecreasing map nonincreasing] in *.
  rewrite !andb_true_iff. intros [Hab Hr]. split; [|now apply IH].
  apply Qle_bool_iff. apply similarity_score_antitone. now apply Qle_bool_iff.
Qed.

Lemma map_score_format_hit (results : list (Document * Q)) :
  map score (map format_hit results) = map similarity_score (map snd results).
Proof.
  induction results as [|[doc d] r IH]; [reflexivity|].
  cbn [map]. rewrite IH. reflexivity.
Qed.

(** [similarity_search] formats the hits of the store one by one and
    touches nothing. *)
Lemma similarity_search_run (env : Env) (query : str) (k : option Z) (w : World) :
  similarity_search env query k w =
    (Return (map format_hit
               (similarity_search_with_score env (collection w) query
                  (default (Settings.TOP_K_RETRIEVAL (settings env)) k))), w).
Proof. reflexivity. Qed.

End VectorStoreFacts.

(** * Properties of the services *)

Module ServiceFacts.
Import PyStr Schemas VectorStoreService VectorStoreFacts.
Local Open Scope Z_scope.

(** ** Metadata written by [add_documents] *)

(** The four keys [add_documents] adds leave every other key of the
    base metadata as it was. *)
Lemma chunk_metadata_other (md : gmap str pyval) chunk_id i n timestamp (key : str) :
  key <> py "timestamp" -> key <> py "total_chunks" ->
  key <> py "chunk_index" -> key <> py "chunk_id" ->
  chunk_metadata md chunk_id i n timestamp !! key = md !! key.
Proof.
  intros H1 H2 H3 H4. unfold chunk_metadata.
  do 4 (rewrite lookup_insert_ne; [|congruence]). reflexivity.
Qed.

Lemma chunk_metadata_filename (md : gmap str pyval) chunk_id i n timestamp :
  chunk_metadata md chunk_id i n timestamp !! py "filename" = md !! py "filename".
Proof. apply chunk_metadata_other; discriminate. Qed.

Lemma chunk_metadata_source (md : gmap str pyval) chunk_id i n timestamp :
  chunk_metadata md chunk_id i n timestamp !! py "source" = md !! py "source".
Proof. apply chunk_metadata_other; discriminate. Qed.

Lemma chunk_metadata_chunk_id (md : gmap str pyval) chunk_id i n timestamp :
  chunk_metadata md chunk_id i n timestamp !! py "chunk_id" = Some (VStr chunk_id).
Proof.
  unfold chunk_metadata.
  rewrite !lookup_insert_ne by discriminate. apply lookup_insert_eq.
Qed.


Lemma upsert_elem (e : entry) (rows : list entry) : e ∈ Chroma.upsert e rows.
Proof.
  induction rows as [|r rows IH]; cbn [Chroma.upsert]; [apply list_elem_of_here|].
  destruct (decide (entry_id r = entry_id e));
    [apply list_elem_of_here | now apply list_elem_of_further].
Qed.

Lemma upsert_exists (P : entry -> Prop) (e : entry) (rows : list entry) :
  P e -> (exists r, r ∈ rows /\ P r) -> exists r, r ∈ Chroma.upsert e rows /\ P r.
Proof.
  intros He _. exists e. split; [apply upsert_elem | exact He].
Qed.



(** ** [_format_sources] *)

(** The source entry of a hit names the file by the metadata key
    "source"; without that key the name is "Unknown", whatever the
    key "filename" holds. *)
Lemma _format_source_unknown (env : Env) (doc : Hit) (w w' : World) (s : SourceDocument) :
  hit_metadata doc !! py "source" = None ->
  RAGService._format_source env doc w = (Return s, w') ->
  filename s = py "Unknown".
Proof.
  intros Hsrc. unfold RAGService._format_source, bind, new_uuid, lift, dict_get.
  rewrite Hsrc. cbn [default from_option Datatypes.id].
  unfold make_SourceDocument.
  destruct (from_option Datatypes.id _ (hit_metadata doc !! py "chunk_id")) as [c|];
    [|discriminate].
  destruct (hit_metadata doc !! py "page") as [[s'|p]|];
    [destruct (str_as_int env s') as [p|]; [|discriminate]| |];
    try (destruct (1 <=? p); [|discriminate]);
    (destruct (_ && _ && _); [|discriminate]);
    intros H; injection H as <- _; reflexivity.
Qed.

Lemma _format_sources_unknown (env : Env) (docs : list Hit) :
  Forall (fun doc => hit_metadata doc !! py "source" = None) docs ->
  forall w w' srcs,
    RAGService._format_sources env docs w = (Return srcs, w') ->
    Forall (fun s => filename s = py "Unknown") srcs /\ length srcs = length docs.
Proof.
  unfold RAGService._format_sources.
  induction 1 as [|doc docs Hd _ IH]; intros w w' srcs E.
  - injection E as <- _. split; [constructor | reflexivity].
  - cbn [mapM] in E. unfold bind at 1 in E.
    destruct (RAGService._format_source env doc w) as [[s| |] w1] eqn:E1; try discriminate.
    unfold bind at 1 in E.
    destruct (mapM (RAGService._format_source env) docs w1) as [[ss| |] w2] eqn:E2;
      try discriminate.
    injection E as <- _. destruct (IH _ _ _ E2) as [Hall Hlen].
    split; [constructor; [eapply _format_source_unknown; eauto | exact Hall] | simpl; lia].
Qed.

Lemma same_store_refl (w : World) : same_store w w.
Proof. unfold same_store. auto. Qed.

Lemma same_store_trans (w1 w2 w3 : World) :
  same_store w1 w2 -> same_store w2 w3 -> same_store w1 w3.
Proof. unfold same_store. intuition congruence. Qed.

(** [_format_sources] draws uuids and changes nothing else. *)
Lemma _format_source_frame (env : Env) (doc : Hit) (w : World) :
  same_store w (snd (RAGService._format_source env doc w)).
Proof.
  unfold RAGService._format_source, bind, new_uuid, lift, same_store. cbn. auto.
Qed.

Lemma _format_sources_frame (env : Env) (docs : list Hit) (w : World) :
  same_store w (snd (RAGService._format_sources env docs w)).
Proof.
  unfold RAGService._format_sources. revert w.
  induction docs as [|doc docs IH]; intros w; [apply same_store_refl|].
  cbn [mapM]. unfold bind at 1.
  pose proof (_format_source_frame env doc w) as H1.
  destruct (RAGService._format_source env doc w) as [[s| |] w1];
    cbn [snd] in *; try exact H1.
  unfold bind at 1. specialize (IH w1).
  destruct (mapM (RAGService._format_source env) docs w1) as [[ss| |] w2];
    cbn [snd ret] in *; eapply same_store_trans; eauto.
Qed.

(** [_update_conversation] reads the clock and rewrites one
    conversation. *)
Lemma _update_conversation_frame (env : Env) (cid question answer : str) (w : World) :
  let w' := snd (RAGService._update_conversation env cid question answer w) in
  collection w' = collection w /\ llm_calls w' = llm_calls w.
Proof.
  unfold RAGService._update_conversation, bind, get, utcnow, modify, ret.
  destruct (conversations w !! cid); cbn; auto.
Qed.

(** ** [generate_response] *)

(** The context the model is given: the texts of the
    [TOP_K_RETRIEVAL] nearest chunks, joined by blank lines. *)
Lemma generate_response_run (env : Env) (question : str) (w : World) :
  ollama_up w = true ->
  exists resp,
    LLMService.generate_response env question w =
      (Return resp,
       set_llm_calls
         (llm_calls w ++
          [LLMService.prompt_template
             (join (nl ++ nl)
                (map page_content
                   (map fst (similarity_search_with_score env (collection w) question
                               (Settings.TOP_K_RETRIEVAL (settings env))))))
             question]) w).
Proof.
  intros Hup.
  unfold LLMService.generate_response, LLMService._validate_ollama_connection,
    LLMService.qa_chain_invoke, rethrow, bind, get, modify, ret.
  cbv beta iota zeta. rewrite Hup. cbv beta iota zeta. eauto.
Qed.

(** ** [RAGService.query] *)

(** Without a hit the query answers at once: no model call, no
    conversation written. *)
Lemma query_no_context (env : Env) (question : str) (cid : option str) (k : Z)
    (w : World) :
  similarity_search_with_score env (collection w) question k = [] ->
  exists cid' w',
    RAGService.query env question cid k w =
      (Return {| RAGService.answer := RAGService.no_information;
                 RAGService.sources := [];
                 RAGService.conversation_id := cid' |}, w') /\
    same_store w w' /\
    match cid with
    | Some (c :: r) => cid' = c :: r /\ w' = w
    | _ => cid' = uuid4 env (draws w)
    end.
Proof.
  intros H.
  destruct cid as [[|c r]|];
    unfold RAGService.query, bind, new_uuid, ret;
    rewrite similarity_search_run;
    cbn [collection set_draws default from_option Datatypes.id];
    rewrite H; cbn [map];
    do 2 eexists; (split; [reflexivity|]);
    unfold same_store; cbn; auto.
Qed.

(** With a hit and Ollama up, the one prompt the query sends is built
    from the question and the [TOP_K_RETRIEVAL] nearest chunks alone:
    neither [max_results], nor the context string built from the
    retrieved hits, nor the conversation enters it. *)
Lemma query_generation_prompt (env : Env) (question : str) (cid : option str)
    (k : Z) (w : World) :
  similarity_search_with_score env (collection w) question k <> [] ->
  ollama_up w = true ->
  llm_calls (snd (RAGService.query env question cid k w)) =
    llm_calls w ++
    [LLMService.prompt_template
       (join (nl ++ nl)
          (map page_content
             (map fst (similarity_search_with_score env (collection w) question
                         (Settings.TOP_K_RETRIEVAL (settings env))))))
       question].
Proof.
  intros Hne Hup.
  assert (Hbody : forall cid' w0,
    collection w0 = collection w -> ollama_up w0 = true -> llm_calls w0 = llm_calls w ->
    llm_calls
      (snd
         ((let! retrieved_docs := similarity_search env question (Some k) in
           match retrieved_docs with
           | [] => ret {| RAGService.answer := RAGService.no_information;
                          RAGService.sources := [];
                          RAGService.conversation_id := cid' |}
           | _ :: _ =>
               let! w1 := get in
               let! result := LLMService.generate_response env question in
               let! sources := RAGService._format_sources env retrieved_docs in
               let! _ := RAGService._update_conversation env cid' question
                           (LLMService.answer result) in
               ret {| RAGService.answer := LLMService.answer result;
                      RAGService.sources := sources;
                      RAGService.conversation_id := cid' |}
           end) w0)) =
    llm_calls w ++
    [LLMService.prompt_template
       (join (nl ++ nl)
          (map page_content
             (map fst (similarity_search_with_score env (collection w) question
                         (Settings.TOP_K_RETRIEVAL (settings env))))))
       question]).
  { intros cid' w0 Hc Hu Hl.
    unfold bind at 1. rewrite similarity_search_run.
    cbn [default from_option Datatypes.id]. rewrite Hc.
    destruct (similarity_search_with_score env (collection w) question k)
      as [|r rs]; [now elim Hne|].
    cbn [map]. unfold bind at 1, get. unfold bind at 1.
    destruct (generate_response_run env question w0 Hu) as [resp ->].
    rewrite Hc, Hl. unfold bind at 1.
    match goal with |- context [RAGService._format_sources env ?d ?w'] =>
      pose proof (_format_sources_frame env d w') as Hf;
      destruct (RAGService._format_sources env d w') as [[srcs| |] w2]
    end; cbn [snd] in *; try (destruct Hf as (_ & _ & ->); reflexivity).
    unfold bind at 1.
    match goal with |- context [RAGService._update_conversation env ?a ?b ?c ?w'] =>
      pose proof (_update_conversation_frame env a b c w') as Hu';
      destruct (RAGService._update_conversation env a b c w') as [[[]| |] w3]
    end; cbn [snd ret] in *; destruct Hu' as [_ ->]; destruct Hf as (_ & _ & ->);
      reflexivity. }
  unfold RAGService.query. unfold bind at 1.
  destruct cid as [[|c r]|]; unfold new_uuid, ret; apply Hbody; cbn; auto.
Qed.

(** ** Ingestion and deletion *)

(** What [process_document] records for a document with chunks: under
    "chunk_ids", one integer (the number of chunks added), not the
    ids of the chunks. *)
Lemma process_document_record (env : Env) (filename content : str) (w w1 : World)
    (r : DocumentService.ProcessResult) :
  DocumentService.process_document env filename content w = (Return r, w1) ->
  DocumentService.chunks_created r <> 0 ->
  exists m k,
    documents_metadata w1 !! DocumentService.document_id r = Some m /\
    dm_chunk_ids m = [VInt k].
Proof.
  intros E Hn. unfold DocumentService.process_document in E.
  unfold bind at 1 in E. unfold new_uuid at 1 in E. cbv beta iota zeta in E.
  unfold bind at 1 in E. unfold modify at 1 in E. cbv beta iota zeta in E.
  unfold bind at 1 in E.
  match type of E with
  | context [DocumentProcessor.process_document ?a ?b ?c ?d ?e] =>
      destruct (DocumentProcessor.process_document a b c d e) as [[pr| |] w2];
        try discriminate
  end.
  destruct (DocumentProcessor.chunks pr) as [|c cs].
  - unfold ret in E. injection E as <- _. now elim Hn.
  - unfold bind at 1 in E.
    match type of E with
    | context [add_documents ?a ?b ?c ?d] =>
        destruct (add_documents a b c d) as [[ar| |] w3]; try discriminate
    end.
    unfold bind, utcnow, modify, DocumentService._save_metadata, ret in E.
    cbv beta iota zeta in E. injection E as <- <-.
    cbn [DocumentService.document_id documents_metadata set_metadata_file
           set_documents_metadata set_ticks].
    do 2 eexists. split; [apply lookup_insert_eq | reflexivity].
Qed.








End ServiceFacts.

(** * The chunker: claims *)

Module TextSplitterClaims.
Import PyStr PyStrFacts TextSplitter TextSplitterFacts.
Local Open Scope Z_scope.

(** C8: for a non-empty text, [chunk_size >= 1] and
    [chunk_overlap < chunk_size], every chunk [split_text] appends or
    returns has at most [chunk_size] characters. The bound holds
    whether or not some word is longer than [chunk_size] (such a word
    is cut), so the exception the claim allows is never used. With
    [chunk_size - chunk_overlap >= 100] the call returns within
    [len text + 1] loop tests. *)
Theorem split_text_chunks_within_size (self : t) (text : str) :
  text <> [] ->
  1 <= chunk_size self ->
  chunk_overlap self < chunk_size self ->
  (forall n, within_size self (chunks (iterate n self text init))) /\
  (forall fuel res,
     split_text fuel self text = Return res -> within_size self res) /\
  (chunk_overlap self + 100 <= chunk_size self ->
   exists res, split_text (S (length text)) self text = Return res
               /\ within_size self res).
Proof.
  intros Hne Hsz Hov.
  assert (Hstep : forall st, start st < len text ->
            size_inv self text st -> size_inv self text (split_step self text st))
    by (intros; now apply split_step_size_inv).
  pose proof (size_inv_init self text Hsz) as H0.
  assert (Hret : forall fuel res,
            split_text fuel self text = Return res -> within_size self res).
  { intros fuel res E. rewrite split_text_nonempty in E by exact Hne.
    destruct (split_loop_inv self text _ Hstep fuel init res H0 E)
      as (st' & (_ & _ & Hall) & ->).
    exact Hall. }
  split; [|split].
  - intros n. apply (iterate_inv self text _ Hstep n init H0).
  - exact Hret.
  - intros Hbig.
    destruct (split_text_terminates self text Hsz Hbig) as [res E].
    exists res. split; [exact E | eapply Hret; exact E].
Qed.

(** C10: every chunk [split_text] appends or returns, for any text
    and any parameters, is non-empty and equal to its own trim, with
    no whitespace at either end: an empty window is skipped. *)
Theorem split_text_chunks_stripped (self : t) (text : str) :
  (forall n, Forall stripped (chunks (iterate n self text init))) /\
  (forall fuel res,
     split_text fuel self text = Return res -> Forall stripped res).
Proof.
  assert (Hstep : forall st, start st < len text ->
            Forall stripped (chunks st) ->
            Forall stripped (chunks (split_step self text st)))
    by (intros; now apply split_step_stripped).
  assert (H0 : Forall stripped (chunks init)) by constructor.
  split.
  - intros n.
    apply (iterate_inv self text (fun st => Forall stripped (chunks st)) Hstep n init H0).
  - intros fuel res E. destruct (decide (text = [])) as [->|Hne].
    + injection E as <-. constructor.
    + rewrite split_text_nonempty in E by exact Hne.
      destruct (split_loop_inv self text (fun st => Forall stripped (chunks st))
                  Hstep fuel init res H0 E) as (st' & Hall & ->).
      exact Hall.
Qed.

(** C2 (as the code has it): the constraint [overlap < size] is
    enforced where the settings are loaded: [validate_chunk_overlap]
    rejects an overlap that is not below the chunk size with
    [ValueError]. [TextSplitter] itself checks nothing: the constructor
    accepts the pair, [split_text] never raises, and a text of at most
    [chunk_size] characters comes back as its single trimmed chunk. *)
Theorem overlap_not_below_size (text : str) (size overlap : Z) (data : gmap str Z) :
  overlap >= size ->
  data !! py "CHUNK_SIZE" = Some size ->
  Settings.validate_chunk_overlap overlap data = Raise ValueError /\
  __init__ size overlap = Return {| chunk_size := size; chunk_overlap := overlap |} /\
  (forall fuel e, chunk fuel text size overlap <> Raise e) /\
  (len text <= size ->
   forall fuel, chunk (S (S fuel)) text size overlap =
                Return (match strip text with [] => [] | c :: r => [c :: r] end)).
Proof.
  intros Hge Hdata. repeat split.
  - unfold Settings.validate_chunk_overlap. rewrite Hdata. cbn [default from_option id].
    destruct (Z.geb_spec overlap size); [reflexivity | lia].
  - intros fuel e. unfold chunk, __init__. apply split_text_no_raise.
  - intros Hlen fuel. unfold chunk, __init__.
    now apply split_text_single_window.
Qed.

(** C7 (as the code has it): on an empty or whitespace-only text
    [split_text] does not fail; it returns the empty list: at once for
    the empty text, in one window when the text fits [chunk_size], and
    within [len text + 1] loop tests when
    [chunk_size - chunk_overlap >= 100]; any list it returns is empty.
    The error for such a text is raised by
    [DocumentProcessor.chunk_text], a [ValueError]. *)
Theorem split_text_blank (self : t) (text : str) :
  whitespace_only text ->
  (forall fuel e, split_text fuel self text <> Raise e) /\
  (forall fuel res, split_text fuel self text = Return res -> res = []) /\
  (text = [] -> forall fuel, split_text fuel self text = Return []) /\
  (len text <= chunk_size self ->
   forall fuel, split_text (S (S fuel)) self text = Return []) /\
  (1 <= chunk_size self -> chunk_overlap self + 100 <= chunk_size self ->
   split_text (S (length text)) self text = Return []) /\
  (forall env dp size overlap w,
     DocumentProcessor.chunk_text env dp text size overlap w = (Raise ValueError, w)).
Proof.
  intros Hw.
  assert (Hret : forall fuel res, split_text fuel self text = Return res -> res = []).
  { intros fuel res E. destruct (decide (text = [])) as [->|Hne];
      [now injection E as <-|].
    rewrite split_text_nonempty in E by exact Hne.
    destruct (split_loop_inv self text (fun st => chunks st = [])
                (fun st _ => split_step_whitespace self text st Hw)
                fuel init res eq_refl E) as (st' & Hst & ->).
    exact Hst. }
  repeat split.
  - intros fuel e. apply split_text_no_raise.
  - exact Hret.
  - intros -> fuel. reflexivity.
  - intros Hlen fuel. rewrite split_text_single_window by exact Hlen.
    now rewrite strip_spaces.
  - intros Hsz Hbig. destruct (split_text_terminates self text Hsz Hbig) as [res E].
    rewrite E. f_equal. eapply Hret; exact E.
  - intros env dp size overlap w.
    unfold DocumentProcessor.chunk_text, DocumentProcessor.blank, rethrow.
    rewrite strip_spaces by exact Hw. reflexivity.
Qed.

(** ** Concrete runs *)

Import Reference.

Lemma split_text_chunks_within_size_witness :
  (sample_text <> [] /\ 1 <= 120 /\ 20 < 120) /\
  exists res,
    split_text (S (length sample_text)) sample_splitter sample_text = Return res
    /\ within_size sample_splitter res.
Proof.
  split; [split; [discriminate | split; lia]|].
  destruct (split_text_chunks_within_size sample_splitter sample_text)
    as (_ & _ & H); [discriminate | cbn; lia | cbn; lia |].
  apply H. cbn. lia.
Defined.

Lemma split_text_chunks_stripped_witness :
  exists res,
    split_text (S (length sample_text)) sample_splitter sample_text = Return res
    /\ Forall stripped res.
Proof.
  eexists. split; [vm_compute; reflexivity|].
  apply (proj2 (split_text_chunks_stripped sample_splitter sample_text)
           (S (length sample_text))).
  vm_compute. reflexivity.
Defined.

(** C2, the claim as stated fails: size 100 with overlap 100 is
    accepted, and the text comes back as one chunk. *)
Lemma overlap_equal_size_accepted :
  (100 >= 100) /\
  chunk 2 (py "hello") 100 100 = Return [py "hello"] /\
  ~ (exists e, chunk 2 (py "hello") 100 100 = Raise e).
Proof.
  split; [lia|]. split; [vm_compute; reflexivity|].
  intros [e H]. vm_compute in H. discriminate.
Qed.

Lemma overlap_not_below_size_witness :
  Settings.validate_chunk_overlap 100 {[py "CHUNK_SIZE" := 100]} = Raise ValueError /\
  __init__ 100 100 = Return {| chunk_size := 100; chunk_overlap := 100 |} /\
  (forall fuel e, chunk fuel (py "hello") 100 100 <> Raise e) /\
  (len (py "hello") <= 100 ->
   forall fuel, chunk (S (S fuel)) (py "hello") 100 100 =
                Return (match strip (py "hello") with [] => [] | c :: r => [c :: r] end)).
Proof.
  apply (overlap_not_below_size (py "hello") 100 100 {[py "CHUNK_SIZE" := 100]});
    [lia | vm_compute; reflexivity].
Defined.

(** C7, the claim as stated fails: the empty text and a text of
    blanks both give the empty list, with no error. *)
Lemma split_text_blank_returns_empty :
  split_text 2 {| chunk_size := 1000; chunk_overlap := 200 |} [] = Return [] /\
  split_text 2 {| chunk_size := 1000; chunk_overlap := 200 |} (py "   ") = Return [] /\
  ~ (exists e, split_text 2 {| chunk_size := 1000; chunk_overlap := 200 |} (py "   ")
               = Raise e).
Proof.
  split; [reflexivity|]. split; [vm_compute; reflexivity|].
  intros [e H]. vm_compute in H. discriminate.
Qed.

Lemma split_text_blank_witness :
  whitespace_only (py "   ") /\
  split_text 4 {| chunk_size := 1000; chunk_overlap := 200 |} (py "   ") = Return [] /\
  (forall env dp size overlap w,
     DocumentProcessor.chunk_text env dp (py "   ") size overlap w
     = (Raise ValueError, w)).
Proof.
  assert (Hw : whitespace_only (py "   ")) by (repeat constructor).
  split; [exact Hw|].
  destruct (split_text_blank {| chunk_size := 1000; chunk_overlap := 200 |}
              (py "   ") Hw) as (_ & _ & _ & _ & Hterm & Hdp).
  split; [|exact Hdp].
  apply Hterm; cbn; lia.
Defined.

End TextSplitterClaims.

(** * The vector store: claims *)

Module VectorStoreClaims.
Import PyStr VectorStoreService VectorStoreFacts Reference.
Local Open Scope Z_scope.

(** C9: for [k > 0], when the store answers with at most [k] hits in
    order of non-decreasing distance, [similarity_search] returns (it
    does not raise) at most [k] results, one per hit and in the same
    order, whose scores are in non-increasing order; and on an empty
    index, from which the store draws no hit, the result is the empty
    list. *)
Theorem similarity_search_ranked (env : Env) (query : str) (k : Z) (w : World) :
  0 < k ->
  Z.of_nat (length (similarity_search_with_score env (collection w) query k)) <= k ->
  nondecreasing (map snd (similarity_search_with_score env (collection w) query k))
    = true ->
  (collection w = [] -> similarity_search_with_score env [] query k = []) ->
  exists hits,
    similarity_search env query (Some k) w = (Return hits, w) /\
    hits = map format_hit (similarity_search_with_score env (collection w) query k) /\
    Z.of_nat (length hits) <= k /\
    nonincreasing (map score hits) = true /\
    (collection w = [] -> hits = []).
Proof.
  intros Hk Hlen Hsorted Hempty.
  eexists. split; [apply similarity_search_run|]. cbn [default from_option Datatypes.id].
  split; [reflexivity|]. split; [|split].
  - now rewrite length_map.
  - rewrite map_score_format_hit. now apply nonincreasing_scores.
  - intros E. rewrite E, (Hempty E). reflexivity.
Qed.

Lemma similarity_search_ranked_witness :
  exists hits,
    similarity_search env0 ml_question (Some 3) ml_world = (Return hits, ml_world) /\
    hits = map format_hit
             (similarity_search_with_score env0 (collection ml_world) ml_question 3) /\
    Z.of_nat (length hits) <= 3 /\
    nonincreasing (map score hits) = true /\
    (collection ml_world = [] -> hits = []).
Proof.
  apply (similarity_search_ranked env0 ml_question 3 ml_world).
  - lia.
  - vm_compute. discriminate.
  - vm_compute. reflexivity.
  - intros _. reflexivity.
Defined.

(** C5, at a distance just below zero: the score is [1 - distance],
    above 1, and is not clamped; the query that receives such a hit
    fails when it builds its [SourceDocument], whose [relevance_score]
    must lie in [0, 1]. *)
Theorem similarity_score_negative_distance :
  similarity_score (-1 # 8388608) = (1 - (-1 # 8388608))%Q /\
  (1 < similarity_score (-1 # 8388608))%Q /\
  map score
    (map format_hit
       (similarity_search_with_score (env_of rounding_distance false)
          (collection ml_world) (py "It learns from data.") 1))
    = [(1 - (-1 # 8388608))%Q] /\
  result_of (RAGService.query (env_of rounding_distance false)
               (py "It learns from data.") None 1 ml_world)
    = Raise ValueError.
Proof.
  split; [reflexivity|]. split; [vm_compute; reflexivity|].
  split; vm_compute; reflexivity.
Qed.

End VectorStoreClaims.

(** * Ingestion, deletion and the query orchestrator: claims *)

Module ServiceClaims.
Import PyStr Schemas VectorStoreService Reference.
Local Open Scope Z_scope.

Ltac run_each :=
  repeat match goal with |- _ /\ _ => split end; vm_compute; reflexivity.



(** C3, on a follow-up question in conversation "c1" with
    [max_results = 1]: one passage is retrieved and the conversation
    has two messages on file, yet the prompt sent to the model carries
    the texts of the five nearest chunks and nothing else: not the
    context string built from the retrieved passage, not the history.
    The same prompt is sent from a world without the conversation. *)
Theorem query_prompt_ignores_assembled_context :
  on_return (map content)
    (result_of (similarity_search env0 follow_up (Some 1) chat_world))
    = Return [py "It learns from data."] /\
  on_return RAGService._build_context
    (result_of (similarity_search env0 follow_up (Some 1) chat_world))
    = Return (py "[Document 1 - Unknown]" ++ nl ++ py "It learns from data." ++ nl) /\
  option_map RAGService._format_conversation_history
    (conversations chat_world !! py "c1")
    = Some (py "User: What is machine learning?" ++ nl ++ py "Assistant: (answer)") /\
  llm_calls (world_of (RAGService.query env0 follow_up (Some (py "c1")) 1 chat_world))
    = llm_calls chat_world ++
      [LLMService.prompt_template
         (join (nl ++ nl)
            [py "It learns from data.";
             py "Supervised learning uses labels.";
             py "Machine learning is a field of study.";
             py "Models generalise from examples to new inputs.";
             py "Unsupervised learning finds structure without labels, such as clusters."])
         follow_up] /\
  llm_calls (world_of (RAGService.query env0 follow_up (Some (py "c1")) 1 ml_world))
    = [LLMService.prompt_template
         (join (nl ++ nl)
            [py "It learns from data.";
             py "Supervised learning uses labels.";
             py "Machine learning is a field of study.";
             py "Models generalise from examples to new inputs.";
             py "Unsupervised learning finds structure without labels, such as clusters."])
         follow_up].
Proof. run_each. Qed.

(** C4, on an empty index: the query returns the canned answer with
    no sources and the caller's conversation id, calls no model, and
    leaves the world as it found it: conversation "c1" is not created
    and no turn is recorded. A query that finds passages does record
    its turn (two messages). *)
Theorem query_no_context_records_nothing :
  result_of (RAGService.query env0 ml_question (Some (py "c1")) 5 empty_world)
    = Return {| RAGService.answer := RAGService.no_information;
                RAGService.sources := [];
                RAGService.conversation_id := py "c1" |} /\
  llm_calls (world_of (RAGService.query env0 ml_question (Some (py "c1")) 5 empty_world))
    = [] /\
  conversations
    (world_of (RAGService.query env0 ml_question (Some (py "c1")) 5 empty_world))
    !! py "c1" = None /\
  world_of (RAGService.query env0 ml_question (Some (py "c1")) 5 empty_world)
    = empty_world /\
  option_map (fun h => map msg_role (messages h)) (conversations chat_world !! py "c1")
    = Some [user; assistant].
Proof. run_each. Qed.

(** C6, on the five chunks of ml_basics.txt queried with [k = 3]:
    the three passages retrieved carry
    [metadata.filename = "ml_basics.txt"], and the three sources the
    query reports all carry the filename "Unknown". *)
Theorem query_sources_report_unknown :
  on_return (map (fun h => hit_metadata h !! py "filename"))
    (result_of (similarity_search env0 ml_question (Some 3) ml_world))
    = Return [Some (VStr (py "ml_basics.txt"));
              Some (VStr (py "ml_basics.txt"));
              Some (VStr (py "ml_basics.txt"))] /\
  on_return (fun q => map filename (RAGService.sources q))
    (result_of (RAGService.query env0 ml_question None 3 ml_world))
    = Return [py "Unknown"; py "Unknown"; py "Unknown"] /\
  on_return (fun r => map (fun d => LLMService.sd_source d) (LLMService.source_documents r))
    (result_of (LLMService.generate_response env0 ml_question ml_world))
    = Return [VStr (py "ml_basics.txt"); VStr (py "ml_basics.txt");
              VStr (py "ml_basics.txt"); VStr (py "ml_basics.txt");
              VStr (py "ml_basics.txt")].
Proof. run_each. Qed.

End ServiceClaims.

(** * The chunker: further properties *)

Module TextSplitterMoreFacts.
Import PyStr PyStrFacts TextSplitter TextSplitterFacts TextSplitterMore.
Local Open Scope Z_scope.

(** ** Fuel *)

Lemma split_loop_more_fuel (self : t) (text : str) (n : nat) :
  forall (st : loop_state) (res : list str),
    split_loop n self text st = Return res ->
    forall m, (n <= m)%nat -> split_loop m self text st = Return res.
Proof.
  induction n as [|n IH]; intros st res E m Hm; [discriminate|].
  destruct m as [|m]; [lia|].
  cbn [split_loop] in *. destruct (start st <? len text); [|exact E].
  apply IH; [exact E | lia].
Qed.

Lemma split_text_more_fuel (self : t) (text : str) (n m : nat) (res : list str) :
  split_text n self text = Return res -> (n <= m)%nat ->
  split_text m self text = Return res.
Proof.
  destruct text as [|c r]; [intros E _; exact E|].
  unfold split_text. intros E Hm. eapply split_loop_more_fuel; eauto.
Qed.

(** ** Number of chunks *)

Lemma split_step_count (self : t) (text : str) (st : loop_state) :
  1 <= chunk_size self ->
  chunk_overlap self + 100 <= chunk_size self ->
  start st < len text ->
  count_inv_holds text st -> count_inv_holds text (split_step self text st).
Proof.
  intros Hsz Hov Hlt [H0 Hc].
  pose proof (split_step_progress self text st Hsz Hov ltac:(lia)) as Hp.
  assert (Hlen : (length (chunks (split_step self text st))
                  <= S (length (chunks st)))%nat).
  { unfold split_step. cbn [chunks].
    destruct (strip _); [lia | rewrite length_app; simpl; lia]. }
  unfold count_inv_holds. split; lia.
Qed.

(** ** When the overlap is not below the size *)

Lemma split_step_stuck (self : t) (text : str) (st : loop_state) :
  1 <= chunk_size self -> chunk_size self <= chunk_overlap self ->
  chunk_size self < len text ->
  start st <= 0 -> start (split_step self text st) <= 0.
Proof.
  intros Hsz Hov Hlen Hst.
  pose proof (window_end_cases self text (start st)) as Hc. cbv zeta in Hc.
  unfold split_step. cbn [start].
  set (e := window_end self text (start st)) in *.
  assert (He : e <= chunk_size self).
  { destruct Hc as [[? He]|[H0 [He|[[He ?]|[? (ss & Hss & Hb)]]]]]; try lia.
    rewrite len_slice in Hb. destruct Hss; subst ss; slice_lia. }
  destruct (Z.ltb_spec e (len text)); lia.
Qed.

Lemma split_loop_stuck (self : t) (text : str) :
  1 <= chunk_size self -> chunk_size self <= chunk_overlap self ->
  chunk_size self < len text ->
  forall (fuel : nat) (st : loop_state),
    start st <= 0 -> split_loop fuel self text st = OutOfFuel.
Proof.
  intros Hsz Hov Hlen. induction fuel as [|n IH]; intros st Hst; [reflexivity|].
  cbn [split_loop]. destruct (Z.ltb_spec (start st) (len text)); [|lia].
  apply IH. now apply split_step_stuck.
Qed.

(** ** Chunks are pieces of the text *)

Lemma infix_refl (s : str) : infix s s.
Proof. exists [], []. now rewrite app_nil_r. Qed.

Lemma infix_trans (a b c : str) : infix a b -> infix b c -> infix a c.
Proof.
  intros (p1 & q1 & ->) (p2 & q2 & ->). exists (p2 ++ p1), (q1 ++ q2).
  now rewrite <- !app_assoc.
Qed.

Lemma lstrip_infix (s : str) : infix (lstrip s) s.
Proof.
  induction s as [|c r IH]; [apply infix_refl|]. cbn [lstrip].
  destruct (isspace c); [|apply infix_refl].
  destruct IH as (p & q & E). exists (c :: p), q. simpl. now rewrite <- E.
Qed.

Lemma rstrip_head_prefix (s : str) : exists q, s = rstrip s ++ q.
Proof.
  induction s as [|c r [q E]]; [exists []; reflexivity|]. cbn [rstrip].
  destruct (rstrip r) as [|a r'].
  - destruct (isspace c); [exists (c :: r) | exists r]; reflexivity.
  - exists q. simpl. simpl in E. now rewrite <- E.
Qed.

Lemma rstrip_infix (s : str) : infix (rstrip s) s.
Proof. destruct (rstrip_head_prefix s) as [q E]. exists [], q. exact E. Qed.

Lemma strip_infix (s : str) : infix (strip s) s.
Proof.
  unfold strip. eapply infix_trans; [apply rstrip_infix | apply lstrip_infix].
Qed.

Lemma slice_infix (s : str) (i j : Z) : infix (slice s i j) s.
Proof.
  unfold slice.
  set (lo := Z.to_nat (slice_bound (len s) i)).
  set (n := Z.to_nat (slice_bound (len s) j - slice_bound (len s) i)).
  exists (firstn lo s), (skipn n (skipn lo s)).
  now rewrite (firstn_skipn n (skipn lo s)), (firstn_skipn lo s).
Qed.

Lemma split_step_infix (self : t) (text : str) (st : loop_state) :
  Forall (fun c => infix c text) (chunks st) ->
  Forall (fun c => infix c text) (chunks (split_step self text st)).
Proof.
  intros Hall. unfold split_step. cbn [chunks].
  set (w := slice text (start st) (window_end self text (start st))).
  destruct (strip w) eqn:E; [exact Hall|].
  apply Forall_app; split; [exact Hall|].
  constructor; [|constructor]. rewrite <- E.
  eapply infix_trans; [apply strip_infix | apply slice_infix].
Qed.

(** ** [startswith] and [rfind] *)

Lemma startswith_app (s p : str) :
  startswith s p = true <-> exists rest, s = p ++ rest.
Proof.
  revert s. induction p as [|a p IH]; intros s.
  - split; [intros _; exists s; reflexivity | intros _; destruct s; reflexivity].
  - destruct s as [|b s]; cbn [startswith].
    + split; [discriminate | intros [rest E]; discriminate].
    + destruct (ascii_dec a b) as [->|Hne].
      * rewrite IH. split; intros [rest E]; exists rest; simpl in *; congruence.
      * split; [discriminate | intros [rest E]; simpl in E; congruence].
Qed.

(** A position [rfind] returns is one where [sub] occurs. *)
Lemma rfind_occurs (s sub : str) :
  0 <= rfind s sub -> occurs_at s sub (rfind s sub).
Proof.
  unfold occurs_at. induction s as [|c r IH].
  - cbn [rfind]. destruct sub; [|simpl; lia].
    intros _. exists [], []. split; reflexivity.
  - cbn [rfind]. destruct (Z.leb_spec 0 (rfind r sub)) as [Hk|Hk].
    + intros _. destruct (IH Hk) as (pre & rest & E & Hl).
      exists (c :: pre), rest. split; [simpl; now rewrite <- E|].
      unfold len in *. simpl length. lia.
    + destruct (startswith (c :: r) sub) eqn:Es; [|lia].
      intros _. apply startswith_app in Es as [rest E].
      exists [], rest. split; [exact E | reflexivity].
Qed.

(** No occurrence of [sub] lies after the position [rfind] returns;
    in particular there is none at all when it returns [-1]. *)
Lemma rfind_last (s sub : str) (k : Z) :
  occurs_at s sub k -> k <= rfind s sub.
Proof.
  unfold occurs_at. revert k. induction s as [|c r IH]; intros k (pre & rest & E & Hl).
  - destruct pre; [|discriminate]. destruct sub; [|discriminate].
    subst k. unfold len. simpl. lia.
  - cbn [rfind]. destruct pre as [|a pre].
    + pose proof (rfind_bound r sub) as Hb.
      destruct (Z.leb_spec 0 (rfind r sub)); [unfold len in *; simpl in *; lia|].
      assert (Es : startswith (c :: r) sub = true)
        by (apply startswith_app; exists rest; exact E).
      rewrite Es. unfold len in *; simpl in *; lia.
    + injection E as -> E.
      assert (Hk : len pre <= rfind r sub)
        by (apply IH; exists pre, rest; split; [exact E | reflexivity]).
      pose proof (len_nonneg pre).
      destruct (Z.leb_spec 0 (rfind r sub)); unfold len in *; simpl length in *; lia.
Qed.

(** An occurrence, read as a slice. *)
Lemma occurs_at_slice (s sub : str) (k : Z) :
  occurs_at s sub k -> slice s k (k + len sub) = sub.
Proof.
  intros (pre & rest & -> & <-). unfold slice, slice_bound, len.
  pose proof (len_nonneg pre). pose proof (len_nonneg sub). unfold len in *.
  rewrite !length_app.
  destruct (Z.ltb_spec (Z.of_nat (length pre)) 0); [lia|].
  destruct (Z.ltb_spec (Z.of_nat (length pre) + Z.of_nat (length sub)) 0); [lia|].
  replace (Z.to_nat (Z.min _ _ - Z.min _ _)) with (length sub) by lia.
  replace (Z.to_nat (Z.min (Z.of_nat (length pre)) _)) with (length pre) by lia.
  rewrite drop_app_length. apply take_app_length.
Qed.

(** An occurrence inside a window of the text is an occurrence in
    the text, shifted by the start of the window. *)
Lemma occurs_at_window (text sub : str) (a b k : Z) :
  0 <= a -> sub <> [] ->
  occurs_at (slice text a b) sub k -> occurs_at text sub (a + k).
Proof.
  intros Ha Hne (pre & rest & E & Hl).
  assert (Hlen : len (slice text a b) = len pre + len sub + len rest).
  { rewrite E. unfold len. rewrite !length_app. lia. }
  assert (Hsub : 0 < len sub).
  { destruct sub; [now elim Hne | unfold len; simpl; lia]. }
  rewrite len_slice in Hlen.
  pose proof (len_nonneg pre). pose proof (len_nonneg rest). pose proof (len_nonneg text).
  assert (Hlo : slice_bound (len text) a = a) by slice_lia.
  unfold slice in E. rewrite Hlo in E.
  exists (firstn (Z.to_nat a) text ++ pre),
         (rest ++ skipn (Z.to_nat (slice_bound (len text) b - a)) (skipn (Z.to_nat a) text)).
  split.
  - rewrite <- (firstn_skipn (Z.to_nat a) text) at 1.
    rewrite <- (firstn_skipn (Z.to_nat (slice_bound (len text) b - a))
                  (skipn (Z.to_nat a) text)) at 1.
    rewrite E. now rewrite <- !app_assoc.
  - pose proof (slice_bound_range (len text) b ltac:(lia)).
    rewrite Hlo in Hlen.
    unfold len in *. rewrite length_app, length_take. lia.
Qed.

(** An occurrence in the text that fits a window is an occurrence in
    the window. *)
Lemma occurs_in_window (text sub : str) (a b k : Z) :
  0 <= a -> a <= k -> k + len sub <= b -> b <= len text ->
  occurs_at text sub k -> occurs_at (slice text a b) sub (k - a).
Proof.
  intros Ha Hak Hkb Hb (pre & rest & E & Hl).
  pose proof (len_nonneg sub). pose proof (len_nonneg text).
  assert (Hlo : slice_bound (len text) a = a) by slice_lia.
  assert (Hhi : slice_bound (len text) b = b) by slice_lia.
  unfold slice. rewrite Hlo, Hhi.
  assert (Ht : len text = len pre + len sub + len rest).
  { rewrite E. unfold len. rewrite !length_app. lia. }
  exists (skipn (Z.to_nat a) pre),
         (firstn (Z.to_nat (b - k - len sub)) rest).
  split.
  - rewrite E. unfold len in *.
    rewrite drop_app_le by lia.
    rewrite take_app_ge by (rewrite length_drop; lia).
    f_equal. rewrite length_drop.
    rewrite take_app_ge by lia. f_equal. f_equal. lia.
  - unfold len in *. rewrite length_drop. lia.
Qed.

Lemma slice_occurs (text sub : str) (k : Z) :
  0 <= k -> k + len sub <= len text ->
  slice text k (k + len sub) = sub -> occurs_at text sub k.
Proof.
  intros Hk Hfit E. pose proof (len_nonneg sub).
  assert (Hlo : slice_bound (len text) k = k) by slice_lia.
  assert (Hhi : slice_bound (len text) (k + len sub) = k + len sub) by slice_lia.
  unfold slice in E. rewrite Hlo, Hhi in E.
  exists (firstn (Z.to_nat k) text),
         (skipn (Z.to_nat (k + len sub - k)) (skipn (Z.to_nat k) text)).
  split.
  - rewrite <- E at 1. rewrite firstn_skipn. now rewrite firstn_skipn.
  - unfold len in *. rewrite length_take. lia.
Qed.

(** The end of a slice may be cut at the end of the text. *)
Lemma slice_clamp (text : str) (a b : Z) :
  0 <= b -> slice text a b = slice text a (Z.min b (len text)).
Proof.
  intros Hb. unfold slice. pose proof (len_nonneg text).
  replace (slice_bound (len text) (Z.min b (len text)))
    with (slice_bound (len text) b) by slice_lia.
  reflexivity.
Qed.

(** What the scan over the endings computes: [-1] when no ending
    occurs in the substring, else the position just after one of
    them. *)
Lemma best_pos_spec (substring : str) (endings : list str) :
  Forall (fun e => len e = 2) endings ->
  forall acc, acc = -1 \/ 2 <= acc ->
  let r := fold_left
             (fun best_pos ending =>
                let pos := rfind substring ending in
                if pos >? best_pos then pos + len ending else best_pos)
             endings acc in
  (r = -1 /\ acc = -1 /\ Forall (fun e => rfind substring e = -1) endings) \/
  (r = acc /\ 2 <= acc) \/
  (exists e, In e endings /\ 0 <= rfind substring e /\ r = rfind substring e + 2).
Proof.
  induction 1 as [|e es He _ IH]; intros acc Hacc.
  - cbn. destruct Hacc; [left; repeat split; [assumption.. | constructor] | right; left; auto].
  - cbn [fold_left]. cbv zeta. rewrite Z.gtb_ltb, He.
    pose proof (rfind_bound substring e) as Hb.
    destruct (Z.ltb_spec acc (rfind substring e)) as [Hlt|Hge].
    + specialize (IH (rfind substring e + 2) ltac:(lia)). cbv zeta in IH.
      destruct IH as [(_ & ? & _)|[(Hr & _)|(e' & Hin & H0 & Hr)]]; [lia | |].
      * right; right. exists e. split; [now left | split; [lia | exact Hr]].
      * right; right. exists e'. split; [now right | auto].
    + specialize (IH acc Hacc). cbv zeta in IH.
      destruct IH as [(Hr & Ha & Hall)|[(Hr & Ha)|(e' & Hin & H0 & Hr)]].
      * left. repeat split; try assumption. constructor; [lia | exact Hall].
      * right; left. auto.
      * right; right. exists e'. split; [now right | auto].
Qed.

End TextSplitterMoreFacts.

(** * The vector store: further properties *)

Module VectorStoreMoreFacts.
Import PyStr VectorStoreService VectorStoreFacts ServiceFacts VectorStoreAdmin.
Local Open Scope Z_scope.

Lemma entry_eta (e : entry) :
  {| entry_id := entry_id e; entry_text := entry_text e;
     entry_metadata := entry_metadata e |} = e.
Proof. destruct e; reflexivity. Qed.

(** ** [prepare], exactly *)

Lemma new_rows_length env md n d t i chunks :
  length (new_rows env md n d t i chunks) = length chunks.
Proof.
  revert d t i. induction chunks as [|c r IH]; intros d t i; [reflexivity|].
  cbn [new_rows length]. now rewrite IH.
Qed.

Lemma new_rows_text env md n d t i chunks :
  map entry_text (new_rows env md n d t i chunks) = chunks.
Proof.
  revert d t i. induction chunks as [|c r IH]; intros d t i; [reflexivity|].
  cbn [new_rows map]. now rewrite IH.
Qed.

Lemma new_rows_id env md n d t i chunks :
  map entry_id (new_rows env md n d t i chunks)
  = map (uuid4 env) (seq d (length chunks)).
Proof.
  revert d t i. induction chunks as [|c r IH]; intros d t i; [reflexivity|].
  cbn [new_rows map length seq]. now rewrite IH.
Qed.

Lemma new_rows_lookup env md n chunks :
  forall d t i (j : nat) row,
    new_rows env md n d t i chunks !! j = Some row ->
    entry_id row = uuid4 env (d + j) /\
    chunks !! j = Some (entry_text row) /\
    entry_metadata row
    = chunk_metadata md (entry_id row) (i + Z.of_nat j) n (isoformat env (t + j)).
Proof.
  induction chunks as [|c r IH]; intros d t i j row H; [discriminate|].
  destruct j as [|j]; cbn [new_rows] in H.
  - injection H as <-. cbn. rewrite !Nat.add_0_r, Z.add_0_r. auto.
  - cbn in H. apply IH in H as (H1 & H2 & H3).
    rewrite H1, H3. rewrite H1.
    replace (S d + j)%nat with (d + S j)%nat by lia.
    replace (S t + j)%nat with (t + S j)%nat by lia.
    replace (i + 1 + Z.of_nat j) with (i + Z.of_nat (S j)) by lia.
    auto.
Qed.

Lemma advance_S (k : nat) (w : World) :
  advance k (set_ticks (S (ticks (set_draws (S (draws w)) w)))
               (set_draws (S (draws w)) w))
  = advance (S k) w.
Proof.
  unfold advance, set_ticks, set_draws. cbn. f_equal; lia.
Qed.

Lemma advance_0 (w : World) : advance 0 w = w.
Proof.
  unfold advance, set_ticks, set_draws. cbn. rewrite !Nat.add_0_r.
  destruct w; reflexivity.
Qed.

Lemma prepare_exact (env : Env) (md : gmap str pyval) (n : Z) (chunks : list str) :
  forall (i : Z) (w : World),
    prepare env md n i chunks w =
      (Return (map entry_metadata (new_rows env md n (draws w) (ticks w) i chunks),
               map entry_id (new_rows env md n (draws w) (ticks w) i chunks)),
       advance (length chunks) w).
Proof.
  induction chunks as [|c r IH]; intros i w.
  - cbn [prepare new_rows map length]. now rewrite advance_0.
  - cbn [prepare]. unfold bind at 1, new_uuid. cbv beta iota zeta.
    unfold bind at 1, utcnow. cbv beta iota zeta. unfold bind at 1.
    rewrite IH. unfold ret. cbn [fst snd length].
    rewrite advance_S. reflexivity.
Qed.

(** ** [upsert] and [add_texts] *)

Lemma upsert_fresh (e : entry) (rows : list entry) :
  ~ In (entry_id e) (map entry_id rows) -> Chroma.upsert e rows = rows ++ [e].
Proof.
  induction rows as [|r rows IH]; intros H; [reflexivity|].
  cbn [Chroma.upsert]. destruct (decide (entry_id r = entry_id e)) as [E|_].
  - exfalso. apply H. left. exact E.
  - cbn. rewrite IH; [reflexivity|]. intros Hin. apply H. now right.
Qed.

Lemma add_texts_fresh (new : list entry) :
  forall rows,
    NoDup (map entry_id new) ->
    (forall i, In i (map entry_id new) -> ~ In i (map entry_id rows)) ->
    Chroma.add_texts (map entry_text new) (map entry_metadata new)
      (map entry_id new) rows
    = rows ++ new.
Proof.
  induction new as [|e new IH]; intros rows Hnd Hfresh.
  - cbn. now rewrite app_nil_r.
  - cbn [map Chroma.add_texts]. rewrite entry_eta.
    rewrite upsert_fresh by (apply Hfresh; now left).
    cbn [map] in Hnd. apply NoDup_cons in Hnd as [Hnotin Hnd].
    rewrite IH; [now rewrite <- app_assoc | exact Hnd |].
    intros i Hi. rewrite map_app, in_app_iff. intros [Hr|[<-|[]]].
    + apply (Hfresh i); [now right | exact Hr].
    + apply Hnotin. apply list_elem_of_In. exact Hi.
Qed.

(** A row of the index after [upsert] or [add_texts] is an old row or
    one of the rows given. *)
Lemma upsert_elem_inv (e : entry) (rows : list entry) (r : entry) :
  In r (Chroma.upsert e rows) -> r = e \/ In r rows.
Proof.
  induction rows as [|x rows IH]; cbn [Chroma.upsert].
  - intros [<-|[]]. now left.
  - destruct (decide (entry_id x = entry_id e)).
    + intros [<-|H]; [now left | right; now right].
    + intros [<-|H]; [right; now left|].
      destruct (IH H); [now left | right; now right].
Qed.

Lemma add_texts_elem_inv (P : gmap str pyval -> Prop) :
  forall (texts : list str) (mds : list (gmap str pyval)) (ids : list str)
         (rows : list entry) (r : entry),
    Forall P mds ->
    In r (Chroma.add_texts texts mds ids rows) ->
    In r rows \/ P (entry_metadata r).
Proof.
  induction texts as [|t ts IH]; intros mds ids rows r Hall Hin.
  - left. destruct mds, ids; exact Hin.
  - destruct mds as [|m ms]; [left; exact Hin|].
    destruct ids as [|i is_]; [left; exact Hin|].
    cbn [Chroma.add_texts] in Hin. inversion Hall as [|? ? Hp Hps]; subst.
    destruct (IH _ _ _ _ Hps Hin) as [H|H]; [|now right].
    apply upsert_elem_inv in H as [->|H]; [right; exact Hp | now left].
Qed.

End VectorStoreMoreFacts.

(** * Ingestion: further properties *)

Module IngestMoreFacts.
Import PyStr VectorStoreService VectorStoreFacts ServiceFacts VectorStoreAdmin
  VectorStoreMoreFacts.
Local Open Scope Z_scope.

(** [add_documents] of at least one chunk, exactly. *)
Lemma add_documents_exact (env : Env) (chunks : list str) (md : gmap str pyval)
    (w : World) :
  chunks <> [] ->
  add_documents env chunks md w =
    (Return {| status := py "success";
               documents_added := Z.of_nat (length chunks) |},
     set_collection
       (Chroma.add_texts chunks
          (map entry_metadata
             (new_rows env md (Z.of_nat (length chunks)) (draws w) (ticks w) 0 chunks))
          (map entry_id
             (new_rows env md (Z.of_nat (length chunks)) (draws w) (ticks w) 0 chunks))
          (collection w))
       (advance (length chunks) w)).
Proof.
  intros Hne. destruct chunks as [|c cs]; [now elim Hne|].
  unfold add_documents, rethrow. cbv iota zeta. unfold bind at 1.
  rewrite prepare_exact. unfold bind, modify, ret. cbv beta iota zeta.
  reflexivity.
Qed.

(** The rows [add_documents] builds all carry the base metadata under
    every key but the four it sets. *)
Lemma new_rows_metadata (env : Env) (md : gmap str pyval) (n : Z) (key : str) :
  key <> py "timestamp" -> key <> py "total_chunks" ->
  key <> py "chunk_index" -> key <> py "chunk_id" ->
  forall chunks d t i,
    Forall (fun m => m !! key = md !! key)
      (map entry_metadata (new_rows env md n d t i chunks)).
Proof.
  intros H1 H2 H3 H4. induction chunks as [|c r IH]; intros d t i; [constructor|].
  cbn [new_rows map]. constructor; [|apply IH].
  cbn [entry_metadata]. now apply chunk_metadata_other.
Qed.

(** The rows built from the base metadata of an upload carry its
    file name and its document id. *)
Lemma new_rows_upload (env : Env) (filename document_id : str) (n : Z) :
  forall chunks d t i,
    Forall (fun m => m !! py "filename" = Some (VStr filename) /\
                     m !! py "document_id" = Some (VStr document_id))
      (map entry_metadata
         (new_rows env
            (<[py "document_id" := VStr document_id]>
               (<[py "filename" := VStr filename]> ∅))
            n d t i chunks)).
Proof.
  induction chunks as [|c r IH]; intros d t i; [constructor|].
  cbn [new_rows map]. constructor; [|apply IH].
  cbn [entry_metadata]. split.
  - rewrite chunk_metadata_other by discriminate.
    rewrite lookup_insert_ne by discriminate. apply lookup_insert_eq.
  - rewrite chunk_metadata_other by discriminate. apply lookup_insert_eq.
Qed.

(** [DocumentProcessor.process_document] reads the clock and the file
    system; it changes neither the index nor the records nor the
    files. *)
Lemma processor_frame (env : Env) (p : DocumentProcessor.t) (path name : str)
    (w : World) :
  let w' := snd (DocumentProcessor.process_document env p path name w) in
  collection w' = collection w /\ documents_metadata w' = documents_metadata w /\
  files w' = files w /\ draws w' = draws w.
Proof.
  unfold DocumentProcessor.process_document, DocumentProcessor.extract_text_from_pdf,
    DocumentProcessor.chunk_text, rethrow, bind, utcnow, get, lift, raise, ret.
  cbv beta iota zeta. cbn [files set_ticks].
  destruct (files w !! path) as [bytes|]; [|cbn; auto].
  destruct (pdf_pages env bytes) as [pages| |]; try (cbn; auto; fail).
  match goal with
  | |- context [DocumentProcessor.blank (join ?a ?b)] =>
      destruct (DocumentProcessor.blank (join a b)) eqn:Eb
  end.
  - cbn. auto.
  - rewrite Eb.
    match goal with
    | |- context [recursive_split env ?a ?b ?c] =>
        destruct (recursive_split env a b c) as [cs|[]|]
    end; cbn; auto.
Qed.

(** A row of the index after [DocumentService.process_document] is a
    row that was there before, or a row of the new document. *)
Lemma process_document_rows (env : Env) (filename content : str) (w w1 : World)
    (r : DocumentService.ProcessResult) :
  DocumentService.process_document env filename content w = (Return r, w1) ->
  forall row,
    In row (collection w1) ->
    In row (collection w) \/
    (entry_metadata row !! py "filename" = Some (VStr filename) /\
     entry_metadata row !! py "document_id"
     = Some (VStr (DocumentService.document_id r))).
Proof.
  intros E row Hin. unfold DocumentService.process_document in E.
  unfold bind at 1 in E. unfold new_uuid at 1 in E. cbv beta iota zeta in E.
  unfold bind at 1 in E. unfold modify at 1 in E. cbv beta iota zeta in E.
  unfold bind at 1 in E.
  match type of E with
  | context [DocumentProcessor.process_document ?a ?b ?c ?d ?e] =>
      pose proof (processor_frame a b c d e) as Hf; cbv zeta in Hf;
      destruct (DocumentProcessor.process_document a b c d e) as [[pr| |] w2];
        try discriminate
  end.
  cbn [snd] in Hf. destruct Hf as (Hc & _).
  cbn [collection set_files set_draws] in Hc.
  destruct (DocumentProcessor.chunks pr) as [|c cs] eqn:Ec.
  - unfold ret in E. injection E as <- <-. left. now rewrite <- Hc.
  - unfold bind at 1 in E. rewrite add_documents_exact in E by discriminate.
    unfold bind, utcnow, modify, DocumentService._save_metadata, ret in E.
    cbv beta iota zeta in E. injection E as <- <-.
    change (In row (Chroma.add_texts (c :: cs)
              (map entry_metadata
                 (new_rows env
                    (<[py "document_id" := VStr (uuid4 env (draws w))]>
                       (<[py "filename" := VStr filename]> ∅))
                    (Z.of_nat (length (c :: cs))) (draws w2) (ticks w2) 0 (c :: cs)))
              (map entry_id
                 (new_rows env
                    (<[py "document_id" := VStr (uuid4 env (draws w))]>
                       (<[py "filename" := VStr filename]> ∅))
                    (Z.of_nat (length (c :: cs))) (draws w2) (ticks w2) 0 (c :: cs)))
              (collection w2))) in Hin.
    cbn [DocumentService.document_id].
    apply (add_texts_elem_inv
             (fun m => m !! py "filename" = Some (VStr filename) /\
                       m !! py "document_id" = Some (VStr (uuid4 env (draws w))))
             (c :: cs) _ _ (collection w2) row)
      in Hin.
    + destruct Hin as [H|H]; [left; now rewrite <- Hc | right; exact H].
    + apply new_rows_upload.
Qed.

(** ** Blank strings *)

Lemma lstrip_nil_spaces (s : str) :
  lstrip s = [] -> Forall (fun c => isspace c = true) s.
Proof.
  induction s as [|c r IH]; [constructor|]. cbn [lstrip].
  destruct (isspace c) eqn:E; [|discriminate]. intros H. constructor; auto.
Qed.

Lemma rstrip_nonspace_head (c : ascii) (r : str) :
  isspace c = false -> rstrip (c :: r) <> [].
Proof.
  intros Hc. cbn [rstrip]. destruct (rstrip r); [rewrite Hc|]; discriminate.
Qed.

Lemma blank_spaces (s : str) :
  DocumentProcessor.blank s = true <-> Forall (fun c => isspace c = true) s.
Proof.
  unfold DocumentProcessor.blank. split.
  - intros H. apply lstrip_nil_spaces. unfold strip in H.
    destruct (lstrip s) as [|c r] eqn:E; [reflexivity|].
    exfalso. pose proof (PyStrFacts.lstrip_head s c r E) as Hc.
    pose proof (rstrip_nonspace_head c r Hc) as Hne.
    destruct (rstrip (c :: r)); [now elim Hne | discriminate].
  - intros H. now rewrite PyStrFacts.strip_spaces.
Qed.

Lemma join_head_spaces (sep p : str) (rest : list str) :
  Forall (fun c => isspace c = true) (join sep (p :: rest)) ->
  Forall (fun c => isspace c = true) p.
Proof.
  cbn [join]. destruct rest; [auto|]. intros H.
  apply Forall_app in H as [H _]. exact H.
Qed.

Lemma text_parts_nonblank (pages : list (option str)) :
  Forall (fun p => DocumentProcessor.blank p = false)
    (DocumentProcessorMore.text_parts pages).
Proof.
  unfold DocumentProcessorMore.text_parts.
  induction pages as [|p ps IH]; [constructor|].
  destruct p as [t|]; cbn -[DocumentProcessor.blank]; [|exact IH].
  destruct (DocumentProcessor.blank t) eqn:E; [exact IH|].
  constructor; assumption.
Qed.

(** The pages joined are blank only when no page has text. *)
Lemma join_text_parts_blank (pages : list (option str)) :
  DocumentProcessor.blank (join (nl ++ nl) (DocumentProcessorMore.text_parts pages))
  = true ->
  DocumentProcessorMore.text_parts pages = [].
Proof.
  pose proof (text_parts_nonblank pages) as Hall.
  destruct (DocumentProcessorMore.text_parts pages) as [|p rest]; [reflexivity|].
  intros Hb. apply blank_spaces, join_head_spaces, blank_spaces in Hb.
  inversion Hall; subst. congruence.
Qed.

End IngestMoreFacts.

(** * The query orchestrator: further facts *)

Module RagMoreFacts.
Import PyStr Schemas VectorStoreService RagMore PyStrFacts VectorStoreFacts ServiceFacts.
Local Open Scope Z_scope.

(** ** [generate_response] *)

Lemma generate_response_down (env : Env) (question : str) (w : World) :
  ollama_up w = false ->
  LLMService.generate_response env question w = (Raise ConnectionError, w).
Proof.
  intros Hup.
  unfold LLMService.generate_response, LLMService._validate_ollama_connection,
    rethrow, bind, get, raise.
  rewrite Hup. reflexivity.
Qed.

Lemma generate_response_up (env : Env) (question : str) (w : World) :
  ollama_up w = true ->
  LLMService.generate_response env question w =
    (Return
       {| LLMService.answer := strip (ollama env (chain_prompt env question w));
          LLMService.source_documents :=
            map (fun doc =>
                   {| LLMService.sd_content := page_content doc;
                      LLMService.sd_metadata := metadata doc;
                      LLMService.sd_source :=
                        dict_get (metadata doc) (py "filename") (VStr (py "Unknown")) |})
                (map fst (similarity_search_with_score env (collection w) question
                            (Settings.TOP_K_RETRIEVAL (settings env))));
          LLMService.query := question |},
     set_llm_calls (llm_calls w ++ [chain_prompt env question w]) w).
Proof.
  intros Hup.
  unfold LLMService.generate_response, LLMService._validate_ollama_connection,
    LLMService.qa_chain_invoke, rethrow, bind, get, modify, ret.
  cbv beta iota zeta. rewrite Hup. reflexivity.
Qed.

(** ** [_update_conversation] *)

Lemma _update_conversation_run (env : Env) (cid question answer : str) (w : World) :
  exists w' h',
    RAGService._update_conversation env cid question answer w = (Return tt, w') /\
    conversations w' !! cid = Some h' /\
    map turn (messages h')
    = map turn (from_option messages [] (conversations w !! cid))
      ++ [(user, question); (assistant, answer)] /\
    Schemas.conversation_id h'
    = from_option Schemas.conversation_id cid (conversations w !! cid) /\
    (forall other, other <> cid ->
       conversations w' !! other = conversations w !! other) /\
    collection w' = collection w /\ llm_calls w' = llm_calls w /\
    ollama_up w' = ollama_up w.
Proof.
  unfold RAGService._update_conversation, bind, get, utcnow, modify, ret.
  destruct (conversations w !! cid) as [h|] eqn:E; cbv beta iota zeta;
    cbn [fst snd conversations set_ticks set_conversations ticks collection llm_calls
         ollama_up from_option].
  - eexists _, _. split; [reflexivity|].
    cbn [conversations set_conversations set_ticks collection llm_calls ollama_up].
    rewrite lookup_alter_eq, E. cbn [fmap option_fmap option_map].
    split; [reflexivity|]. cbn [messages Schemas.conversation_id].
    rewrite map_app. split; [reflexivity|]. split; [reflexivity|].
    split; [|auto]. intros other Hne. rewrite lookup_alter_ne by congruence. reflexivity.
  - eexists _, _. split; [reflexivity|].
    cbn [conversations set_conversations set_ticks collection llm_calls ollama_up].
    rewrite lookup_alter_eq, lookup_insert_eq. cbn [fmap option_fmap option_map].
    split; [reflexivity|]. cbn [messages Schemas.conversation_id].
    split; [reflexivity|]. split; [reflexivity|].
    split; [|auto]. intros other Hne.
    rewrite lookup_alter_ne, lookup_insert_ne by congruence. reflexivity.
Qed.

(** ** [_format_conversation_history] *)

Lemma slice_from_recent {A} (old recent : list A) :
  length recent = 5%nat -> slice_from (old ++ recent) (-5) = recent.
Proof.
  intros H. unfold slice_from, slice_bound. rewrite length_app, H.
  change (-5 <? 0) with true. cbv iota.
  replace (Z.to_nat _) with (length old) by lia.
  apply drop_app_length.
Qed.

Lemma slice_from_short {A} (l : list A) :
  (length l <= 5)%nat -> slice_from l (-5) = l.
Proof.
  intros H. unfold slice_from, slice_bound.
  change (-5 <? 0) with true. cbv iota.
  replace (Z.to_nat _) with 0%nat by lia. reflexivity.
Qed.

(** ** [_format_sources] *)

Lemma preview_length (content : str) : len (preview content) <= 203.
Proof.
  unfold preview. destruct (200 <? len content) eqn:E.
  - apply Z.ltb_lt in E. unfold len. rewrite length_app, Nat2Z.inj_add.
    fold (len (slice_to content 200)). unfold slice_to.
    pose proof (len_slice content 0 200) as H. pose proof (len_nonneg content) as Hn.
    change (Z.of_nat (length (py "..."))) with 3.
    rewrite H. unfold slice_bound.
    destruct (Z.ltb_spec 200 0); destruct (Z.ltb_spec 0 0); lia.
  - apply Z.ltb_ge in E. lia.
Qed.

Lemma _format_source_presentable (env : Env) (doc : Hit) (w : World) :
  presentable env doc = true ->
  exists s,
    RAGService._format_source env doc w = (Return s, set_draws (S (draws w)) w) /\
    mirrors env doc s.
Proof.
  unfold presentable, str_or_absent, page_or_absent. intros H.
  apply andb_prop in H as [H H5]. apply andb_prop in H as [H H4].
  apply andb_prop in H as [H H3]. apply andb_prop in H as [H1 H2].
  pose proof (preview_length (content doc)) as Hlen.
  unfold RAGService._format_source, bind, new_uuid, lift, dict_get, mirrors, dict_get,
    page_of.
  fold (preview (content doc)).
  unfold make_SourceDocument.
  destruct (hit_metadata doc !! py "source") as [[f|?]|]; try discriminate;
  destruct (hit_metadata doc !! py "chunk_id") as [[c|?]|]; try discriminate;
  (destruct (hit_metadata doc !! py "page") as [[s'|p]|];
     [destruct (str_as_int env s') as [p|]; [|discriminate]| |]);
  cbn [default from_option Datatypes.id]; rewrite ?H3, H4, H5;
  change (Z.of_nat (length (preview (content doc)))) with (len (preview (content doc)));
  (replace (len (preview (content doc)) <=? 500) with true
     by (symmetry; apply Z.leb_le; lia));
  cbn [andb]; eexists; (split; [reflexivity|]);
  cbn [filename chunk_id page relevance_score content_preview];
  repeat split; try reflexivity; try assumption;
  intros ? [= <-]; reflexivity.
Qed.

Lemma _format_source_unpresentable (env : Env) (doc : Hit) (w : World) :
  presentable env doc = false ->
  RAGService._format_source env doc w = (Raise ValueError, set_draws (S (draws w)) w).
Proof.
  unfold presentable, str_or_absent, page_or_absent. intros H.
  unfold RAGService._format_source, bind, new_uuid, lift, dict_get.
  unfold make_SourceDocument.
  destruct (hit_metadata doc !! py "source") as [[f|?]|];
  destruct (hit_metadata doc !! py "chunk_id") as [[c|?]|];
  (destruct (hit_metadata doc !! py "page") as [[s'|p]|];
     [destruct (str_as_int env s') as [p|]| |]);
  cbn [default from_option Datatypes.id andb] in *; try reflexivity;
  try (destruct (1 <=? p); cbn [andb] in *; try reflexivity);
  try discriminate;
  destruct (Qle_bool 0 (score doc)); cbn [andb] in *; try reflexivity;
  rewrite H; reflexivity.
Qed.

Lemma _format_sources_presentable (env : Env) (docs : list Hit) :
  forallb (presentable env) docs = true ->
  forall w, exists srcs,
    RAGService._format_sources env docs w
    = (Return srcs, set_draws (draws w + length docs) w) /\
    Forall2 (mirrors env) docs srcs.
Proof.
  unfold RAGService._format_sources.
  induction docs as [|doc docs IH]; intros H w.
  - exists []. cbn [mapM ret length]. rewrite Nat.add_0_r. split; [|constructor].
    destruct w; reflexivity.
  - cbn [forallb] in H. apply andb_prop in H as [Hd Hr].
    destruct (_format_source_presentable env doc w Hd) as (s & Es & Hs).
    destruct (IH Hr (set_draws (S (draws w)) w)) as (ss & Ess & Hss).
    exists (s :: ss). cbn [mapM]. unfold bind at 1. rewrite Es.
    unfold bind at 1. rewrite Ess. cbn [ret draws set_draws length].
    split; [|constructor; assumption].
    f_equal. unfold set_draws. cbn. f_equal. lia.
Qed.

Lemma _format_sources_unpresentable (env : Env) (docs : list Hit) :
  forallb (presentable env) docs = false ->
  forall w, exists w',
    RAGService._format_sources env docs w = (Raise ValueError, w') /\
    same_store w w' /\ ollama_up w' = ollama_up w.
Proof.
  unfold RAGService._format_sources.
  induction docs as [|doc docs IH]; intros H w; [discriminate|].
  cbn [forallb] in H. cbn [mapM]. unfold bind at 1.
  destruct (presentable env doc) eqn:Hd.
  - destruct (_format_source_presentable env doc w Hd) as (s & Es & Hs).
    rewrite Es. cbn [andb] in H.
    destruct (IH H (set_draws (S (draws w)) w)) as (w' & E' & Hst & Hup).
    unfold bind at 1. rewrite E'. exists w'. split; [reflexivity|].
    split; [|exact Hup]. unfold same_store in *. cbn in Hst. exact Hst.
  - rewrite (_format_source_unpresentable env doc w Hd).
    eexists. split; [reflexivity|]. unfold same_store. cbn. auto.
Qed.

(** ** [RAGService.query] with passages retrieved *)

(** The three ways a query with passages ends: Ollama down, a hit the
    source model rejects, and the answer. *)
Lemma query_run (env : Env) (question : str) (cid : option str) (k : Z) (w : World) :
  map format_hit (similarity_search_with_score env (collection w) question k) <> [] ->
  (ollama_up w = false ->
   exists w', RAGService.query env question cid k w = (Raise ConnectionError, w') /\
              same_store w w') /\
  (ollama_up w = true ->
   forallb (presentable env)
     (map format_hit (similarity_search_with_score env (collection w) question k))
   = false ->
   exists w', RAGService.query env question cid k w = (Raise ValueError, w') /\
              collection w' = collection w /\
              conversations w' = conversations w /\
              llm_calls w' = llm_calls w ++ [chain_prompt env question w]) /\
  (ollama_up w = true ->
   forallb (presentable env)
     (map format_hit (similarity_search_with_score env (collection w) question k))
   = true ->
   exists srcs w' h',
     RAGService.query env question cid k w
     = (Return {| RAGService.answer := strip (ollama env (chain_prompt env question w));
                  RAGService.sources := srcs;
                  RAGService.conversation_id := effective_id env cid w |}, w') /\
     Forall2 (mirrors env)
       (map format_hit (similarity_search_with_score env (collection w) question k))
       srcs /\
     collection w' = collection w /\
     llm_calls w' = llm_calls w ++ [chain_prompt env question w] /\
     conversations w' !! effective_id env cid w = Some h' /\
     map turn (messages h')
     = map turn (from_option messages [] (conversations w !! effective_id env cid w))
       ++ [(user, question);
           (assistant, strip (ollama env (chain_prompt env question w)))] /\
     (forall other, other <> effective_id env cid w ->
        conversations w' !! other = conversations w !! other)).
Proof.
  assert (Hbody : forall cid' w0,
    let run :=
      (let! retrieved_docs := similarity_search env question (Some k) in
       match retrieved_docs with
       | [] => ret {| RAGService.answer := RAGService.no_information;
                      RAGService.sources := [];
                      RAGService.conversation_id := cid' |}
       | _ :: _ =>
           let! w1 := get in
           let! result := LLMService.generate_response env question in
           let! sources := RAGService._format_sources env retrieved_docs in
           let! _ := RAGService._update_conversation env cid' question
                       (LLMService.answer result) in
           ret {| RAGService.answer := LLMService.answer result;
                  RAGService.sources := sources;
                  RAGService.conversation_id := cid' |}
       end) w0 in
    map format_hit (similarity_search_with_score env (collection w0) question k) <> [] ->
    (ollama_up w0 = false ->
     exists w', run = (Raise ConnectionError, w') /\ same_store w0 w') /\
    (ollama_up w0 = true ->
     forallb (presentable env)
       (map format_hit (similarity_search_with_score env (collection w0) question k))
     = false ->
     exists w', run = (Raise ValueError, w') /\
                collection w' = collection w0 /\
                conversations w' = conversations w0 /\
                llm_calls w' = llm_calls w0 ++ [chain_prompt env question w0]) /\
    (ollama_up w0 = true ->
     forallb (presentable env)
       (map format_hit (similarity_search_with_score env (collection w0) question k))
     = true ->
     exists srcs w' h',
       run
       = (Return {| RAGService.answer := strip (ollama env (chain_prompt env question w0));
                    RAGService.sources := srcs;
                    RAGService.conversation_id := cid' |}, w') /\
       Forall2 (mirrors env)
         (map format_hit (similarity_search_with_score env (collection w0) question k))
         srcs /\
       collection w' = collection w0 /\
       llm_calls w' = llm_calls w0 ++ [chain_prompt env question w0] /\
       conversations w' !! cid' = Some h' /\
       map turn (messages h')
       = map turn (from_option messages [] (conversations w0 !! cid'))
         ++ [(user, question);
             (assistant, strip (ollama env (chain_prompt env question w0)))] /\
       (forall other, other <> cid' ->
          conversations w' !! other = conversations w0 !! other))).
  { intros cid' w0 run Hne. subst run.
    split; [|split].
    - intros Hup. unfold bind at 1. rewrite similarity_search_run.
      cbn [default from_option Datatypes.id].
      destruct (map format_hit
                  (similarity_search_with_score env (collection w0) question k))
        as [|h hs]; [now elim Hne|].
      unfold bind at 1, get. unfold bind at 1.
      rewrite (generate_response_down env question w0 Hup).
      exists w0. split; [reflexivity | apply same_store_refl].
    - intros Hup. unfold bind at 1. rewrite similarity_search_run.
      cbn [default from_option Datatypes.id].
      destruct (map format_hit
                  (similarity_search_with_score env (collection w0) question k))
        as [|h hs]; [now elim Hne|]. intros Hbad.
      unfold bind at 1, get. unfold bind at 1.
      rewrite (generate_response_up env question w0 Hup).
      unfold bind at 1.
      destruct (_format_sources_unpresentable env (h :: hs) Hbad
                  (set_llm_calls (llm_calls w0 ++ [chain_prompt env question w0]) w0))
        as (w' & E & (Hc & Hv & Hl) & _).
      rewrite E. exists w'. split; [reflexivity|].
      rewrite Hc, Hv, Hl. cbn. auto.
    - intros Hup. unfold bind at 1. rewrite similarity_search_run.
      cbn [default from_option Datatypes.id].
      destruct (map format_hit
                  (similarity_search_with_score env (collection w0) question k))
        as [|h hs]; [now elim Hne|]. intros Hok.
      unfold bind at 1, get. unfold bind at 1.
      rewrite (generate_response_up env question w0 Hup).
      unfold bind at 1.
      destruct (_format_sources_presentable env (h :: hs) Hok
                  (set_llm_calls (llm_calls w0 ++ [chain_prompt env question w0]) w0))
        as (srcs & E & HF).
      rewrite E. unfold bind at 1. cbn [LLMService.answer].
      match goal with |- context [RAGService._update_conversation env ?a ?b ?c ?w2] =>
        destruct (_update_conversation_run env a b c w2)
          as (w' & h' & E' & Hh & Hm & _ & Ho & Hc & Hl & _)
      end.
      rewrite E'. cbn [ret]. exists srcs, w', h'.
      split; [reflexivity|]. split; [exact HF|].
      split; [rewrite Hc; reflexivity|]. split; [rewrite Hl; reflexivity|].
      split; [exact Hh|]. split; [exact Hm | exact Ho]. }
  unfold RAGService.query. unfold bind at 1.
  destruct cid as [[|c r]|]; unfold new_uuid, ret, effective_id;
    [exact (Hbody (uuid4 env (draws w)) (set_draws (S (draws w)) w))
    |exact (Hbody (c :: r) w)
    |exact (Hbody (uuid4 env (draws w)) (set_draws (S (draws w)) w))].
Qed.

End RagMoreFacts.

(** * The field validators: facts *)

Module ValidatorFacts.
Import PyStr PyStrMore PyStrFacts TextSplitterMoreFacts.

(** ** [lower] *)

Lemma lower_char_idem (c : ascii) : lower_char (lower_char c) = lower_char c.
Proof. destruct c as [[] [] [] [] [] [] [] []]; vm_compute; reflexivity. Qed.

Lemma lower_idem (s : str) : lower (lower s) = lower s.
Proof.
  unfold lower. rewrite map_map. apply map_ext. intros c. apply lower_char_idem.
Qed.

Lemma lower_length (s : str) : length (lower s) = length s.
Proof. apply length_map. Qed.

(** A string starting with a dot still does after lowering. *)
Lemma lower_dot (e : str) :
  startswith e (py ".") = true -> startswith (lower e) (py ".") = true.
Proof.
  intros H. apply startswith_app in H as [rest ->].
  apply startswith_app. exists (lower rest). reflexivity.
Qed.

(** Validators of the shape "lowered value among the allowed ones". *)
Lemma lower_member (allowed : list str) (v r : str) :
  Forall (fun a => lower a = a) allowed ->
  (if negb (bool_decide (lower v ∈ allowed)) then Raise ValueError
   else Return (lower v)) = Return r ->
  r = lower v /\ r ∈ allowed /\
  (if negb (bool_decide (lower r ∈ allowed)) then Raise ValueError
   else Return (lower r)) = Return r.
Proof.
  intros Hall H. destruct (bool_decide (lower v ∈ allowed)) eqn:E;
    cbn [negb] in H; [|discriminate].
  injection H as <-. apply bool_decide_eq_true in E.
  split; [reflexivity|]. split; [exact E|].
  rewrite lower_idem. rewrite bool_decide_eq_true_2 by exact E. reflexivity.
Qed.

(** ** [rstrip] with a set of characters *)

Lemma rstrip_chars_decomp (s chars : str) :
  exists t, s = rstrip_chars s chars ++ t /\ Forall (fun c => c ∈ chars) t.
Proof.
  induction s as [|c r (t & E & Ht)]; [exists []; split; [reflexivity | constructor]|].
  cbn [rstrip_chars]. destruct (rstrip_chars r chars) as [|x l] eqn:Er.
  - destruct (bool_decide (c ∈ chars)) eqn:Ec.
    + apply bool_decide_eq_true in Ec. exists (c :: t). cbn in *. subst r.
      split; [reflexivity | constructor; assumption].
    + exists t. cbn in *. subst r. split; [reflexivity | assumption].
  - exists t. split; [|assumption]. cbn. f_equal. exact E.
Qed.

Lemma rstrip_chars_idem (s chars : str) :
  rstrip_chars (rstrip_chars s chars) chars = rstrip_chars s chars.
Proof.
  induction s as [|c r IH]; [reflexivity|].
  cbn [rstrip_chars]. destruct (rstrip_chars r chars) as [|x l] eqn:Er.
  - destruct (bool_decide (c ∈ chars)) eqn:Ec; [reflexivity|].
    cbn [rstrip_chars]. rewrite Ec. reflexivity.
  - change (rstrip_chars (c :: x :: l) chars) with
      (match rstrip_chars (x :: l) chars with
       | [] => if bool_decide (c ∈ chars) then [] else [c]
       | r' => c :: r'
       end).
    rewrite IH. reflexivity.
Qed.

Lemma rstrip_chars_last (s chars : str) (d : ascii) :
  rstrip_chars s chars <> [] -> List.last (rstrip_chars s chars) d ∉ chars.
Proof.
  induction s as [|c r IH]; [intros H; now elim H|].
  cbn [rstrip_chars]. destruct (rstrip_chars r chars) as [|x l] eqn:Er.
  - destruct (bool_decide (c ∈ chars)) eqn:Ec; [intros H; now elim H|].
    intros _. apply bool_decide_eq_false in Ec. exact Ec.
  - intros _. change (List.last (c :: x :: l) d) with (List.last (x :: l) d).
    apply IH. discriminate.
Qed.

Lemma rstrip_chars_app (a b chars : str) :
  rstrip_chars (a ++ b) chars
  = match rstrip_chars b chars with
    | [] => rstrip_chars a chars
    | x :: l => a ++ x :: l
    end.
Proof.
  induction a as [|c a IH]; [cbn; destruct (rstrip_chars b chars); reflexivity|].
  cbn [app rstrip_chars]. rewrite IH.
  destruct (rstrip_chars b chars) as [|x l]; [reflexivity|].
  destruct a; reflexivity.
Qed.

Lemma slashes_repeat (t : str) :
  Forall (fun c => c ∈ py "/") t -> t = repeat "/"%char (length t).
Proof.
  induction 1 as [|c t Hc _ IH]; [reflexivity|].
  cbn [length repeat]. rewrite <- IH. f_equal.
  apply list_elem_of_singleton in Hc. exact Hc.
Qed.

End ValidatorFacts.

(** * The chunker: further theorems *)

Module SplitterExtras.
Import PyStr PyStrFacts TextSplitter TextSplitterFacts TextSplitterMore
  TextSplitterMoreFacts Reference.
Local Open Scope Z_scope.

(** X1: with [chunk_size >= 1] and [chunk_size - chunk_overlap >= 100]
    [split_text] returns: the loop ends within [len text] iterations,
    the result is the same for any larger fuel, and it holds at most
    [len text] chunks. *)
Theorem split_text_returns (self : t) (text : str) :
  1 <= chunk_size self ->
  chunk_overlap self + 100 <= chunk_size self ->
  exists res,
    (length res <= length text)%nat /\
    forall fuel, (length text < fuel)%nat -> split_text fuel self text = Return res.
Proof.
  intros Hsz Hov.
  destruct (split_text_terminates self text Hsz Hov) as [res E].
  exists res. split.
  - destruct (decide (text = [])) as [->|Hne]; [injection E as <-; simpl; lia|].
    rewrite split_text_nonempty in E by exact Hne.
    destruct (split_loop_inv self text (count_inv_holds text)
                (fun st Hlt => split_step_count self text st Hsz Hov Hlt)
                (S (length text)) init res) as (st' & [H0 Hc] & ->).
    + pose proof (len_nonneg text).
      unfold count_inv_holds, init. cbn [start chunks length]. lia.
    + exact E.
    + unfold len in Hc. lia.
  - intros fuel Hf. eapply split_text_more_fuel; [exact E | lia].
Qed.

Lemma split_text_returns_witness :
  exists res,
    (length res <= length sample_text)%nat /\
    forall fuel, (length sample_text < fuel)%nat ->
                 split_text fuel sample_splitter sample_text = Return res.
Proof.
  apply (split_text_returns sample_splitter sample_text); cbn; lia.
Defined.

(** X2: a text of at most [chunk_size] characters takes one window,
    whatever the overlap: the result is the trimmed text alone, or
    the empty list when nothing is left after trimming. *)
Theorem split_text_short_text (self : t) (text : str) (fuel : nat) :
  len text <= chunk_size self ->
  (2 <= fuel)%nat ->
  split_text fuel self text =
    Return (match strip text with [] => [] | c :: r => [c :: r] end).
Proof.
  intros Hlen Hf. destruct fuel as [|[|n]]; [lia | lia |].
  now apply split_text_single_window.
Qed.

Lemma split_text_short_text_witness :
  split_text 2 {| chunk_size := 10; chunk_overlap := 40 |} (py "  hello ")
  = Return [py "hello"].
Proof.
  apply (split_text_short_text {| chunk_size := 10; chunk_overlap := 40 |}
           (py "  hello ") 2); [vm_compute; discriminate | lia].
Defined.

(** X3: every chunk [split_text] appends or returns is a contiguous
    piece of the text: nothing is inserted or rewritten. *)
Theorem split_text_chunks_infix (self : t) (text : str) :
  (forall n, Forall (fun c => infix c text) (chunks (iterate n self text init))) /\
  (forall fuel res,
     split_text fuel self text = Return res -> Forall (fun c => infix c text) res).
Proof.
  assert (Hstep : forall st, start st < len text ->
            Forall (fun c => infix c text) (chunks st) ->
            Forall (fun c => infix c text) (chunks (split_step self text st)))
    by (intros; now apply split_step_infix).
  assert (H0 : Forall (fun c => infix c text) (chunks init)) by constructor.
  split.
  - intros n.
    apply (iterate_inv self text (fun st => Forall (fun c => infix c text) (chunks st))
             Hstep n init H0).
  - intros fuel res E. destruct (decide (text = [])) as [->|Hne].
    + injection E as <-. constructor.
    + rewrite split_text_nonempty in E by exact Hne.
      destruct (split_loop_inv self text
                  (fun st => Forall (fun c => infix c text) (chunks st))
                  Hstep fuel init res H0 E) as (st' & Hall & ->).
      exact Hall.
Qed.

Lemma split_text_chunks_infix_witness :
  exists res,
    split_text (S (length sample_text)) sample_splitter sample_text = Return res
    /\ Forall (fun c => infix c sample_text) res.
Proof.
  eexists. split; [vm_compute; reflexivity|].
  apply (proj2 (split_text_chunks_infix sample_splitter sample_text)
           (S (length sample_text))).
  vm_compute. reflexivity.
Defined.

(** X4: with [1 <= chunk_size <= chunk_overlap] and a text longer
    than [chunk_size], [split_text] never returns: [start] never rises
    above 0, so the loop does not end and no fuel suffices. *)
Theorem split_text_overlap_too_large (self : t) (text : str) :
  1 <= chunk_size self ->
  chunk_size self <= chunk_overlap self ->
  chunk_size self < len text ->
  forall fuel, split_text fuel self text = OutOfFuel.
Proof.
  intros Hsz Hov Hlen fuel.
  assert (Hne : text <> []).
  { intros ->. unfold len in Hlen. simpl in Hlen. lia. }
  rewrite split_text_nonempty by exact Hne.
  apply split_loop_stuck; try assumption. unfold init. cbn [start]. lia.
Qed.

Lemma split_text_overlap_too_large_witness :
  split_text 1000 {| chunk_size := 5; chunk_overlap := 5 |} (py "hello world")
  = OutOfFuel.
Proof.
  apply (split_text_overlap_too_large {| chunk_size := 5; chunk_overlap := 5 |}
           (py "hello world")); vm_compute; congruence.
Defined.

(** X5: for [0 <= start <= end], [_find_sentence_boundary] returns
    [-1] exactly when none of the six sentence endings occurs in the
    window [text[max(start, end - 100) : end]]; otherwise it returns a
    position inside the window that comes just after one of them (not
    always the last one). *)
Theorem find_sentence_boundary_spec (text : str) (start end_ : Z) :
  0 <= start -> start <= end_ ->
  let ss := Z.max start (end_ - 100) in
  let r := _find_sentence_boundary text start end_ in
  (r = -1 /\
   forall ending k,
     In ending sentence_endings ->
     ss <= k -> k + 2 <= Z.min end_ (len text) ->
     slice text k (k + 2) <> ending) \/
  (ss + 2 <= r /\ r <= end_ /\ r <= len text /\
   In (slice text (r - 2) r) sentence_endings).
Proof.
  intros Hs Hse ss r. subst r. unfold _find_sentence_boundary. fold ss.
  set (sub := slice text ss end_).
  pose proof (best_pos_spec sub sentence_endings sentence_endings_len (-1)
                (or_introl eq_refl)) as H.
  cbv zeta in H.
  match goal with |- context [if ?b >? 0 then _ else _] => set (bp := b) in * end.
  pose proof (len_nonneg text) as Hn.
  assert (Hlens : forall e, In e sentence_endings -> len e = 2)
    by (intros e He; exact (proj1 (List.Forall_forall _ _) sentence_endings_len e He)).
  destruct H as [(Hr & _ & Hall)|[(Hr & Ha)|(e & Hin & H0 & Hr)]]; [| lia |].
  - left. rewrite Hr. split; [reflexivity|].
    intros ending k Hin Hk Hfit E.
    pose proof (Hlens ending Hin) as Hl.
    assert (Hocc : occurs_at text ending k).
    { apply slice_occurs; [lia | lia | now rewrite Hl]. }
    apply (occurs_in_window text ending ss (Z.min end_ (len text)) k) in Hocc;
      [| lia | exact Hk | lia | lia].
    rewrite <- slice_clamp in Hocc by lia. fold sub in Hocc.
    apply rfind_last in Hocc.
    rewrite List.Forall_forall in Hall. rewrite (Hall ending Hin) in Hocc. lia.
  - right. rewrite Hr. rewrite Z.gtb_ltb.
    destruct (Z.ltb_spec 0 (rfind sub e + 2)); [|lia].
    pose proof (Hlens e Hin) as Hl.
    pose proof (rfind_bound sub e) as Hb. rewrite Hl in Hb.
    assert (Hsub : len sub = Z.max 0 (slice_bound (len text) end_
                                      - slice_bound (len text) ss))
      by apply len_slice.
    split; [lia|]. split; [slice_lia|]. split; [slice_lia|].
    pose proof (rfind_occurs sub e H0) as Hocc.
    apply (occurs_at_window text e ss end_) in Hocc;
      [| lia | intros ->; discriminate].
    apply occurs_at_slice in Hocc. rewrite Hl in Hocc.
    replace (ss + (rfind sub e + 2) - 2) with (ss + rfind sub e) by lia.
    replace (ss + (rfind sub e + 2)) with (ss + rfind sub e + 2) by lia.
    rewrite Hocc. exact Hin.
Qed.

Lemma find_sentence_boundary_spec_witness :
  (0 <= 0 /\ 0 <= 10) /\
  _find_sentence_boundary (py "One. Two three") 0 10 = 5 /\
  In (slice (py "One. Two three") 3 5) sentence_endings.
Proof.
  split; [split; lia|].
  destruct (find_sentence_boundary_spec (py "One. Two three") 0 10)
    as [[Hr _]|(_ & _ & _ & Hin)]; [lia | lia | |].
  - vm_compute in Hr. discriminate.
  - split; [vm_compute; reflexivity | exact Hin].
Defined.

(** X6: for [0 <= start <= end], [_find_word_boundary] returns either
    [end], when the window [text[max(start, end - 50) : end]] has no
    space after its first character, or the position just after the
    last space of the window. *)
Theorem find_word_boundary_spec (text : str) (start end_ : Z) :
  0 <= start -> start <= end_ ->
  let ss := Z.max start (end_ - 50) in
  let r := _find_word_boundary text start end_ in
  (r = end_ /\
   forall k, ss + 1 <= k -> k + 1 <= Z.min end_ (len text) ->
             slice text k (k + 1) <> py " ") \/
  (ss + 2 <= r /\ r <= end_ /\ r <= len text /\
   slice text (r - 1) r = py " " /\
   forall k, r <= k -> k + 1 <= Z.min end_ (len text) ->
             slice text k (k + 1) <> py " ").
Proof.
  intros Hs Hse ss r. subst r. unfold _find_word_boundary. fold ss.
  set (sub := slice text ss end_). set (pos := rfind sub (py " ")).
  pose proof (len_nonneg text) as Hn.
  assert (Hlast : forall k, ss <= k -> k + 1 <= Z.min end_ (len text) ->
                            slice text k (k + 1) = py " " -> k - ss <= pos).
  { intros k Hk Hfit E.
    assert (Hocc : occurs_at text (py " ") k)
      by (apply slice_occurs; [lia | change (len (py " ")) with 1; lia | exact E]).
    apply (occurs_in_window text (py " ") ss (Z.min end_ (len text)) k) in Hocc;
      [| lia | exact Hk | change (len (py " ")) with 1; lia | lia].
    rewrite <- slice_clamp in Hocc by lia. fold sub in Hocc.
    now apply rfind_last in Hocc. }
  rewrite Z.gtb_ltb. destruct (Z.ltb_spec 0 pos) as [Hpos|Hpos].
  - right.
    pose proof (rfind_bound sub (py " ")) as Hb. fold pos in Hb.
    change (len (py " ")) with 1 in Hb.
    assert (Hsub : len sub = Z.max 0 (slice_bound (len text) end_
                                      - slice_bound (len text) ss))
      by apply len_slice.
    split; [lia|]. split; [slice_lia|]. split; [slice_lia|]. split.
    + pose proof (rfind_occurs sub (py " ") ltac:(fold pos; lia)) as Hocc.
      fold pos in Hocc.
      apply (occurs_at_window text (py " ") ss end_) in Hocc;
        [| lia | discriminate].
      apply occurs_at_slice in Hocc. change (len (py " ")) with 1 in Hocc.
      replace (ss + pos + 1 - 1) with (ss + pos) by lia. exact Hocc.
    + intros k Hk Hfit E. specialize (Hlast k ltac:(lia) Hfit E). lia.
  - left. split; [reflexivity|].
    intros k Hk Hfit E. specialize (Hlast k ltac:(lia) Hfit E). lia.
Qed.

Lemma find_word_boundary_spec_witness :
  (0 <= 0 /\ 0 <= 9) /\
  _find_word_boundary (py "alpha beta gamma") 0 9 = 6 /\
  slice (py "alpha beta gamma") 5 6 = py " ".
Proof.
  split; [lia|].
  destruct (find_word_boundary_spec (py "alpha beta gamma") 0 9)
    as [[Hr _]|(_ & _ & _ & Hsp & _)]; [lia | lia | |].
  - vm_compute in Hr. discriminate.
  - split; [vm_compute; reflexivity | exact Hsp].
Defined.

End SplitterExtras.

(** * The vector store: further theorems *)

Module VectorStoreExtras.
Import PyStr VectorStoreService VectorStoreFacts ServiceFacts VectorStoreAdmin
  VectorStoreMoreFacts IngestMoreFacts Reference.
Local Open Scope Z_scope.

(** X7: [add_documents] with no chunk reports "skipped" and leaves the
    world alone. With chunks, and the uuids it draws distinct and new
    to the index, it reports their number and appends one row per
    chunk, in order: row [j] holds chunk [j] under the [j]-th uuid
    drawn, and its metadata is the base metadata with [chunk_id],
    [chunk_index = j], [total_chunks] and the timestamp set. *)
Theorem add_documents_appends (env : Env) (chunks : list str) (md : gmap str pyval)
    (w : World) :
  fresh_ids env w (length chunks) ->
  (chunks = [] ->
   add_documents env chunks md w
   = (Return {| status := py "skipped"; documents_added := 0 |}, w)) /\
  (chunks <> [] ->
   exists rows w',
     add_documents env chunks md w
     = (Return {| status := py "success";
                  documents_added := Z.of_nat (length chunks) |}, w') /\
     collection w' = collection w ++ rows /\
     Chroma.count w' = Chroma.count w + Z.of_nat (length chunks) /\
     map entry_text rows = chunks /\
     map entry_id rows = map (uuid4 env) (seq (draws w) (length chunks)) /\
     forall (j : nat) row,
       rows !! j = Some row ->
       entry_metadata row
       = chunk_metadata md (entry_id row) (Z.of_nat j) (Z.of_nat (length chunks))
           (isoformat env (ticks w + j))).
Proof.
  intros [Hnd Hfresh]. split; [intros ->; reflexivity|].
  intros Hne.
  set (R := new_rows env md (Z.of_nat (length chunks)) (draws w) (ticks w) 0 chunks).
  assert (Hadd : Chroma.add_texts chunks (map entry_metadata R) (map entry_id R)
                   (collection w) = collection w ++ R).
  { rewrite <- (new_rows_text env md (Z.of_nat (length chunks))
                  (draws w) (ticks w) 0 chunks) at 1.
    fold R. apply add_texts_fresh; unfold R; rewrite new_rows_id; assumption. }
  exists R. eexists. split; [now apply add_documents_exact|].
  fold R. rewrite Hadd. cbn [collection set_collection].
  split; [reflexivity|]. split.
  { unfold Chroma.count. cbn [collection set_collection].
    rewrite length_app. unfold R. rewrite new_rows_length. lia. }
  split; [apply new_rows_text|]. split; [apply new_rows_id|].
  intros j row Hj. apply new_rows_lookup in Hj as (_ & _ & Hm).
  rewrite Z.add_0_l in Hm. exact Hm.
Qed.

Lemma add_documents_appends_witness :
  exists rows w',
    add_documents env0 ml_basics ml_metadata empty_world
    = (Return {| status := py "success"; documents_added := 5 |}, w') /\
    collection w' = [] ++ rows /\
    Chroma.count w' = 0 + 5 /\
    map entry_text rows = ml_basics /\
    map entry_id rows = map (uuid4 env0) (seq 0 5) /\
    forall (j : nat) row,
      rows !! j = Some row ->
      entry_metadata row
      = chunk_metadata ml_metadata (entry_id row) (Z.of_nat j) 5
          (isoformat env0 (0 + j)).
Proof.
  apply (add_documents_appends env0 ml_basics ml_metadata empty_world).
  - split.
    + apply (bool_decide_unpack _). vm_compute. reflexivity.
    + intros i _ [].
  - discriminate.
Defined.

(** X8: [delete_by_source] with the file name of an upload removes
    every row that upload put in the index: the rows left were in the
    index before the upload, under another file name. The document
    records are not touched. *)
Theorem delete_by_source_after_upload (env : Env) (filename content : str)
    (w w1 : World) (r : DocumentService.ProcessResult) :
  DocumentService.process_document env filename content w = (Return r, w1) ->
  fst (delete_by_source filename w1) = Return tt /\
  documents_metadata (snd (delete_by_source filename w1)) = documents_metadata w1 /\
  forall row,
    In row (collection (snd (delete_by_source filename w1))) ->
    In row (collection w) /\
    entry_metadata row !! py "filename" <> Some (VStr filename).
Proof.
  intros E. split; [reflexivity|]. split; [reflexivity|].
  intros row Hin. unfold delete_by_source, Chroma.delete_where, modify in Hin.
  cbn [snd collection set_collection] in Hin.
  apply list_elem_of_In, list_elem_of_filter in Hin as [Hne Hin].
  apply list_elem_of_In in Hin.
  destruct (process_document_rows env filename content w w1 r E row Hin)
    as [H|[H _]]; [split; assumption | contradiction].
Qed.

Lemma delete_by_source_after_upload_witness :
  fst (delete_by_source paper_name paper_world) = Return tt /\
  documents_metadata (snd (delete_by_source paper_name paper_world))
  = documents_metadata paper_world /\
  forall row,
    In row (collection (snd (delete_by_source paper_name paper_world))) ->
    In row (collection empty_world) /\
    entry_metadata row !! py "filename" <> Some (VStr paper_name).
Proof.
  eapply (delete_by_source_after_upload env0 paper_name paper_bytes empty_world).
  unfold paper_world, world_of.
  destruct (DocumentService.process_document env0 paper_name paper_bytes empty_world)
    as [o w1] eqn:E.
  assert (Ho : o = Return {| DocumentService.document_id := py "uuid-0";
                             DocumentService.chunks_created := 1;
                             DocumentService.error := None |}).
  { change o with (fst (o, w1)). rewrite <- E. vm_compute. reflexivity. }
  rewrite Ho. reflexivity.
Defined.

(** X9: [delete_documents] with ids the store accepts (all strings,
    or a store that does not validate them) returns the number of ids
    given, whether or not any row matched; afterwards the index holds
    exactly the old rows whose id is not listed, and a second call
    with the same ids removes nothing more. *)
Theorem delete_documents_by_id (env : Env) (ids : list pyval) (w : World) :
  strict_ids env = false \/ forallb Chroma.is_str ids = true ->
  fst (delete_documents env ids w) = Return (Z.of_nat (length ids)) /\
  (forall row,
     In row (collection (snd (delete_documents env ids w))) <->
     In row (collection w) /\ ~ In (VStr (entry_id row)) ids) /\
  collection (snd (delete_documents env ids (snd (delete_documents env ids w))))
  = collection (snd (delete_documents env ids w)).
Proof.
  intros Hok.
  assert (Hc : strict_ids env && negb (forallb Chroma.is_str ids) = false).
  { destruct Hok as [-> | ->]; [reflexivity | apply andb_false_r]. }
  assert (Hrun : forall w0,
            delete_documents env ids w0
            = (Return (Z.of_nat (length ids)),
               set_collection
                 (filter (fun r => VStr (entry_id r) ∉ ids) (collection w0)) w0)).
  { intros w0. unfold delete_documents, Chroma.delete_ids, bind.
    rewrite Hc. reflexivity. }
  rewrite !Hrun. cbn [fst snd collection set_collection].
  split; [reflexivity|]. split.
  - intros row. rewrite <- !list_elem_of_In, list_elem_of_filter. tauto.
  - apply list_filter_filter_l. auto.
Qed.

Lemma delete_documents_by_id_witness :
  fst (delete_documents env0 [VStr (py "uuid-1"); VStr (py "none")] ml_world)
  = Return 2 /\
  (forall row,
     In row (collection (snd (delete_documents env0
                                [VStr (py "uuid-1"); VStr (py "none")] ml_world))) <->
     In row (collection ml_world) /\
     ~ In (VStr (entry_id row)) [VStr (py "uuid-1"); VStr (py "none")]) /\
  collection (snd (delete_documents env0 [VStr (py "uuid-1"); VStr (py "none")]
                     (snd (delete_documents env0
                             [VStr (py "uuid-1"); VStr (py "none")] ml_world))))
  = collection (snd (delete_documents env0
                       [VStr (py "uuid-1"); VStr (py "none")] ml_world)).
Proof.
  apply (delete_documents_by_id env0 [VStr (py "uuid-1"); VStr (py "none")] ml_world).
  right. reflexivity.
Defined.

(** X10: [delete_collection] empties the index and leaves the
    document records as they are; [get_status] then reports a healthy
    store with 0 documents, and (the store drawing no hit from an
    empty collection) every query answers with the canned
    no-information answer, calls no model and records no turn. *)
Theorem delete_collection_then_query (env : Env) (w : World) :
  (forall q k, similarity_search_with_score env [] q k = []) ->
  fst (delete_collection w) = Return (py "success") /\
  collection (snd (delete_collection w)) = [] /\
  fst (get_status (snd (delete_collection w)))
  = Return {| healthy := true; document_count := 0 |} /\
  documents_metadata (snd (delete_collection w)) = documents_metadata w /\
  forall question cid k,
    exists cid' w2,
      RAGService.query env question cid k (snd (delete_collection w))
      = (Return {| RAGService.answer := RAGService.no_information;
                   RAGService.sources := [];
                   RAGService.conversation_id := cid' |}, w2) /\
      llm_calls w2 = llm_calls w /\ conversations w2 = conversations w.
Proof.
  intros Hempty. repeat (split; [reflexivity|]).
  intros question cid k.
  destruct (query_no_context env question cid k (snd (delete_collection w)))
    as (cid' & w2 & E & (_ & Hconv & Hllm) & _).
  - apply Hempty.
  - exists cid', w2. split; [exact E|]. split; [exact Hllm | exact Hconv].
Qed.

Lemma delete_collection_then_query_witness :
  fst (delete_collection ml_world) = Return (py "success") /\
  collection (snd (delete_collection ml_world)) = [] /\
  fst (get_status (snd (delete_collection ml_world)))
  = Return {| healthy := true; document_count := 0 |} /\
  documents_metadata (snd (delete_collection ml_world)) = documents_metadata ml_world /\
  forall question cid k,
    exists cid' w2,
      RAGService.query env0 question cid k (snd (delete_collection ml_world))
      = (Return {| RAGService.answer := RAGService.no_information;
                   RAGService.sources := [];
                   RAGService.conversation_id := cid' |}, w2) /\
      llm_calls w2 = llm_calls ml_world /\ conversations w2 = conversations ml_world.
Proof.
  apply (delete_collection_then_query env0 ml_world).
  intros q k. unfold env0, env_of, similarity_search_with_score, exact_knn.
  cbn [map sort_hits fold_left]. apply firstn_nil.
Defined.

(** X11: when every distance the store reports is not negative,
    [similarity_search] returns one result per hit and every score
    lies in [0, 1]: [1 - distance] below distance 1, and 0 from
    distance 1 on. *)
Theorem similarity_search_scores (env : Env) (query : str) (k : option Z) (w : World) :
  Forall (fun r => (0 <= snd r)%Q)
    (similarity_search_with_score env (collection w) query
       (default (Settings.TOP_K_RETRIEVAL (settings env)) k)) ->
  exists hits,
    similarity_search env query k w = (Return hits, w) /\
    Forall2
      (fun r h =>
         (0 <= score h <= 1)%Q /\
         ((snd r < 1)%Q -> score h = (1 - snd r)%Q) /\
         ((1 <= snd r)%Q -> score h = 0%Q) /\
         content h = page_content (fst r) /\ hit_metadata h = metadata (fst r))
      (similarity_search_with_score env (collection w) query
         (default (Settings.TOP_K_RETRIEVAL (settings env)) k))
      hits.
Proof.
  intros Hall. eexists. split; [apply similarity_search_run|].
  induction Hall as [|[doc d] rs Hd _ IH]; [constructor|].
  cbn [map]. constructor; [|exact IH].
  cbn [format_hit score content hit_metadata fst snd] in *.
  split; [now apply similarity_score_unit_range|].
  split; [apply similarity_score_below_one|].
  split; [apply similarity_score_from_one | split; reflexivity].
Qed.

Lemma similarity_search_scores_witness :
  exists hits,
    similarity_search env0 ml_question (Some 3) ml_world = (Return hits, ml_world) /\
    Forall2
      (fun r h =>
         (0 <= score h <= 1)%Q /\
         ((snd r < 1)%Q -> score h = (1 - snd r)%Q) /\
         ((1 <= snd r)%Q -> score h = 0%Q) /\
         content h = page_content (fst r) /\ hit_metadata h = metadata (fst r))
      (similarity_search_with_score env0 (collection ml_world) ml_question
         (default (Settings.TOP_K_RETRIEVAL (settings env0)) (Some 3)))
      hits.
Proof.
  apply (similarity_search_scores env0 ml_question (Some 3) ml_world).
  vm_compute. repeat (constructor; [discriminate|]). constructor.
Defined.

End VectorStoreExtras.

(** * Ingestion and deletion: further theorems *)

Module DocumentExtras.
Import PyStr VectorStoreService VectorStoreFacts ServiceFacts VectorStoreAdmin
  VectorStoreMoreFacts IngestMoreFacts Reference.
Local Open Scope Z_scope.

Ltac run_m :=
  unfold bind, ret, raise, get, modify, lift, rethrow, new_uuid, utcnow;
  cbv beta iota zeta.

Lemma filter_nil_ids (rows : list entry) :
  filter (fun r => VStr (entry_id r) ∉ ([] : list pyval)) rows = rows.
Proof.
  induction rows as [|r rows IH]; [reflexivity|].
  rewrite filter_cons_True by apply not_elem_of_nil. now rewrite IH.
Qed.

(** X12: an upload whose pages hold no text (each page empty, blank
    or unreadable) is answered with [chunks_created = 0] and the
    message of the processor. Nothing is indexed and no record is
    made, but the uploaded file stays in the upload directory; with
    no record under its id, [delete_document] for that id raises
    [ValueError]. *)
Theorem process_document_without_text (env : Env) (filename content : str)
    (pages : list (option str)) (w : World) :
  pdf_pages env content = Return pages ->
  Forall (fun p => match p with
                   | Some t => DocumentProcessor.blank t = true
                   | None => True
                   end) pages ->
  let document_id := uuid4 env (draws w) in
  let path := DocumentService.path_join (Settings.UPLOAD_DIR (settings env))
                (document_id ++ py "_" ++ filename) in
  let w' := snd (DocumentService.process_document env filename content w) in
  fst (DocumentService.process_document env filename content w)
  = Return {| DocumentService.document_id := document_id;
              DocumentService.chunks_created := 0;
              DocumentService.error :=
                Some (py "No text could be extracted from the document") |} /\
  collection w' = collection w /\
  documents_metadata w' = documents_metadata w /\
  files w' = <[path := content]> (files w) /\
  (documents_metadata w !! document_id = None ->
   DocumentService.delete_document env document_id w' = (Raise ValueError, w')).
Proof.
  intros Hpages Hblank document_id path w'.
  assert (Homap :
    omap (fun p : option str =>
            match p with
            | Some page_text =>
                if DocumentProcessor.blank page_text then None else Some page_text
            | None => None
            end) pages = []).
  { clear Hpages. induction Hblank as [|p ps Hp _ IH]; [reflexivity|].
    destruct p as [t|]; cbn -[DocumentProcessor.blank]; [rewrite Hp|]; exact IH. }
  assert (Hrun : DocumentService.process_document env filename content w
    = (Return {| DocumentService.document_id := document_id;
                 DocumentService.chunks_created := 0;
                 DocumentService.error :=
                   Some (py "No text could be extracted from the document") |},
       set_ticks (S (ticks w))
         (set_files (<[path := content]> (files w)) (set_draws (S (draws w)) w)))).
  { unfold DocumentService.process_document, DocumentProcessor.process_document,
      DocumentProcessor.extract_text_from_pdf. run_m.
    fold document_id. fold path. cbn [files set_files set_ticks set_draws].
    rewrite lookup_insert_eq. rewrite Hpages. cbv beta iota zeta.
    rewrite Homap. reflexivity. }
  subst w'. rewrite Hrun. cbn [fst snd].
  split; [reflexivity|]. split; [reflexivity|]. split; [reflexivity|].
  split; [reflexivity|].
  intros Hnone. unfold DocumentService.delete_document. run_m.
  cbn [documents_metadata set_files set_ticks set_draws]. rewrite Hnone. reflexivity.
Qed.

Lemma process_document_without_text_witness :
  fst (DocumentService.process_document env0 (py "scan.pdf") (py "  ") empty_world)
  = Return {| DocumentService.document_id := uuid4 env0 0;
              DocumentService.chunks_created := 0;
              DocumentService.error :=
                Some (py "No text could be extracted from the document") |}.
Proof.
  apply (process_document_without_text env0 (py "scan.pdf") (py "  ")
           [Some (py "  ")] empty_world).
  - reflexivity.
  - constructor; [vm_compute; reflexivity | constructor].
Defined.

(** X13: an upload that yields chunks is recorded under the id it is
    given, the first uuid drawn: the record holds the file name, the
    number of chunks (positive, and the number reported), the size of
    the content and [processed = true]; the content is stored at the
    recorded path; the other records are untouched; and the metadata
    file is saved with the new record in it. *)
Theorem process_document_records (env : Env) (filename content : str)
    (w w1 : World) (r : DocumentService.ProcessResult) :
  DocumentService.process_document env filename content w = (Return r, w1) ->
  DocumentService.chunks_created r <> 0 ->
  exists m,
    DocumentService.document_id r = uuid4 env (draws w) /\
    documents_metadata w1 = <[DocumentService.document_id r := m]> (documents_metadata w) /\
    metadata_file w1 = documents_metadata w1 /\
    files w1 = <[dm_file_path m := content]> (files w) /\
    dm_file_path m
    = DocumentService.path_join (Settings.UPLOAD_DIR (settings env))
        (DocumentService.document_id r ++ py "_" ++ filename) /\
    dm_id m = DocumentService.document_id r /\
    dm_filename m = filename /\
    dm_chunk_count m = DocumentService.chunks_created r /\
    0 < DocumentService.chunks_created r /\
    dm_size m = len content /\
    dm_processed m = true.
Proof.
  intros E Hn. unfold DocumentService.process_document in E.
  unfold bind at 1 in E. unfold new_uuid at 1 in E. cbv beta iota zeta in E.
  unfold bind at 1 in E. unfold modify at 1 in E. cbv beta iota zeta in E.
  unfold bind at 1 in E.
  match type of E with
  | context [DocumentProcessor.process_document ?a ?b ?c ?d ?e] =>
      pose proof (processor_frame a b c d e) as Hf; cbv zeta in Hf;
      destruct (DocumentProcessor.process_document a b c d e) as [[pr| |] w2];
        try discriminate
  end.
  cbn [snd] in Hf. destruct Hf as (_ & Hdm & Hfiles & _).
  cbn [documents_metadata files set_files set_draws] in Hdm, Hfiles.
  destruct (DocumentProcessor.chunks pr) as [|c cs] eqn:Ec.
  - unfold ret in E. injection E as <- _. now elim Hn.
  - unfold bind at 1 in E. rewrite add_documents_exact in E by discriminate.
    unfold bind, utcnow, modify, DocumentService._save_metadata, ret in E.
    cbv beta iota zeta in E. injection E as <- <-.
    eexists.
    cbn [DocumentService.document_id DocumentService.chunks_created
           documents_metadata metadata_file files set_metadata_file
           set_documents_metadata set_ticks set_collection advance set_draws
           dm_file_path dm_id dm_filename dm_chunk_count dm_size dm_processed].
    rewrite Hdm, Hfiles.
    do 8 (split; [reflexivity|]).
    split; [simpl length; lia|]. split; reflexivity.
Qed.

Lemma process_document_records_witness :
  exists m,
    py "uuid-0" = uuid4 env0 (draws empty_world) /\
    documents_metadata paper_world = <[py "uuid-0" := m]> (documents_metadata empty_world) /\
    metadata_file paper_world = documents_metadata paper_world /\
    files paper_world = <[dm_file_path m := paper_bytes]> (files empty_world) /\
    dm_file_path m
    = DocumentService.path_join (Settings.UPLOAD_DIR (settings env0))
        (py "uuid-0" ++ py "_" ++ paper_name) /\
    dm_id m = py "uuid-0" /\
    dm_filename m = paper_name /\
    dm_chunk_count m = 1 /\
    0 < 1 /\
    dm_size m = len paper_bytes /\
    dm_processed m = true.
Proof.
  apply (process_document_records env0 paper_name paper_bytes empty_world paper_world
           {| DocumentService.document_id := py "uuid-0";
              DocumentService.chunks_created := 1;
              DocumentService.error := None |}).
  - unfold paper_world, world_of.
    destruct (DocumentService.process_document env0 paper_name paper_bytes empty_world)
      as [o w1] eqn:E.
    assert (Ho : o = Return {| DocumentService.document_id := py "uuid-0";
                               DocumentService.chunks_created := 1;
                               DocumentService.error := None |}).
    { change o with (fst (o, w1)). rewrite <- E. vm_compute. reflexivity. }
    rewrite Ho. reflexivity.
  - discriminate.
Defined.

(** X14: [delete_document] for an id without a record raises
    [ValueError] and changes nothing. For a recorded document whose
    stored chunk ids the store accepts, it returns, removes the record
    (and only that one), saves the metadata file, removes the stored
    file, and removes from the index the rows whose ids are listed in
    the record; a second call for the same id raises [ValueError]. *)
Theorem delete_document_spec (env : Env) (document_id : str) (w : World) :
  (documents_metadata w !! document_id = None ->
   DocumentService.delete_document env document_id w = (Raise ValueError, w)) /\
  (forall m,
     documents_metadata w !! document_id = Some m ->
     dm_chunk_ids m = [] \/ strict_ids env = false
     \/ forallb Chroma.is_str (dm_chunk_ids m) = true ->
     let w' := snd (DocumentService.delete_document env document_id w) in
     fst (DocumentService.delete_document env document_id w) = Return tt /\
     documents_metadata w' = delete document_id (documents_metadata w) /\
     metadata_file w' = documents_metadata w' /\
     files w' = match dm_file_path m with
                | [] => files w
                | _ :: _ => delete (dm_file_path m) (files w)
                end /\
     (forall row,
        In row (collection w') <->
        In row (collection w) /\ ~ In (VStr (entry_id row)) (dm_chunk_ids m)) /\
     fst (DocumentService.delete_document env document_id w') = Raise ValueError).
Proof.
  split.
  - intros Hnone. unfold DocumentService.delete_document. run_m.
    rewrite Hnone. reflexivity.
  - intros m Hm Hok w'.
    assert (Hrun : DocumentService.delete_document env document_id w
      = (Return tt,
         set_metadata_file (delete document_id (documents_metadata w))
           (set_documents_metadata (delete document_id (documents_metadata w))
              (match dm_file_path m with
               | [] => fun w0 => w0
               | _ :: _ => set_files (delete (dm_file_path m) (files w))
               end
                 (set_collection
                    (filter (fun r => VStr (entry_id r) ∉ dm_chunk_ids m)
                       (collection w)) w))))).
    { unfold DocumentService.delete_document, delete_documents, Chroma.delete_ids,
        DocumentService._save_metadata.
      unfold bind at 1. unfold get at 1. cbv beta iota zeta. rewrite Hm.
      destruct (dm_chunk_ids m) as [|i ids] eqn:Eids.
      - run_m. destruct (dm_file_path m); cbn; repeat f_equal;
          rewrite filter_nil_ids; destruct w; reflexivity.
      - assert (Hc : strict_ids env && negb (forallb Chroma.is_str (i :: ids)) = false).
        { destruct Hok as [H|[-> | ->]];
            [discriminate | reflexivity | apply andb_false_r]. }
        run_m. rewrite Hc. cbv beta iota zeta.
        destruct (dm_file_path m); reflexivity. }
    subst w'. rewrite Hrun. cbn [fst snd].
    split; [reflexivity|].
    assert (Hparts :
      forall w0 : World,
        let w1 := match dm_file_path m with
                  | [] => fun w0 => w0
                  | _ :: _ => set_files (delete (dm_file_path m) (files w))
                  end w0 in
        collection w1 = collection w0 /\
        (files w0 = files w ->
         files w1 = match dm_file_path m with
                    | [] => files w
                    | _ :: _ => delete (dm_file_path m) (files w)
                    end)).
    { intros w0. destruct (dm_file_path m); cbn; auto. }
    match goal with
    | |- context [match dm_file_path m with [] => _ | _ :: _ => _ end ?w0] =>
        destruct (Hparts w0) as [Hcol Hfil]
    end.
    cbn [documents_metadata metadata_file files collection set_metadata_file
           set_documents_metadata].
    split; [reflexivity|]. split; [reflexivity|].
    split; [apply Hfil; reflexivity|]. split.
    + intros row. rewrite Hcol. cbn [collection set_collection].
      rewrite <- !list_elem_of_In, list_elem_of_filter. tauto.
    + unfold DocumentService.delete_document. run_m.
      cbn [documents_metadata set_metadata_file set_documents_metadata].
      rewrite lookup_delete_eq. reflexivity.
Qed.

Lemma delete_document_spec_witness :
  fst (DocumentService.delete_document env0 (py "uuid-0")
         DocumentProcessorMore.recorded_paper_world) = Return tt /\
  (forall row,
     In row (collection
               (snd (DocumentService.delete_document env0 (py "uuid-0")
                       DocumentProcessorMore.recorded_paper_world))) <->
     In row (collection DocumentProcessorMore.recorded_paper_world) /\
     ~ In (VStr (entry_id row)) [VStr (py "uuid-1")]) /\
  fst (DocumentService.delete_document env0 (py "uuid-0")
         (snd (DocumentService.delete_document env0 (py "uuid-0")
                 DocumentProcessorMore.recorded_paper_world)))
  = Raise ValueError.
Proof.
  destruct (delete_document_spec env0 (py "uuid-0")
              DocumentProcessorMore.recorded_paper_world) as [_ H].
  assert (Hm : exists m,
            documents_metadata DocumentProcessorMore.recorded_paper_world !! py "uuid-0"
            = Some m /\ dm_chunk_ids m = [VStr (py "uuid-1")]).
  { vm_compute. eexists. split; reflexivity. }
  destruct Hm as (m & Hm & Hids).
  assert (Hok : dm_chunk_ids m = [] \/ strict_ids env0 = false
                \/ forallb Chroma.is_str (dm_chunk_ids m) = true).
  { right. right. rewrite Hids. reflexivity. }
  destruct (H m Hm Hok) as (H1 & _ & _ & _ & Hrows & H2).
  rewrite Hids in Hrows.
  split; [exact H1 | split; [exact Hrows | exact H2]].
Defined.

(** X15: on a store that validates ids, a document that
    [process_document] ingested with chunks cannot be deleted:
    [delete_document] raises [ValueError] and leaves the record, the
    file and the index as they were. *)
Theorem delete_document_rejected (env : Env) (filename content : str)
    (w w1 : World) (r : DocumentService.ProcessResult) :
  DocumentService.process_document env filename content w = (Return r, w1) ->
  DocumentService.chunks_created r <> 0 ->
  strict_ids env = true ->
  DocumentService.delete_document env (DocumentService.document_id r) w1
  = (Raise ValueError, w1).
Proof.
  intros E Hn Hstrict.
  destruct (process_document_record _ _ _ _ _ _ E Hn) as (m & k & Hm & Hk).
  unfold DocumentService.delete_document, delete_documents, Chroma.delete_ids.
  unfold bind at 1. unfold get at 1. cbv beta iota zeta. rewrite Hm, Hk.
  run_m. rewrite Hstrict. reflexivity.
Qed.

Lemma delete_document_rejected_witness :
  DocumentService.delete_document (env_of length_distance true) (py "uuid-0")
    (snd (DocumentService.process_document (env_of length_distance true)
            paper_name paper_bytes empty_world))
  = (Raise ValueError,
     snd (DocumentService.process_document (env_of length_distance true)
            paper_name paper_bytes empty_world)).
Proof.
  apply (delete_document_rejected (env_of length_distance true) paper_name paper_bytes
           empty_world _
           {| DocumentService.document_id := py "uuid-0";
              DocumentService.chunks_created := 1;
              DocumentService.error := None |}).
  - destruct (DocumentService.process_document (env_of length_distance true)
                paper_name paper_bytes empty_world) as [o w1] eqn:E.
    assert (Ho : o = Return {| DocumentService.document_id := py "uuid-0";
                               DocumentService.chunks_created := 1;
                               DocumentService.error := None |}).
    { change o with (fst (o, w1)). rewrite <- E. vm_compute. reflexivity. }
    rewrite Ho. reflexivity.
  - discriminate.
  - reflexivity.
Defined.

(** X16: [extract_text_from_pdf] raises [FileNotFoundError] when
    the file is missing, and turns a failure of the reader into
    [Exception]. When the file is read it returns the texts of the
    pages that are not blank, in order and joined by blank lines: the
    empty string exactly when no page has text, and never a string of
    whitespace only. The world is not changed. *)
Theorem extract_text_from_pdf_spec (env : Env) (file_path : str) (w : World) :
  (files w !! file_path = None ->
   DocumentProcessor.extract_text_from_pdf env file_path w
   = (Raise FileNotFoundError, w)) /\
  (forall bytes e,
     files w !! file_path = Some bytes -> pdf_pages env bytes = Raise e ->
     DocumentProcessor.extract_text_from_pdf env file_path w
     = (Raise (match e with FileNotFoundError => FileNotFoundError | _ => Exception end),
        w)) /\
  (forall bytes pages,
     files w !! file_path = Some bytes -> pdf_pages env bytes = Return pages ->
     DocumentProcessor.extract_text_from_pdf env file_path w
     = (Return (join (nl ++ nl) (DocumentProcessorMore.text_parts pages)), w) /\
     (join (nl ++ nl) (DocumentProcessorMore.text_parts pages) = [] <->
      DocumentProcessorMore.text_parts pages = []) /\
     (DocumentProcessorMore.text_parts pages <> [] ->
      DocumentProcessor.blank (join (nl ++ nl) (DocumentProcessorMore.text_parts pages))
      = false)).
Proof.
  split; [|split].
  - intros H. unfold DocumentProcessor.extract_text_from_pdf. run_m.
    rewrite H. reflexivity.
  - intros bytes e Hf He. unfold DocumentProcessor.extract_text_from_pdf. run_m.
    rewrite Hf, He. destruct e; reflexivity.
  - intros bytes pages Hf Hp.
    assert (Hnb : DocumentProcessorMore.text_parts pages <> [] ->
                  DocumentProcessor.blank
                    (join (nl ++ nl) (DocumentProcessorMore.text_parts pages)) = false).
    { intros Hne.
      destruct (DocumentProcessor.blank
                  (join (nl ++ nl) (DocumentProcessorMore.text_parts pages))) eqn:Eb;
        [|reflexivity].
      apply join_text_parts_blank in Eb. contradiction. }
    split; [|split; [|exact Hnb]].
    + unfold DocumentProcessor.extract_text_from_pdf. run_m. rewrite Hf, Hp.
      cbv beta iota zeta. fold (DocumentProcessorMore.text_parts pages).
      destruct (DocumentProcessor.blank
                  (join (nl ++ nl) (DocumentProcessorMore.text_parts pages))) eqn:Eb;
        [|reflexivity].
      apply join_text_parts_blank in Eb. rewrite Eb. reflexivity.
    + split; [|intros ->; reflexivity].
      intros Hj. destruct (DocumentProcessorMore.text_parts pages) as [|p ps] eqn:Et;
        [reflexivity|].
      specialize (Hnb ltac:(discriminate)). rewrite Hj in Hnb. discriminate.
Qed.

Lemma extract_text_from_pdf_spec_witness :
  DocumentProcessor.extract_text_from_pdf env0 (py "missing.pdf") empty_world
  = (Raise FileNotFoundError, empty_world).
Proof.
  apply (extract_text_from_pdf_spec env0 (py "missing.pdf") empty_world).
  reflexivity.
Defined.

(** X28: [chunk_text] raises [ValueError] on a text without a
    character that is not whitespace, whatever the overrides; on any
    other text it returns what the splitter returns, with the world
    unchanged. An override of 0 counts as no override: the size or
    overlap of the processor is used instead. *)
Theorem chunk_text_spec (env : Env) (self : DocumentProcessor.t) (text : str)
    (chunk_size chunk_overlap : option Z) (w : World) :
  (DocumentProcessor.blank text = true ->
   DocumentProcessor.chunk_text env self text chunk_size chunk_overlap w
   = (Raise ValueError, w)) /\
  (forall chunks,
     DocumentProcessor.blank text = false ->
     recursive_split env
       (DocumentProcessor.or_ chunk_size (DocumentProcessor.chunk_size self))
       (DocumentProcessor.or_ chunk_overlap (DocumentProcessor.chunk_overlap self))
       text = Return chunks ->
     DocumentProcessor.chunk_text env self text chunk_size chunk_overlap w
     = (Return chunks, w)) /\
  DocumentProcessor.chunk_text env self text (Some 0) chunk_overlap w
  = DocumentProcessor.chunk_text env self text None chunk_overlap w /\
  DocumentProcessor.chunk_text env self text chunk_size (Some 0) w
  = DocumentProcessor.chunk_text env self text chunk_size None w.
Proof.
  split; [|split; [|split]].
  - intros Hb. unfold DocumentProcessor.chunk_text. run_m. rewrite Hb. reflexivity.
  - intros chunks Hb Hs. unfold DocumentProcessor.chunk_text. run_m. rewrite Hb.
    destruct chunk_size as [cs|], chunk_overlap as [co|];
      cbn [DocumentProcessor.or_] in *; rewrite Hs; reflexivity.
  - unfold DocumentProcessor.chunk_text. run_m.
    destruct (DocumentProcessor.blank text); [reflexivity|].
    destruct chunk_overlap; reflexivity.
  - unfold DocumentProcessor.chunk_text. run_m.
    destruct (DocumentProcessor.blank text); [reflexivity|].
    destruct chunk_size; reflexivity.
Qed.

Lemma chunk_text_spec_witness :
  DocumentProcessor.chunk_text env0 (DocumentProcessor.__init__ env0 None None)
    (py "   ") (Some 50) None empty_world
  = (Raise ValueError, empty_world).
Proof.
  destruct (chunk_text_spec env0 (DocumentProcessor.__init__ env0 None None)
              (py "   ") (Some 50) None empty_world) as [H _].
  apply H. reflexivity.
Defined.

End DocumentExtras.

(** * Generation and the query orchestrator: further theorems *)

Module RagExtras.
Import PyStr Schemas VectorStoreService RagMore PyStrFacts VectorStoreFacts
  ServiceFacts RagMoreFacts Reference.
Local Open Scope Z_scope.

(** X17: [generate_response] checks Ollama first. When Ollama does
    not answer it raises [ConnectionError], sends no prompt and
    leaves the world as it was. When Ollama answers, exactly one
    prompt is sent, built from the [TOP_K_RETRIEVAL] nearest chunks
    and the query; the answer is the model's output stripped, the
    query is echoed, and there is one source per retrieved chunk,
    named after the metadata key "filename" ("Unknown" without it). *)
Theorem generate_response_spec (env : Env) (question : str) (w : World) :
  (ollama_up w = false ->
   LLMService.generate_response env question w = (Raise ConnectionError, w)) /\
  (ollama_up w = true ->
   exists resp,
     LLMService.generate_response env question w
     = (Return resp, set_llm_calls (llm_calls w ++ [chain_prompt env question w]) w) /\
     LLMService.answer resp = strip (ollama env (chain_prompt env question w)) /\
     LLMService.query resp = question /\
     map LLMService.sd_content (LLMService.source_documents resp)
     = map (fun r => page_content (fst r))
         (similarity_search_with_score env (collection w) question
            (Settings.TOP_K_RETRIEVAL (settings env))) /\
     Forall (fun d =>
               LLMService.sd_source d
               = dict_get (LLMService.sd_metadata d) (py "filename")
                   (VStr (py "Unknown")))
       (LLMService.source_documents resp)).
Proof.
  split; [apply generate_response_down|].
  intros Hup. eexists. split; [apply generate_response_up; exact Hup|].
  cbn [LLMService.answer LLMService.query LLMService.source_documents].
  split; [reflexivity|]. split; [reflexivity|].
  rewrite !map_map. split; [reflexivity|].
  apply List.Forall_forall. intros d Hd. apply in_map_iff in Hd as (r & <- & _).
  reflexivity.
Qed.

Lemma generate_response_spec_witness :
  LLMService.generate_response env0 ml_question (offline ml_world)
  = (Raise ConnectionError, offline ml_world).
Proof.
  apply (generate_response_spec env0 ml_question (offline ml_world)). reflexivity.
Defined.

(** X18: [_update_conversation] always returns and appends exactly
    two messages to the conversation, the question as "user" and then
    the answer as "assistant", after the messages it already had; a
    conversation that did not exist is created under the given id.
    No other conversation, and neither the index nor the model log,
    is touched. *)
Theorem update_conversation_appends (env : Env) (cid question answer : str)
    (w : World) :
  exists w' h',
    RAGService._update_conversation env cid question answer w = (Return tt, w') /\
    conversations w' !! cid = Some h' /\
    map turn (messages h')
    = map turn (from_option messages [] (conversations w !! cid))
      ++ [(user, question); (assistant, answer)] /\
    Schemas.conversation_id h'
    = from_option Schemas.conversation_id cid (conversations w !! cid) /\
    (forall other, other <> cid ->
       conversations w' !! other = conversations w !! other) /\
    collection w' = collection w /\ llm_calls w' = llm_calls w.
Proof.
  destruct (_update_conversation_run env cid question answer w)
    as (w' & h' & E & Hh & Hm & Hi & Ho & Hc & Hl & _).
  exists w', h'. auto 10.
Qed.

(** X19: only the last five messages of a conversation enter its
    formatted history: whatever older messages stand in front of the
    five most recent ones, the history reads as if the conversation
    held those five alone. *)
Theorem format_conversation_history_window (h : ConversationHistory)
    (old recent : list ConversationMessage) :
  messages h = old ++ recent ->
  (length recent = 5)%nat ->
  RAGService._format_conversation_history h
  = RAGService._format_conversation_history
      {| Schemas.conversation_id := Schemas.conversation_id h;
         messages := recent;
         created_at := created_at h;
         updated_at := updated_at h |}.
Proof.
  intros Hm Hlen. unfold RAGService._format_conversation_history.
  cbn [messages]. rewrite Hm, slice_from_recent by exact Hlen.
  rewrite slice_from_short by lia. reflexivity.
Qed.

Lemma format_conversation_history_window_witness :
  RAGService._format_conversation_history
    {| Schemas.conversation_id := py "c1";
       messages :=
         [{| msg_role := user; msg_content := py "q1"; msg_timestamp := py "t0" |};
          {| msg_role := assistant; msg_content := py "a1"; msg_timestamp := py "t1" |}]
         ++
         [{| msg_role := user; msg_content := py "q2"; msg_timestamp := py "t2" |};
          {| msg_role := assistant; msg_content := py "a2"; msg_timestamp := py "t3" |};
          {| msg_role := user; msg_content := py "q3"; msg_timestamp := py "t4" |};
          {| msg_role := assistant; msg_content := py "a3"; msg_timestamp := py "t5" |};
          {| msg_role := system; msg_content := py "note"; msg_timestamp := py "t6" |}];
       created_at := py "t0";
       updated_at := py "t6" |}
  = RAGService._format_conversation_history
      {| Schemas.conversation_id := py "c1";
         messages :=
           [{| msg_role := user; msg_content := py "q2"; msg_timestamp := py "t2" |};
            {| msg_role := assistant; msg_content := py "a2"; msg_timestamp := py "t3" |};
            {| msg_role := user; msg_content := py "q3"; msg_timestamp := py "t4" |};
            {| msg_role := assistant; msg_content := py "a3"; msg_timestamp := py "t5" |};
            {| msg_role := system; msg_content := py "note"; msg_timestamp := py "t6" |}];
         created_at := py "t0";
         updated_at := py "t6" |}.
Proof.
  eapply (format_conversation_history_window _
            [{| msg_role := user; msg_content := py "q1"; msg_timestamp := py "t0" |};
             {| msg_role := assistant; msg_content := py "a1"; msg_timestamp := py "t1" |}]);
    reflexivity.
Defined.

(** X20: [_format_sources] returns exactly when every hit is
    acceptable to the [SourceDocument] model ("source" and "chunk_id"
    strings where present; "page", where present, an integer from 1
    or a string the validation library reads as one; score in
    [0, 1]); it then gives one source per hit, in order,
    with the hit's score, the file named by the key "source"
    ("Unknown" without it), the stored chunk id, and a preview of at
    most 203 characters (the first 200 and "..." for longer content),
    and it draws one uuid per hit. Otherwise it raises [ValueError]. *)
Theorem format_sources_spec (env : Env) (docs : list Hit) (w : World) :
  (forallb (presentable env) docs = true ->
   exists srcs,
     RAGService._format_sources env docs w
     = (Return srcs, set_draws (draws w + length docs) w) /\
     Forall2 (mirrors env) docs srcs) /\
  (forallb (presentable env) docs = false ->
   exists w',
     RAGService._format_sources env docs w = (Raise ValueError, w') /\
     same_store w w').
Proof.
  split.
  - intros H. apply _format_sources_presentable. exact H.
  - intros H. destruct (_format_sources_unpresentable env docs H w) as (w' & E & Hs & _).
    eauto.
Qed.

Lemma format_sources_spec_witness :
  exists srcs,
    RAGService._format_sources env0 [paged_hit] ml_world
    = (Return srcs, set_draws (draws ml_world + length [paged_hit]) ml_world) /\
    Forall2 (mirrors env0) [paged_hit] srcs.
Proof.
  apply (format_sources_spec env0 [paged_hit] ml_world).
  vm_compute. reflexivity.
Defined.

(** X21: a query that retrieves passages, with Ollama up and every
    hit acceptable to the source model, returns: the answer is the
    stripped output of the model on the one prompt sent, the sources
    mirror the retrieved hits one by one, the conversation id is the
    caller's (a fresh uuid when none or an empty one is given), and
    the conversation under that id grows by exactly the question and
    the answer. The index and every other conversation are unchanged. *)
Theorem query_answers (env : Env) (question : str) (cid : option str) (k : Z)
    (w : World) :
  map format_hit (similarity_search_with_score env (collection w) question k) <> [] ->
  ollama_up w = true ->
  forallb (presentable env)
    (map format_hit (similarity_search_with_score env (collection w) question k))
  = true ->
  exists srcs w' h',
    RAGService.query env question cid k w
    = (Return {| RAGService.answer := strip (ollama env (chain_prompt env question w));
                 RAGService.sources := srcs;
                 RAGService.conversation_id := effective_id env cid w |}, w') /\
    Forall2 (mirrors env)
      (map format_hit (similarity_search_with_score env (collection w) question k))
      srcs /\
    collection w' = collection w /\
    llm_calls w' = llm_calls w ++ [chain_prompt env question w] /\
    conversations w' !! effective_id env cid w = Some h' /\
    map turn (messages h')
    = map turn (from_option messages [] (conversations w !! effective_id env cid w))
      ++ [(user, question);
          (assistant, strip (ollama env (chain_prompt env question w)))] /\
    (forall other, other <> effective_id env cid w ->
       conversations w' !! other = conversations w !! other).
Proof.
  intros Hne Hup Hok.
  destruct (query_run env question cid k w Hne) as (_ & _ & H). exact (H Hup Hok).
Qed.

Lemma query_answers_witness :
  exists srcs w' h',
    RAGService.query env0 ml_question (Some (py "c1")) 3 ml_world
    = (Return {| RAGService.answer :=
                   strip (ollama env0 (chain_prompt env0 ml_question ml_world));
                 RAGService.sources := srcs;
                 RAGService.conversation_id :=
                   effective_id env0 (Some (py "c1")) ml_world |}, w') /\
    Forall2 (mirrors env0)
      (map format_hit
         (similarity_search_with_score env0 (collection ml_world) ml_question 3))
      srcs /\
    collection w' = collection ml_world /\
    llm_calls w' = llm_calls ml_world ++ [chain_prompt env0 ml_question ml_world] /\
    conversations w' !! effective_id env0 (Some (py "c1")) ml_world = Some h' /\
    map turn (messages h')
    = map turn
        (from_option messages []
           (conversations ml_world !! effective_id env0 (Some (py "c1")) ml_world))
      ++ [(user, ml_question);
          (assistant, strip (ollama env0 (chain_prompt env0 ml_question ml_world)))] /\
    (forall other, other <> effective_id env0 (Some (py "c1")) ml_world ->
       conversations w' !! other = conversations ml_world !! other).
Proof.
  apply (query_answers env0 ml_question (Some (py "c1")) 3 ml_world).
  - vm_compute. discriminate.
  - reflexivity.
  - vm_compute. reflexivity.
Defined.

(** X22: a query that retrieves passages while Ollama is down raises
    [ConnectionError]; the index, the conversations and the model log
    are as before, so the question is not recorded. *)
Theorem query_ollama_down (env : Env) (question : str) (cid : option str) (k : Z)
    (w : World) :
  map format_hit (similarity_search_with_score env (collection w) question k) <> [] ->
  ollama_up w = false ->
  exists w',
    RAGService.query env question cid k w = (Raise ConnectionError, w') /\
    same_store w w'.
Proof.
  intros Hne Hup.
  destruct (query_run env question cid k w Hne) as (H & _). exact (H Hup).
Qed.

Lemma query_ollama_down_witness :
  exists w',
    RAGService.query env0 ml_question None 3 (offline ml_world)
    = (Raise ConnectionError, w') /\
    same_store (offline ml_world) w'.
Proof.
  apply (query_ollama_down env0 ml_question None 3 (offline ml_world)).
  - vm_compute. discriminate.
  - reflexivity.
Defined.

(** X23: when a retrieved hit is not acceptable to the source model
    (a score outside [0, 1], an integer where a name belongs, a page
    below 1 or a page string the validation library does not read as
    an integer), the query raises [ValueError]
    only after the model has been called: the prompt is in the model
    log, the answer is lost, and the conversation is not updated. *)
Theorem query_rejected_hit (env : Env) (question : str) (cid : option str) (k : Z)
    (w : World) :
  map format_hit (similarity_search_with_score env (collection w) question k) <> [] ->
  ollama_up w = true ->
  forallb (presentable env)
    (map format_hit (similarity_search_with_score env (collection w) question k))
  = false ->
  exists w',
    RAGService.query env question cid k w = (Raise ValueError, w') /\
    collection w' = collection w /\
    conversations w' = conversations w /\
    llm_calls w' = llm_calls w ++ [chain_prompt env question w].
Proof.
  intros Hne Hup Hbad.
  destruct (query_run env question cid k w Hne) as (_ & H & _). exact (H Hup Hbad).
Qed.

Lemma query_rejected_hit_witness :
  exists w',
    RAGService.query (env_of rounding_distance true) (py "It learns from data.")
      None 3 ml_world
    = (Raise ValueError, w') /\
    collection w' = collection ml_world /\
    conversations w' = conversations ml_world /\
    llm_calls w'
    = llm_calls ml_world
      ++ [chain_prompt (env_of rounding_distance true) (py "It learns from data.")
            ml_world].
Proof.
  apply (query_rejected_hit (env_of rounding_distance true) (py "It learns from data.")
           None 3 ml_world).
  - vm_compute. discriminate.
  - reflexivity.
  - vm_compute. reflexivity.
Defined.

End RagExtras.

(** * The field validators: theorems *)

Module ValidatorExtras.
Import PyStr PyStrMore TextSplitter TextSplitterMore PyStrFacts TextSplitterFacts
  TextSplitterMoreFacts ValidatorFacts.

(** X24: [validate_extensions] returns one extension per input, each
    starting with a dot and unchanged by lowering, and validating its
    result again gives the same list. *)
Theorem validate_extensions_normalises (v : list str) :
  length (SettingsMore.validate_extensions v) = length v /\
  Forall (fun e => startswith e (py ".") = true /\ lower e = e)
    (SettingsMore.validate_extensions v) /\
  SettingsMore.validate_extensions (SettingsMore.validate_extensions v)
  = SettingsMore.validate_extensions v.
Proof.
  unfold SettingsMore.validate_extensions.
  assert (Hdot : forall ext,
            startswith
              (lower (if negb (startswith ext (py ".")) then py "." ++ ext else ext))
              (py ".") = true).
  { intros ext. apply lower_dot. destruct (startswith ext (py ".")) eqn:E;
      cbn [negb]; [exact E|]. apply startswith_app. exists ext. reflexivity. }
  split; [apply length_map|]. split.
  - apply List.Forall_forall. intros e He. apply in_map_iff in He as (ext & <- & _).
    split; [apply Hdot | apply lower_idem].
  - rewrite map_map. apply map_ext. intros ext. cbv zeta.
    rewrite Hdot. cbn [negb]. apply lower_idem.
Qed.

(** X25: a URL accepted by [validate_ollama_url] comes back without
    its trailing slashes and nothing else removed. The result is
    accepted unchanged when validated again, except for the inputs
    made of the scheme and slashes only, which come back as "http:"
    or "https:", values the validator itself rejects. *)
Theorem validate_ollama_url_spec (v u : str) :
  SettingsMore.validate_ollama_url v = Return u ->
  (exists n, v = u ++ repeat "/"%char n) /\
  (forall d, u <> [] -> List.last u d <> "/"%char) /\
  (u = py "http:" \/ u = py "https:" \/
   SettingsMore.validate_ollama_url u = Return u) /\
  SettingsMore.validate_ollama_url (py "http:") = Raise ValueError /\
  SettingsMore.validate_ollama_url (py "https:") = Raise ValueError.
Proof.
  unfold SettingsMore.validate_ollama_url at 1. intros H.
  destruct (startswith v (py "http://") || startswith v (py "https://")) eqn:E;
    cbn [negb] in H; [|discriminate].
  injection H as Hu. change (rstrip_chars v (py "/") = u) in Hu. subst u.
  split; [|split; [|split; [|split; reflexivity]]].
  - destruct (rstrip_chars_decomp v (py "/")) as (t & Et & Ht).
    exists (length t). rewrite <- (slashes_repeat t Ht). exact Et.
  - intros d Hne Hl. pose proof (rstrip_chars_last v (py "/") d Hne) as Hn.
    change (List.last (rstrip_chars v (py "/")) d = "/"%char) in Hl.
    rewrite Hl in Hn. apply Hn. apply list_elem_of_singleton. reflexivity.
  - assert (Hscheme : forall scheme short,
              rstrip_chars scheme (py "/") = short ->
              startswith v scheme = true ->
              rstrip_chars v (py "/") = short \/
              startswith (rstrip_chars v (py "/")) scheme = true).
    { intros scheme short Hs Hv. apply startswith_app in Hv as [rest ->].
      rewrite rstrip_chars_app. destruct (rstrip_chars rest (py "/")) as [|x l].
      - left. exact Hs.
      - right. apply startswith_app. eexists. reflexivity. }
    unfold SettingsMore.validate_ollama_url. rewrite rstrip_chars_idem.
    apply orb_prop in E as [E|E].
    + destruct (Hscheme (py "http://") (py "http:") eq_refl E) as [-> | ->]; auto.
    + destruct (Hscheme (py "https://") (py "https:") eq_refl E) as [-> | ->]; auto.
      rewrite orb_true_r. auto.
Qed.

Lemma validate_ollama_url_spec_witness :
  (exists n, py "http://localhost:11434/" = py "http://localhost:11434" ++ repeat "/"%char n) /\
  (forall d, py "http://localhost:11434" <> [] ->
             List.last (py "http://localhost:11434") d <> "/"%char) /\
  (py "http://localhost:11434" = py "http:" \/
   py "http://localhost:11434" = py "https:" \/
   SettingsMore.validate_ollama_url (py "http://localhost:11434")
   = Return (py "http://localhost:11434")) /\
  SettingsMore.validate_ollama_url (py "http:") = Raise ValueError /\
  SettingsMore.validate_ollama_url (py "https:") = Raise ValueError.
Proof.
  apply (validate_ollama_url_spec (py "http://localhost:11434/")
           (py "http://localhost:11434")).
  reflexivity.
Defined.

(** X26: [validate_question] rejects exactly the questions without a
    character that is not whitespace. An accepted question comes back
    stripped: not empty, no whitespace at either end, a contiguous
    piece of what was sent, and accepted unchanged when validated
    again. *)
Theorem validate_question_spec (v : str) :
  (Forall (fun c => isspace c = true) v <->
   SchemasMore.validate_question v = Raise ValueError) /\
  (forall q, SchemasMore.validate_question v = Return q ->
     q = strip v /\ stripped q /\ infix q v /\
     SchemasMore.validate_question q = Return q).
Proof.
  split.
  - split.
    + intros H. unfold SchemasMore.validate_question.
      destruct v; [reflexivity|]. rewrite (strip_spaces _ H). reflexivity.
    + unfold SchemasMore.validate_question. destruct v as [|c r]; [constructor|].
      destruct (strip (c :: r)) eqn:E; [|discriminate]. intros _.
      apply IngestMoreFacts.blank_spaces. unfold DocumentProcessor.blank.
      rewrite E. reflexivity.
  - intros q. unfold SchemasMore.validate_question at 1.
    destruct v as [|c r]; [discriminate|].
    destruct (strip (c :: r)) as [|x l] eqn:E; [discriminate|].
    intros [= <-]. rewrite <- E.
    assert (Hne : strip (c :: r) <> []) by (rewrite E; discriminate).
    split; [reflexivity|]. split; [apply strip_stripped; exact Hne|].
    split; [apply strip_infix|].
    unfold SchemasMore.validate_question. rewrite strip_idem, E. reflexivity.
Qed.

(** X27: the status and role validators compare the lowered value
    with their lists: what they return is the lowered input, is one
    of the allowed values, and is accepted unchanged when validated
    again. *)
Theorem lowercase_validators_spec (v r : str) :
  (SchemasMore.validate_role v = Return r ->
     r = lower v /\ r ∈ [py "user"; py "assistant"; py "system"] /\
     SchemasMore.validate_role r = Return r) /\
  (SchemasMore.validate_upload_status v = Return r ->
     r = lower v /\ r ∈ [py "success"; py "error"; py "processing"] /\
     SchemasMore.validate_upload_status r = Return r) /\
  (SchemasMore.validate_health_status v = Return r ->
     r = lower v /\ r ∈ [py "healthy"; py "unhealthy"; py "degraded"] /\
     SchemasMore.validate_health_status r = Return r).
Proof.
  split; [|split]; apply lower_member;
    repeat constructor; vm_compute; reflexivity.
Qed.

Lemma lowercase_validators_spec_witness :
  py "user" = lower (py "User") /\
  py "user" ∈ [py "user"; py "assistant"; py "system"] /\
  SchemasMore.validate_role (py "user") = Return (py "user").
Proof.
  apply (lowercase_validators_spec (py "User") (py "user")). reflexivity.
Defined.

End ValidatorExtras.
